(** * ai-messenger: the session-authenticated message backend

    A shallow embedding of [database.py] and of the request handlers of
    [server.py], with the properties of the backend stated over it.

    Modelling conventions.
    - The SQLite file is a record of tables; a table is the list of its
      rows in scan (rowid) order.  A function of [database.py] or a
      handler of [server.py] takes the database and returns its result
      together with the database it leaves behind (what was committed).
    - Text is [string]; characters are taken as ASCII, so [len] is
      [String.length] and [str.encode()] is the list of the bytes.  A
      statement about what the handlers do with the text of a body
      carries this as a hypothesis ([ascii_body]).
    - The body of a request is a JSON object whose values are strings,
      or the JSON [null]; a body that is absent, is not JSON or holds
      a value that is no string is not modelled.
    - Integers are [Z], as Python's are unbounded; rowids and the
      integers bound to a statement are taken inside the 64-bit range of
      SQLite's [INTEGER], where the [sqlite3] module raises for any
      other.  A statement about an integer the request chooses (a
      limit, an offset, an id no message has) carries the range as a
      hypothesis ([binds]), and one about a path parameter that the
      router has passed it on ([routed]).
    - The clock ([datetime.now()], [CURRENT_TIMESTAMP]) and the random
      generator ([secrets]) are read from the environment [Env] that
      accompanies a request.
    - A Python exception is a value [Raise msg]; every handler is wrapped
      in [try ... except Exception as e], which answers 500.
    - [hashlib.pbkdf2_hmac] is library code: it is a member of the class
      [Hashlib] and every statement holds for whatever function it is. *)

From Stdlib Require Import ZArith NArith List String Ascii Bool Lia.
From Stdlib Require Import Permutation Sorted Strings.Byte DecimalString.
Import ListNotations.

Local Open Scope string_scope.
Local Open Scope list_scope.
Local Open Scope Z_scope.

(* ================================================================== *)
(** * Python values and helpers *)
(* ================================================================== *)

Module Py.

(** [str.isspace] on the ASCII range: TAB..CR, FS..US and the space. *)
Definition isspace (c : ascii) : bool :=
  let n := N_of_ascii c in
  ((9 <=? n) && (n <=? 13) || (28 <=? n) && (n <=? 32))%N.

Fixpoint lstrip (s : string) : string :=
  match s with
  | EmptyString => EmptyString
  | String c s' => if isspace c then lstrip s' else s
  end.

Fixpoint rstrip (s : string) : string :=
  match s with
  | EmptyString => EmptyString
  | String c s' =>
      match rstrip s' with
      | EmptyString => if isspace c then EmptyString else String c EmptyString
      | r => String c r
      end
  end.

(** [s.strip()] *)
Definition strip (s : string) : string := rstrip (lstrip s).

(** [s.split(sep)] for a one-character separator: every occurrence of
    [sep] ends a field, so the result has one field more than [s] has
    separators. *)
Fixpoint split (sep : ascii) (s : string) : list string :=
  match s with
  | EmptyString => [EmptyString]
  | String c s' =>
      if Ascii.eqb c sep then EmptyString :: split sep s'
      else match split sep s' with
           | h :: t => String c h :: t
           | [] => [String c EmptyString]
           end
  end.

Definition hex_digit (n : N) : ascii :=
  match n with
  | 0 => "0" | 1 => "1" | 2 => "2" | 3 => "3" | 4 => "4" | 5 => "5"
  | 6 => "6" | 7 => "7" | 8 => "8" | 9 => "9" | 10 => "a" | 11 => "b"
  | 12 => "c" | 13 => "d" | 14 => "e" | _ => "f"
  end%N%char.

(** [bytes.hex()]: two lower-case digits per byte. *)
Fixpoint hex (bs : list byte) : string :=
  match bs with
  | [] => EmptyString
  | b :: bs' =>
      let n := Byte.to_N b in
      String (hex_digit (n / 16)) (String (hex_digit (n mod 16)) (hex bs'))
  end.

(** [str.encode()] *)
Definition encode (s : string) : list byte := list_byte_of_string s.

(** [str(n)] for an integer. *)
Definition str_int (z : Z) : string := NilZero.string_of_int (Z.to_int z).

(** [x or ""] for [x] a string or [None]. *)
Definition or_empty (x : option string) : string :=
  match x with Some s => s | None => EmptyString end.

(** [s or None] for a string [s]. *)
Definition or_None (s : string) : option string :=
  match s with EmptyString => None | _ => Some s end.

(** A dict with string keys, as the parsed JSON body of a request;
    the values the clients send are strings, and only such bodies are
    modelled. *)
Definition dict := list (string * string).

Fixpoint get (d : dict) (k : string) : option string :=
  match d with
  | [] => None
  | (k', v) :: d' => if String.eqb k' k then Some v else get d' k
  end.

(** Exceptions. *)
Inductive exc (A : Type) : Type :=
| Ok (a : A)
| Raise (msg : string).
Arguments Ok {A} a.
Arguments Raise {A} msg.

End Py.

Import Py.

(** [secrets.token_hex(n)]: the hexadecimal form of [n] random bytes,
    here the bytes [rand] drawn by the generator. *)
Definition token_hex (rand : list byte) : string := Py.hex rand.

(** The part of [hashlib] the program calls:
    [pbkdf2_hmac(hash_name, password, salt, iterations)]. *)
Class Hashlib := {
  pbkdf2_hmac : string -> list byte -> list byte -> N -> list byte
}.

(* ================================================================== *)
(** * database.py: password hashing *)
(* ================================================================== *)

Section Passwords.
Context {HL : Hashlib}.

(** [hash_password(password)], with [rand] the bytes behind
    [secrets.token_hex(32)]. *)
Definition hash_password (rand : list byte) (password : string) : string :=
  let salt := token_hex rand in
  let password_hash :=
    pbkdf2_hmac "sha256" (Py.encode password) (Py.encode salt) 100000 in
  append salt (append "$" (Py.hex password_hash)).

(** [verify_password(stored_hash, password)]: unpacking the split into
    two names raises [ValueError] unless there are exactly two fields,
    and the [except] turns that into [False]. *)
Definition verify_password (stored_hash password : string) : bool :=
  match Py.split "$" stored_hash with
  | [salt; hash_val] =>
      let password_hash :=
        pbkdf2_hmac "sha256" (Py.encode password) (Py.encode salt) 100000 in
      String.eqb (Py.hex password_hash) hash_val
  | _ => false
  end.

End Passwords.

(* ================================================================== *)
(** * The tables of [init_db] *)
(* ================================================================== *)

(** The columns carry the names of the schema.  [BOOLEAN] columns hold
    the integers SQLite stores for them; a nullable column is an
    [option]; a timestamp is a clock reading. *)

Module Users.
Record row := {
  id : Z;                       (* INTEGER PRIMARY KEY AUTOINCREMENT *)
  username : string;            (* TEXT UNIQUE NOT NULL *)
  password_hash : string;       (* TEXT NOT NULL *)
  email : option string;        (* TEXT UNIQUE *)
  created_at : Z;               (* DEFAULT CURRENT_TIMESTAMP *)
  last_login : option Z;
  is_active : Z                 (* BOOLEAN DEFAULT 1 *)
}.

(** [UPDATE users SET last_login = ?] on one row. *)
Definition set_last_login (u : row) (t : Z) : row :=
  {| id := id u; username := username u; password_hash := password_hash u;
     email := email u; created_at := created_at u; last_login := Some t;
     is_active := is_active u |}.
End Users.

Module Sessions.
Record row := {
  id : Z;
  user_id : Z;                  (* INTEGER NOT NULL *)
  token : string;               (* TEXT UNIQUE NOT NULL *)
  created_at : Z;
  expires_at : option Z;
  is_valid : Z                  (* BOOLEAN DEFAULT 1 *)
}.
End Sessions.

Module Messages.
Record row := {
  id : Z;
  sender_id : Z;                (* INTEGER NOT NULL *)
  recipient_id : Z;             (* INTEGER NOT NULL *)
  message : string;             (* TEXT NOT NULL *)
  is_read : Z;                  (* BOOLEAN DEFAULT 0 *)
  read_at : option Z;
  created_at : Z
}.

(** [UPDATE messages SET is_read = 1, read_at = ?] on one row. *)
Definition set_read (m : row) (t : Z) : row :=
  {| id := id m; sender_id := sender_id m; recipient_id := recipient_id m;
     message := message m; is_read := 1; read_at := Some t;
     created_at := created_at m |}.
End Messages.

(** A value bound to or read from a statement. *)
Inductive Val : Type :=
| VNull
| VInt (z : Z)
| VText (s : string).

Module ActivityLogs.
Record row := {
  id : Z;
  user_id : Val;                (* INTEGER, nullable *)
  action : string;
  details : option string;
  ip_address : option string;
  status : string;
  created_at : Z
}.
End ActivityLogs.

(** The database file: the four tables the handlers below use and the
    [sqlite_sequence] counters behind [AUTOINCREMENT].  ([device_tokens]
    is written by [/register_device] only and read by nothing.) *)
Record DB := {
  users : list Users.row;
  sessions : list Sessions.row;
  messages : list Messages.row;
  activity_logs : list ActivityLogs.row;
  seq_users : Z;
  seq_sessions : Z;
  seq_messages : Z;
  seq_activity_logs : Z
}.

(** The database [init_db] creates. *)
Definition init_db : DB :=
  {| users := []; sessions := []; messages := []; activity_logs := [];
     seq_users := 0; seq_sessions := 0; seq_messages := 0;
     seq_activity_logs := 0 |}.

(** What a request reads from outside the database. *)
Record Env := {
  now : Z;                      (* the clock *)
  remote_addr : string;         (* [get_client_ip()] *)
  rand_bytes : list byte;       (* behind [secrets.token_hex(32)] *)
  rand_token : string           (* [secrets.token_urlsafe(32)] *)
}.

(** The rowid [AUTOINCREMENT] gives the next row: one more than the
    largest rowid the table has or has ever had. *)
Definition next_rowid (seq : Z) (ids : list Z) : Z :=
  Z.max seq (fold_right Z.max 0 ids) + 1.

(** ** [sqlite3.Row] *)

(** A fetched row maps the selected column names to values; subscripting
    it with another name raises [IndexError], and subscripting [None]
    (no row fetched) raises [TypeError]. *)
Definition Row := list (string * Val).

Fixpoint Row_lookup (r : Row) (k : string) : option Val :=
  match r with
  | [] => None
  | (k', v) :: r' => if String.eqb k' k then Some v else Row_lookup r' k
  end.

Definition subscript (r : option Row) (k : string) : Py.exc Val :=
  match r with
  | None => Raise "'NoneType' object is not subscriptable"
  | Some r =>
      match Row_lookup r k with
      | Some v => Ok v
      | None => Raise "No item with that key"
      end
  end.

Definition VOptText (o : option string) : Val :=
  match o with Some s => VText s | None => VNull end.

Definition VOptInt (o : option Z) : Val :=
  match o with Some z => VInt z | None => VNull end.

(** [column = ?] for an INTEGER column and for a TEXT column: [NULL]
    equals nothing. *)
Definition int_eq (column : Z) (param : Val) : bool :=
  match param with VInt z => column =? z | _ => false end.

Definition text_eq (column : string) (param : option string) : bool :=
  match param with Some s => String.eqb column s | None => false end.

(** Binding a fetched id to an [INTEGER NOT NULL] column.  The ids the
    handlers bind come from [INTEGER PRIMARY KEY] columns, so they are
    integers. *)
Definition not_null_int (column : string) (v : Val) : Py.exc Z :=
  match v with
  | VInt z => Ok z
  | VNull => Raise (append "NOT NULL constraint failed: " column)
  | VText _ => Raise "datatype mismatch"
  end.

(** [ORDER BY key DESC] and [ORDER BY key ASC]: insertion into the
    sorted result, rows of equal key staying in scan order. *)
Fixpoint insert_desc {A} (key : A -> Z) (x : A) (l : list A) : list A :=
  match l with
  | [] => [x]
  | y :: l' => if key y <=? key x then x :: l else y :: insert_desc key x l'
  end.

Definition order_by_desc {A} (key : A -> Z) (l : list A) : list A :=
  fold_right (insert_desc key) [] l.

Fixpoint insert_asc {A} (key : A -> Z) (x : A) (l : list A) : list A :=
  match l with
  | [] => [x]
  | y :: l' => if key x <=? key y then x :: l else y :: insert_asc key x l'
  end.

Definition order_by_asc {A} (key : A -> Z) (l : list A) : list A :=
  fold_right (insert_asc key) [] l.

(** [LIMIT limit OFFSET offset]: a negative offset counts as 0 and a
    negative limit as no limit. *)
Definition limit_offset {A} (limit offset : Z) (l : list A) : list A :=
  let l' := skipn (Z.to_nat offset) l in
  if limit <? 0 then l' else firstn (Z.to_nat limit) l'.

(* ================================================================== *)
(** * database.py *)
(* ================================================================== *)

(** [INSERT INTO activity_logs (user_id, action, details, ip_address,
    status)], committed.  [log_activity] swallows its own exceptions and
    returns nothing. *)
Definition log_activity (env : Env) (user_id : Val) (action : string)
    (details ip_address : option string) (status : string) (db : DB) : DB :=
  let rowid :=
    next_rowid (seq_activity_logs db) (map ActivityLogs.id (activity_logs db)) in
  {| users := users db; sessions := sessions db; messages := messages db;
     activity_logs := activity_logs db ++
       [ {| ActivityLogs.id := rowid; ActivityLogs.user_id := user_id;
            ActivityLogs.action := action; ActivityLogs.details := details;
            ActivityLogs.ip_address := ip_address;
            ActivityLogs.status := status;
            ActivityLogs.created_at := now env |} ];
     seq_users := seq_users db; seq_sessions := seq_sessions db;
     seq_messages := seq_messages db; seq_activity_logs := rowid |}.

(** The two [UNIQUE] constraints of [users]; [NULL] emails never clash. *)
Definition username_taken (db : DB) (username : string) : bool :=
  existsb (fun u => String.eqb (Users.username u) username) (users db).

Definition email_taken (db : DB) (email : option string) : bool :=
  match email with
  | None => false
  | Some e => existsb (fun u => text_eq e (Users.email u)) (users db)
  end.

Section Accounts.
Context {HL : Hashlib}.

(** [register_user(username, password, email)]: the [INSERT] either
    adds the row or raises [sqlite3.IntegrityError], which the function
    answers with [False] and the one message it has; nothing is
    committed then. *)
Definition register_user (env : Env) (username password : string)
    (email : option string) (db : DB) : (bool * string) * DB :=
  let password_hash := hash_password (rand_bytes env) password in
  if username_taken db username || email_taken db email then
    ((false, "Username already exists"), db)
  else
    let rowid := next_rowid (seq_users db) (map Users.id (users db)) in
    ((true, "User registered successfully"),
     {| users := users db ++
          [ {| Users.id := rowid; Users.username := username;
               Users.password_hash := password_hash; Users.email := email;
               Users.created_at := now env; Users.last_login := None;
               Users.is_active := 1 |} ];
        sessions := sessions db; messages := messages db;
        activity_logs := activity_logs db;
        seq_users := rowid; seq_sessions := seq_sessions db;
        seq_messages := seq_messages db;
        seq_activity_logs := seq_activity_logs db |}).

(** [login_user(username, password)].  The session [INSERT] can violate
    [token UNIQUE]; that exception reaches the generic [except], the
    pending [UPDATE] is dropped with the connection, and the message is
    the exception's text. *)
Definition login_user (env : Env) (username password : string) (db : DB)
    : (bool * string * option string) * DB :=
  match find (fun u => String.eqb (Users.username u) username
                       && (Users.is_active u =? 1)) (users db) with
  | None => ((false, "Invalid credentials", None), db)
  | Some user =>
      if negb (verify_password (Users.password_hash user) password) then
        ((false, "Invalid credentials", None), db)
      else
        let token := rand_token env in
        if existsb (fun s => String.eqb (Sessions.token s) token) (sessions db)
        then ((false, "UNIQUE constraint failed: sessions.token", None), db)
        else
          let rowid :=
            next_rowid (seq_sessions db) (map Sessions.id (sessions db)) in
          ((true, "Login successful", Some token),
           {| users :=
                map (fun u => if Users.id u =? Users.id user
                              then Users.set_last_login u (now env) else u)
                    (users db);
              sessions := sessions db ++
                [ {| Sessions.id := rowid; Sessions.user_id := Users.id user;
                     Sessions.token := token; Sessions.created_at := now env;
                     Sessions.expires_at := None; Sessions.is_valid := 1 |} ];
              messages := messages db; activity_logs := activity_logs db;
              seq_users := seq_users db; seq_sessions := rowid;
              seq_messages := seq_messages db;
              seq_activity_logs := seq_activity_logs db |})
  end.

End Accounts.

(** [verify_session_token(token)]: the first query reads the session by
    token and [is_valid]; the second selects [id, username] of its user
    and the function returns [True] with whatever that fetched. *)
Definition verify_session_token (db : DB) (token : option string)
    : bool * option Row :=
  match find (fun s => text_eq (Sessions.token s) token
                       && (Sessions.is_valid s =? 1)) (sessions db) with
  | Some session =>
      (true,
       option_map
         (fun u => [("id", VInt (Users.id u));
                    ("username", VText (Users.username u))])
         (find (fun u => Users.id u =? Sessions.user_id session) (users db)))
  | None => (false, None)
  end.

(** [get_user_by_username(username)] *)
Definition get_user_by_username (db : DB) (username : string) : option Row :=
  option_map
    (fun u => [("id", VInt (Users.id u));
               ("username", VText (Users.username u));
               ("email", VOptText (Users.email u));
               ("created_at", VInt (Users.created_at u));
               ("last_login", VOptInt (Users.last_login u))])
    (find (fun u => String.eqb (Users.username u) username) (users db)).

(* ================================================================== *)
(** * server.py *)
(* ================================================================== *)

(** ** JSON bodies and responses *)

#[warnings="-register-all"]
Inductive JSON : Type :=
| JNull
| JBool (b : bool)
| JNum (z : Z)
| JStr (s : string)
| JArr (items : list JSON)
| JObj (fields : list (string * JSON)).

Definition jsonify (v : Val) : JSON :=
  match v with
  | VNull => JNull
  | VInt z => JNum z
  | VText s => JStr s
  end.

(** What a handler returns: [jsonify(...), status]. *)
Definition Response : Type := JSON * Z.

Definition error (msg : string) : JSON := JObj [("error", JStr msg)].

(** ** Handler bodies: a state and exception monad over the database *)

Definition M (A : Type) : Type := DB -> Py.exc A * DB.

Definition ret {A} (a : A) : M A := fun db => (Ok a, db).

Definition bind {A B} (m : M A) (k : A -> M B) : M B :=
  fun db =>
    match m db with
    | (Ok a, db') => k a db'
    | (Raise e, db') => (Raise e, db')
    end.

Notation "x <- m ;; k" := (bind m (fun x => k))
  (at level 61, m at next level, right associativity).
Notation "' p <- m ;; k" := (bind m (fun x => match x with p => k end))
  (at level 61, p pattern, m at next level, right associativity).

(** An expression that may raise. *)
Definition lift {A} (x : Py.exc A) : M A := fun db => (x, db).

(** A [SELECT]. *)
Definition query {A} (f : DB -> A) : M A := fun db => (Ok (f db), db).

(** A write followed by [commit()]. *)
Definition execute (f : DB -> DB) : M unit := fun db => (Ok tt, f db).

(** A call into [database.py] that returns a result and commits. *)
Definition call {A} (f : DB -> A * DB) : M A :=
  fun db => let (a, db') := f db in (Ok a, db').

(** [for x in xs: ys.append(f(x))] *)
Fixpoint for_each {A B} (f : A -> M B) (xs : list A) : M (list B) :=
  match xs with
  | [] => ret []
  | x :: xs' => y <- f x ;; ys <- for_each f xs' ;; ret (y :: ys)
  end.

(** [try: ... except Exception as e: return jsonify({"error": ...}), 500],
    with [describe e] the text the handler puts in the body. *)
Definition try_except (describe : string -> string) (body : M Response)
    (db : DB) : Response * DB :=
  match body db with
  | (Ok r, db') => (r, db')
  | (Raise e, db') => ((error (describe e), 500), db')
  end.

Definition str_e (e : string) : string := e.
Definition internal_server_error (e : string) : string :=
  "Internal server error".

Definition is_empty (s : string) : bool :=
  match s with EmptyString => true | _ => false end.

Definition len (s : string) : Z := Z.of_nat (String.length s).

(** [request.json or {}] *)
Definition json_or_empty (json : option Py.dict) : Py.dict :=
  match json with Some d => d | None => [] end.

(** ** The queries of the message handlers *)

(** [FROM messages m JOIN users u ON m.sender_id = u.id] *)
Definition messages_join_users (db : DB) : list (Messages.row * Users.row) :=
  flat_map
    (fun m => map (pair m)
                (filter (fun u => Messages.sender_id m =? Users.id u) (users db)))
    (messages db).

Definition m_created_at (mu : Messages.row * Users.row) : Z :=
  Messages.created_at (fst mu).

(** [WHERE m.recipient_id = ? AND m.is_read = 0 ORDER BY m.created_at DESC] *)
Definition select_unread (recipient : Val) (db : DB)
    : list (Messages.row * Users.row) :=
  order_by_desc m_created_at
    (filter (fun mu => int_eq (Messages.recipient_id (fst mu)) recipient
                       && (Messages.is_read (fst mu) =? 0))
            (messages_join_users db)).

(** [WHERE (m.sender_id = ? AND m.recipient_id = ?)
        OR (m.sender_id = ? AND m.recipient_id = ?)]
    with the parameters [(a, b, b, a)]. *)
Definition in_conversation (a b : Val) (m : Messages.row) : bool :=
  int_eq (Messages.sender_id m) a && int_eq (Messages.recipient_id m) b
  || int_eq (Messages.sender_id m) b && int_eq (Messages.recipient_id m) a.

(** [SELECT COUNT( * ) as total FROM messages m WHERE ...] *)
Definition count_conversation (a b : Val) (db : DB) : Z :=
  Z.of_nat (List.length (filter (in_conversation a b) (messages db))).

(** [... ORDER BY m.created_at ASC] *)
Definition select_conversation (a b : Val) (db : DB)
    : list (Messages.row * Users.row) :=
  order_by_asc m_created_at
    (filter (fun mu => in_conversation a b (fst mu)) (messages_join_users db)).

(** [... ORDER BY m.created_at DESC LIMIT ? OFFSET ?] *)
Definition select_conversation_page (a b : Val) (limit offset : Z) (db : DB)
    : list (Messages.row * Users.row) :=
  limit_offset limit offset
    (order_by_desc m_created_at
       (filter (fun mu => in_conversation a b (fst mu))
               (messages_join_users db))).

(** [INSERT INTO messages (sender_id, recipient_id, message)] *)
Definition insert_message (env : Env) (sender recipient : Z) (text : string)
    (db : DB) : DB :=
  let rowid := next_rowid (seq_messages db) (map Messages.id (messages db)) in
  {| users := users db; sessions := sessions db;
     messages := messages db ++
       [ {| Messages.id := rowid; Messages.sender_id := sender;
            Messages.recipient_id := recipient; Messages.message := text;
            Messages.is_read := 0; Messages.read_at := None;
            Messages.created_at := now env |} ];
     activity_logs := activity_logs db;
     seq_users := seq_users db; seq_sessions := seq_sessions db;
     seq_messages := rowid; seq_activity_logs := seq_activity_logs db |}.

(** [UPDATE messages SET is_read = 1, read_at = ?
     WHERE id = ? AND recipient_id = ?] *)
Definition update_read (env : Env) (message_id : Z) (recipient : Val)
    (db : DB) : DB :=
  {| users := users db; sessions := sessions db;
     messages :=
       map (fun m => if (Messages.id m =? message_id)
                        && int_eq (Messages.recipient_id m) recipient
                     then Messages.set_read m (now env) else m)
           (messages db);
     activity_logs := activity_logs db;
     seq_users := seq_users db; seq_sessions := seq_sessions db;
     seq_messages := seq_messages db;
     seq_activity_logs := seq_activity_logs db |}.

(** ** The handlers *)

(** A value inside an f-string. *)
Definition str_val (v : Val) : string :=
  match v with
  | VNull => "None"
  | VInt z => Py.str_int z
  | VText s => s
  end.

Definition JOptStr (o : option string) : JSON :=
  match o with Some s => JStr s | None => JNull end.

(** [verify_session_token(token)] as the handlers call it. *)
Definition verify (token : option string) : M (bool * option Row) :=
  query (fun db => verify_session_token db token).

Section Handlers.
Context {HL : Hashlib}.

(** [POST /signup] *)
Definition signup (env : Env) (json : option Py.dict) : DB -> Response * DB :=
  try_except internal_server_error
    (let data := json_or_empty json in
     let username := Py.strip (Py.or_empty (Py.get data "username")) in
     let password := Py.strip (Py.or_empty (Py.get data "password")) in
     let email := Py.or_None (Py.strip (Py.or_empty (Py.get data "email"))) in
     if is_empty username || is_empty password then
       ret (error "Username and password required", 400)
     else if len password <? 6 then
       ret (error "Password must be at least 6 characters", 400)
     else if len username <? 3 then
       ret (error "Username must be at least 3 characters", 400)
     else
       ' (success, message) <- call (register_user env username password email) ;;
       if (success : bool) then
         _ <- execute (log_activity env VNull "user_signup"
                         (Some (append "Username: " username))
                         (Some (remote_addr env)) "success") ;;
         ret (JObj [("status", JStr "success"); ("message", JStr message)], 201)
       else
         ret (error message, 400)).

(** [POST /login] *)
Definition login (env : Env) (json : option Py.dict) : DB -> Response * DB :=
  try_except internal_server_error
    (let data := json_or_empty json in
     let username := Py.strip (Py.or_empty (Py.get data "username")) in
     let password := Py.strip (Py.or_empty (Py.get data "password")) in
     if is_empty username || is_empty password then
       ret (error "Username and password required", 400)
     else
       ' (success, message, token) <- call (login_user env username password) ;;
       if (success : bool) then
         user <- query (fun db => get_user_by_username db username) ;;
         user_id <- lift (subscript user "id") ;;
         _ <- execute (log_activity env user_id "user_login" None
                         (Some (remote_addr env)) "success") ;;
         ret (JObj [("status", JStr "success"); ("message", JStr message);
                    ("token", JOptStr token); ("user_id", jsonify user_id);
                    ("username", JStr username)], 200)
       else
         _ <- execute (log_activity env VNull "failed_login_attempt"
                         (Some (append "Username: " username))
                         (Some (remote_addr env)) "failed") ;;
         ret (error message, 401)).

End Handlers.

(** [POST /send_message] *)
Definition send_message (env : Env) (json : option Py.dict)
    : DB -> Response * DB :=
  try_except str_e
    (let data := json_or_empty json in
     let token := Py.get data "token" in
     let recipient := Py.strip (Py.or_empty (Py.get data "recipient")) in
     let message := Py.strip (Py.or_empty (Py.get data "message")) in
     ' (valid, user) <- verify token ;;
     if negb valid then
       ret (error "Unauthorized - Invalid or expired token", 401)
     else if is_empty recipient || is_empty message then
       _ <- lift (subscript user "username") ;;
       ret (error "Recipient and message required", 400)
     else
       recipient_user <- query (fun db => get_user_by_username db recipient) ;;
       match recipient_user with
       | None =>
           _ <- lift (subscript user "username") ;;
           ret (error "Recipient user not found", 404)
       | Some _ =>
           user_id <- lift (subscript user "id") ;;
           recipient_id <- lift (subscript recipient_user "id") ;;
           sender <- lift (not_null_int "messages.sender_id" user_id) ;;
           rcpt <- lift (not_null_int "messages.recipient_id" recipient_id) ;;
           _ <- execute (insert_message env sender rcpt message) ;;
           username <- lift (subscript user "username") ;;
           _ <- execute (log_activity env user_id "send_message"
                           (Some (append "To: " recipient))
                           (Some (remote_addr env)) "success") ;;
           ret (JObj [("status", JStr "success");
                      ("message",
                       JStr (append "Message sent from "
                               (append (str_val username)
                                  (append " to " recipient))))], 200)
       end).

(** [GET /get_messages] *)
Definition get_messages (env : Env) (token : option string)
    : DB -> Response * DB :=
  try_except str_e
    (' (valid, user) <- verify token ;;
     if negb valid then
       ret (error "Unauthorized - Invalid or expired token", 401)
     else
       user_id <- lift (subscript user "id") ;;
       messages <- query (select_unread user_id) ;;
       let message_list :=
         map (fun msg : Messages.row * Users.row =>
                JObj [("id", JNum (Messages.id (fst msg)));
                      ("sender", JStr (Users.username (snd msg)));
                      ("message", JStr (Messages.message (fst msg)));
                      ("timestamp", JNum (Messages.created_at (fst msg)))])
             messages in
       _ <- lift (subscript user "username") ;;
       _ <- execute (log_activity env user_id "get_messages"
                       (Some (append "Retrieved "
                                (append (Py.str_int (Z.of_nat (List.length message_list)))
                                        " messages")))
                       (Some (remote_addr env)) "success") ;;
       ret (JObj [("messages", JArr message_list)], 200)).

(** [POST /mark_read/<int:message_id>]: here [request.json] is used as
    it is, so the body [null] raises at [data.get].  The router passes
    on ids that are not negative, and the [UPDATE] is run for an id
    SQLite binds. *)
Definition mark_read (env : Env) (message_id : Z) (json : option Py.dict)
    : DB -> Response * DB :=
  try_except str_e
    (data <- lift (match json with
                   | Some d => Ok d
                   | None => Raise "'NoneType' object has no attribute 'get'"
                   end) ;;
     let token := Py.get data "token" in
     ' (valid, user) <- verify token ;;
     if negb valid then
       ret (error "Unauthorized", 401)
     else
       user_id <- lift (subscript user "id") ;;
       _ <- execute (update_read env message_id user_id) ;;
       _ <- lift (subscript user "username") ;;
       _ <- execute (log_activity env user_id "mark_message_read"
                       (Some (append "Message ID: " (Py.str_int message_id)))
                       (Some (remote_addr env)) "success") ;;
       ret (JObj [("status", JStr "success")], 200)).

(** [GET /get_conversation/<recipient_username>] *)
Definition get_conversation (env : Env) (recipient_username : string)
    (token : option string) : DB -> Response * DB :=
  try_except str_e
    (' (valid, user) <- verify token ;;
     if negb valid then
       ret (error "Unauthorized", 401)
     else
       recipient_user <-
         query (fun db => get_user_by_username db recipient_username) ;;
       match recipient_user with
       | None => ret (error "User not found", 404)
       | Some _ =>
           user_id <- lift (subscript user "id") ;;
           recipient_id <- lift (subscript recipient_user "id") ;;
           messages <- query (select_conversation user_id recipient_id) ;;
           let message_list :=
             map (fun msg : Messages.row * Users.row =>
                    JObj [("id", JNum (Messages.id (fst msg)));
                          ("sender", JStr (Users.username (snd msg)));
                          ("message", JStr (Messages.message (fst msg)));
                          ("is_read", JNum (Messages.is_read (fst msg)));
                          ("timestamp", JNum (Messages.created_at (fst msg)))])
                 messages in
           _ <- lift (subscript user "username") ;;
           _ <- execute (log_activity env user_id "view_conversation"
                           (Some (append "With: " recipient_username))
                           (Some (remote_addr env)) "success") ;;
           ret (JObj [("conversation", JArr message_list)], 200)
       end).

(** [GET /get_user_profile] *)
Definition get_user_profile (env : Env) (token : option string)
    : DB -> Response * DB :=
  try_except str_e
    (' (valid, user) <- verify token ;;
     if negb valid then
       ret (error "Unauthorized", 401)
     else
       id <- lift (subscript user "id") ;;
       username <- lift (subscript user "username") ;;
       email <- lift (subscript user "email") ;;
       created_at <- lift (subscript user "created_at") ;;
       last_login <- lift (subscript user "last_login") ;;
       ret (JObj [("user",
                   JObj [("id", jsonify id);
                         ("username", jsonify username);
                         ("email", jsonify email);
                         ("created_at", jsonify created_at);
                         ("last_login", jsonify last_login)])], 200)).

(** [msg["sender"] == user["username"]] *)
Definition is_own_message (sender : string) (username : Val) : bool :=
  match username with VText s => String.eqb sender s | _ => false end.

(** One entry of the page, built inside the loop of
    [get_conversation_v2]. *)
Definition page_entry (user : option Row) (msg : Messages.row * Users.row)
    : M JSON :=
  username <- lift (subscript user "username") ;;
  ret (JObj [("id", JNum (Messages.id (fst msg)));
             ("sender", JStr (Users.username (snd msg)));
             ("is_own_message",
              JBool (is_own_message (Users.username (snd msg)) username));
             ("message", JStr (Messages.message (fst msg)));
             ("is_read", JNum (Messages.is_read (fst msg)));
             ("timestamp", JNum (Messages.created_at (fst msg)))]).

(** [GET /get_conversation_v2/<recipient_username>]; [limit_arg] and
    [offset_arg] are the query parameters read with [type=int], [None]
    when absent or not a number.  The second query is run for a limit
    and an offset SQLite binds. *)
Definition get_conversation_v2 (env : Env) (recipient_username : string)
    (token : option string) (limit_arg offset_arg : option Z)
    : DB -> Response * DB :=
  try_except str_e
    (let limit := match limit_arg with Some n => n | None => 50 end in
     let offset := match offset_arg with Some n => n | None => 0 end in
     ' (valid, user) <- verify token ;;
     if negb valid then
       ret (error "Unauthorized", 401)
     else
       recipient_user <-
         query (fun db => get_user_by_username db recipient_username) ;;
       match recipient_user with
       | None => ret (error "User not found", 404)
       | Some _ =>
           user_id <- lift (subscript user "id") ;;
           recipient_id <- lift (subscript recipient_user "id") ;;
           count <- query (count_conversation user_id recipient_id) ;;
           messages <-
             query (select_conversation_page user_id recipient_id
                      limit offset) ;;
           message_list <- for_each (page_entry user) messages ;;
           ret (JObj [("conversation", JArr (rev message_list));
                      ("total_messages", JNum count);
                      ("has_more", JBool (offset + limit <? count))], 200)
       end).

(** [GET /health] *)
Definition health_check (db : DB) : Response * DB :=
  ((JObj [("status", JStr "healthy")], 200), db).

(** ** Routing *)

(** The routes that read or write the four tables.  [/get_all_users]
    only reads and [/register_device] writes [device_tokens] only. *)
Inductive Request : Type :=
| POST_signup (json : option Py.dict)
| POST_login (json : option Py.dict)
| POST_send_message (json : option Py.dict)
| GET_get_messages (token : option string)
| POST_mark_read (message_id : Z) (json : option Py.dict)
| GET_get_conversation (recipient_username : string) (token : option string)
| GET_get_user_profile (token : option string)
| GET_get_conversation_v2 (recipient_username : string)
    (token : option string) (limit offset : option Z)
| GET_health.

Definition handle {HL : Hashlib} (env : Env) (req : Request)
    : DB -> Response * DB :=
  match req with
  | POST_signup json => signup env json
  | POST_login json => login env json
  | POST_send_message json => send_message env json
  | GET_get_messages token => get_messages env token
  | POST_mark_read message_id json => mark_read env message_id json
  | GET_get_conversation r token => get_conversation env r token
  | GET_get_user_profile token => get_user_profile env token
  | GET_get_conversation_v2 r token limit offset =>
      get_conversation_v2 env r token limit offset
  | GET_health => health_check
  end.

(** The databases the server can be in: [init_db] followed by requests. *)
Inductive reachable {HL : Hashlib} : DB -> Prop :=
| reachable_init : reachable init_db
| reachable_step : forall db env req,
    reachable db -> reachable (snd (handle env req db)).

(** The token a request authenticates with, for the routes that ask for
    one and were given a body to read it from. *)
Definition request_token (req : Request) : option (option string) :=
  match req with
  | POST_signup _ | POST_login _ | GET_health => None
  | POST_send_message json => Some (Py.get (json_or_empty json) "token")
  | GET_get_messages token => Some token
  | POST_mark_read _ None => None
  | POST_mark_read _ (Some data) => Some (Py.get data "token")
  | GET_get_conversation _ token => Some token
  | GET_get_user_profile token => Some token
  | GET_get_conversation_v2 _ token _ _ => Some token
  end.

(* ================================================================== *)
(** * Consistency of a database *)
(* ================================================================== *)

(** What the schema enforces ([PRIMARY KEY], [UNIQUE]) and what the
    handlers maintain although SQLite does not check foreign keys: a
    session and a message refer to users that exist. *)
Record db_ok (db : DB) : Prop := {
  ok_user_ids : NoDup (map Users.id (users db));
  ok_usernames : NoDup (map Users.username (users db));
  ok_tokens : NoDup (map Sessions.token (sessions db));
  ok_message_ids : NoDup (map Messages.id (messages db));
  ok_session_user : forall s, In s (sessions db) ->
    In (Sessions.user_id s) (map Users.id (users db));
  ok_message_sender : forall m, In m (messages db) ->
    In (Messages.sender_id m) (map Users.id (users db))
}.

(** The same as a check that runs. *)
Fixpoint nodupb {A} (eqb : A -> A -> bool) (l : list A) : bool :=
  match l with
  | [] => true
  | x :: l' => negb (existsb (eqb x) l') && nodupb eqb l'
  end.

Definition db_okb (db : DB) : bool :=
  nodupb Z.eqb (map Users.id (users db))
  && nodupb String.eqb (map Users.username (users db))
  && nodupb String.eqb (map Sessions.token (sessions db))
  && nodupb Z.eqb (map Messages.id (messages db))
  && forallb (fun s => existsb (Z.eqb (Sessions.user_id s))
                         (map Users.id (users db))) (sessions db)
  && forallb (fun m => existsb (Z.eqb (Messages.sender_id m))
                         (map Users.id (users db))) (messages db).

(** The row of [users] with a given id or name, when there is one. *)
Definition user_by_id (db : DB) (id : Z) : option Users.row :=
  find (fun u => Users.id u =? id) (users db).

Definition user_by_name (db : DB) (username : string) : option Users.row :=
  find (fun u => String.eqb (Users.username u) username) (users db).

Definition message_by_id (db : DB) (id : Z) : option Messages.row :=
  find (fun m => Messages.id m =? id) (messages db).

(** The read-state of a message. *)
Definition read_state (m : Messages.row) : Z * option Z :=
  (Messages.is_read m, Messages.read_at m).

(** Status and body of a response. *)
Definition status (r : Response) : Z := snd r.
Definition body (r : Response) : JSON := fst r.

(** A field of a JSON object. *)
Fixpoint field_lookup (fields : list (string * JSON)) (k : string)
    : option JSON :=
  match fields with
  | [] => None
  | (k', v) :: rest => if String.eqb k' k then Some v else field_lookup rest k
  end.

Definition field (j : JSON) (k : string) : option JSON :=
  match j with JObj fields => field_lookup fields k | _ => None end.

(* ================================================================== *)
(** * A run of the server on concrete requests *)
(* ================================================================== *)

(** A stand-in for [hashlib.pbkdf2_hmac], to run the model: one byte
    folded from salt and password. *)
Definition demo_pbkdf2_hmac (hash_name : string) (password salt : list byte)
    (iterations : N) : list byte :=
  let sum :=
    fold_right (fun b acc => (Byte.to_N b + 31 * acc) mod 256)%N 7%N
               (salt ++ password) in
  match Byte.of_N sum with Some b => [b] | None => [] end.

Definition demo_hashlib : Hashlib := {| pbkdf2_hmac := demo_pbkdf2_hmac |}.

Definition demo_env (t : Z) (tok : string) : Env :=
  {| now := t; remote_addr := "127.0.0.1";
     rand_bytes := [x2a; xff; x00]%byte; rand_token := tok |}.

Definition credentials (username password : string) : option Py.dict :=
  Some [("username", username); ("password", password)].

(** alice, bob and carol sign up; alice and bob and carol log in; alice
    sends bob two messages and bob answers once. *)
Definition demo_requests : list (Env * Request) :=
  [ (demo_env 1 "", POST_signup (credentials "alice" "secret1"));
    (demo_env 2 "", POST_signup (credentials "bob" "secret2"));
    (demo_env 3 "", POST_signup (credentials "carol" "secret3"));
    (demo_env 4 "tokA", POST_login (credentials "alice" "secret1"));
    (demo_env 5 "tokB", POST_login (credentials "bob" "secret2"));
    (demo_env 6 "tokC", POST_login (credentials "carol" "secret3"));
    (demo_env 7 "", POST_send_message
       (Some [("token", "tokA"); ("recipient", "bob"); ("message", "hi")]));
    (demo_env 8 "", POST_send_message
       (Some [("token", "tokB"); ("recipient", "alice"); ("message", "hello")]));
    (demo_env 9 "", POST_send_message
       (Some [("token", "tokA"); ("recipient", "bob"); ("message", "bye")])) ].

Definition run {HL : Hashlib} (reqs : list (Env * Request)) (db : DB) : DB :=
  fold_left (fun db er => snd (handle (fst er) (snd er) db)) reqs db.

Definition demo_db : DB := run (HL := demo_hashlib) demo_requests init_db.

(** [demo_db] after bob has read alice's first message at time 10. *)
Definition demo_db_read : DB :=
  snd (mark_read (demo_env 10 "") 1 (Some [("token", "tokB")]) demo_db).

(** [demo_db] with carol deactivated ([is_active = 0]); her session
    stays as it was. *)
Definition deactivate (id : Z) (db : DB) : DB :=
  {| users :=
       map (fun u => if Users.id u =? id
                     then {| Users.id := Users.id u;
                             Users.username := Users.username u;
                             Users.password_hash := Users.password_hash u;
                             Users.email := Users.email u;
                             Users.created_at := Users.created_at u;
                             Users.last_login := Users.last_login u;
                             Users.is_active := 0 |}
                     else u) (users db);
     sessions := sessions db; messages := messages db;
     activity_logs := activity_logs db;
     seq_users := seq_users db; seq_sessions := seq_sessions db;
     seq_messages := seq_messages db;
     seq_activity_logs := seq_activity_logs db |}.

Definition demo_db_deactivated : DB := deactivate 3 demo_db.

(* ================================================================== *)
(** * Vocabulary of the statements *)
(* ================================================================== *)

(** [c in s] *)
Fixpoint contains (c : ascii) (s : string) : bool :=
  match s with
  | EmptyString => false
  | String c' s' => Ascii.eqb c' c || contains c s'
  end.

(** The id of the user a token resolves to: [user["id"]] after
    [valid, user = verify_session_token(token)] with [valid] true. *)
Definition session_user_id (db : DB) (token : option string) : option Z :=
  match verify_session_token db token with
  | (true, Some r) =>
      match Row_lookup r "id" with
      | Some (VInt id) => Some id
      | _ => None
      end
  | _ => None
  end.

(** The row [verify_session_token] fetches for a user. *)
Definition session_row (u : Users.row) : Row :=
  [("id", VInt (Users.id u)); ("username", VText (Users.username u))].

(** The credentials [signup] and [login] read from the body. *)
Definition request_username (json : option Py.dict) : string :=
  Py.strip (Py.or_empty (Py.get (json_or_empty json) "username")).

Definition request_password (json : option Py.dict) : string :=
  Py.strip (Py.or_empty (Py.get (json_or_empty json) "password")).

Definition request_email (json : option Py.dict) : option string :=
  Py.or_None (Py.strip (Py.or_empty (Py.get (json_or_empty json) "email"))).

(** The username of the sender of a message. *)
Definition sender_name (db : DB) (m : Messages.row) : string :=
  match user_by_id db (Messages.sender_id m) with
  | Some u => Users.username u
  | None => EmptyString
  end.

(** The inbox condition and the conversation condition on a message. *)
Definition unread_for (u : Z) (m : Messages.row) : bool :=
  (Messages.recipient_id m =? u) && (Messages.is_read m =? 0).

Definition between (a b : Z) (m : Messages.row) : bool :=
  (Messages.sender_id m =? a) && (Messages.recipient_id m =? b)
  || (Messages.sender_id m =? b) && (Messages.recipient_id m =? a).

(** Newest first and oldest first, by creation time. *)
Definition newest_first (l : list Messages.row) : Prop :=
  StronglySorted
    (fun m1 m2 => Messages.created_at m2 <= Messages.created_at m1) l.

Definition oldest_first (l : list Messages.row) : Prop :=
  StronglySorted
    (fun m1 m2 => Messages.created_at m1 <= Messages.created_at m2) l.

(** The entries of the two message listings, as the loops build them. *)
Definition inbox_entry (db : DB) (m : Messages.row) : JSON :=
  JObj [("id", JNum (Messages.id m));
        ("sender", JStr (sender_name db m));
        ("message", JStr (Messages.message m));
        ("timestamp", JNum (Messages.created_at m))].

Definition conversation_entry (db : DB) (caller : string) (m : Messages.row)
    : JSON :=
  JObj [("id", JNum (Messages.id m));
        ("sender", JStr (sender_name db m));
        ("is_own_message", JBool (String.eqb (sender_name db m) caller));
        ("message", JStr (Messages.message m));
        ("is_read", JNum (Messages.is_read m));
        ("timestamp", JNum (Messages.created_at m))].

(** The ids of a listing. *)
Definition entry_ids (l : list JSON) : list (option JSON) :=
  map (fun e => field e "id") l.

(** ** How requests change the database *)

(** The writes of the handlers, in sequence: a log entry, a registered
    user, a login, a message from an existing user, a read mark. *)
Inductive evolves {HL : Hashlib} (db0 : DB) : DB -> Prop :=
| evolves_refl : evolves db0 db0
| evolves_log : forall db env user_id action details ip st,
    evolves db0 db ->
    evolves db0 (log_activity env user_id action details ip st db)
| evolves_register : forall db env username password email,
    evolves db0 db ->
    evolves db0 (snd (register_user env username password email db))
| evolves_login : forall db env username password,
    evolves db0 db ->
    evolves db0 (snd (login_user env username password db))
| evolves_insert : forall db env sender recipient text,
    evolves db0 db ->
    In sender (map Users.id (users db)) ->
    evolves db0 (insert_message env sender recipient text db)
| evolves_update : forall db env message_id recipient,
    evolves db0 db ->
    evolves db0 (update_read env message_id recipient db).

(** A handler body all of whose writes are of these kinds. *)
Definition evolving {HL : Hashlib} {A} (m : M A) : Prop :=
  forall db0 db, evolves db0 db -> evolves db0 (snd (m db)).

(** Whatever a token resolves to in [db] it resolves to in [db']. *)
Definition keeps_sessions (db db' : DB) : Prop :=
  forall token r,
    verify_session_token db token = (true, Some r) ->
    verify_session_token db' token = (true, Some r).

(** Unfolds the monad in a handler. *)
Ltac run_handler :=
  cbv beta iota delta [try_except bind verify query lift execute call ret].

(* ================================================================== *)
(** * The remaining routes of server.py *)
(* ================================================================== *)

(** [column != ?] for an INTEGER column: [NULL] differs from nothing. *)
Definition int_ne (column : Z) (param : Val) : bool :=
  match param with VInt z => negb (column =? z) | _ => false end.

(** [ORDER BY key ASC] on a TEXT column, which SQLite compares byte by
    byte. *)
Fixpoint insert_text_asc {A} (key : A -> string) (x : A) (l : list A)
    : list A :=
  match l with
  | [] => [x]
  | y :: l' =>
      if String.leb (key x) (key y) then x :: l
      else y :: insert_text_asc key x l'
  end.

Definition order_by_text_asc {A} (key : A -> string) (l : list A) : list A :=
  fold_right (insert_text_asc key) [] l.

(** [SELECT id, username, email, created_at FROM users
     WHERE is_active = 1 AND id != ? ORDER BY username ASC] *)
Definition select_other_users (caller : Val) (db : DB) : list Users.row :=
  order_by_text_asc Users.username
    (filter (fun u => (Users.is_active u =? 1) && int_ne (Users.id u) caller)
            (users db)).

Definition contact_entry (u : Users.row) : JSON :=
  JObj [("id", JNum (Users.id u));
        ("username", JStr (Users.username u));
        ("email", jsonify (VOptText (Users.email u)));
        ("joined_at", JNum (Users.created_at u))].

(** [GET /get_all_users] *)
Definition get_all_users (env : Env) (token : option string)
    : DB -> Response * DB :=
  try_except str_e
    (' (valid, user) <- verify token ;;
     if negb valid then
       ret (error "Unauthorized", 401)
     else
       user_id <- lift (subscript user "id") ;;
       users <- query (select_other_users user_id) ;;
       let user_list := map contact_entry users in
       _ <- lift (subscript user "username") ;;
       ret (JObj [("users", JArr user_list)], 200)).

(** The table [device_tokens], with [UNIQUE(user_id, device_token)],
    and its [sqlite_sequence] counter. *)
Module DeviceTokens.
Record row := {
  id : Z;
  user_id : Z;                  (* INTEGER NOT NULL *)
  device_token : string;        (* TEXT NOT NULL *)
  registered_at : Z;
  last_used : option Z
}.
End DeviceTokens.

Record Devices := {
  device_tokens : list DeviceTokens.row;
  seq_device_tokens : Z
}.

Definition same_device (user_id : Z) (device_token : string)
    (r : DeviceTokens.row) : bool :=
  (DeviceTokens.user_id r =? user_id)
  && String.eqb (DeviceTokens.device_token r) device_token.

(** [INSERT OR REPLACE INTO device_tokens (user_id, device_token,
    registered_at) VALUES (?, ?, ?)]: the row that has the pair already
    is deleted and a new row is inserted, with a new rowid and the
    column the statement does not name at its default. *)
Definition replace_device (env : Env) (user_id : Z) (device_token : string)
    (dev : Devices) : Devices :=
  let rowid :=
    next_rowid (seq_device_tokens dev)
      (map DeviceTokens.id (device_tokens dev)) in
  {| device_tokens :=
       filter (fun r => negb (same_device user_id device_token r))
              (device_tokens dev) ++
       [ {| DeviceTokens.id := rowid; DeviceTokens.user_id := user_id;
            DeviceTokens.device_token := device_token;
            DeviceTokens.registered_at := now env;
            DeviceTokens.last_used := None |} ];
     seq_device_tokens := rowid |}.

(** [POST /register_device]; it reads [sessions] and [users] and writes
    [device_tokens] only. *)
Definition register_device (env : Env) (json : option Py.dict) (db : DB)
    (dev : Devices) : Response * Devices :=
  let data := json_or_empty json in
  let token := Py.get data "token" in
  let device_token := Py.get data "device_token" in
  match verify_session_token db token with
  | (false, _) => ((error "Unauthorized", 401), dev)
  | (true, user) =>
      if is_empty (Py.or_empty device_token) then
        ((error "Device token required", 400), dev)
      else
        match subscript user "id" with
        | Raise e => ((error e, 500), dev)
        | Ok user_id =>
            match not_null_int "device_tokens.user_id" user_id with
            | Raise e => ((error e, 500), dev)
            | Ok uid =>
                let dev' :=
                  replace_device env uid (Py.or_empty device_token) dev in
                match subscript user "username" with
                | Raise e => ((error e, 500), dev')
                | Ok _ => ((JObj [("status", JStr "success")], 200), dev')
                end
            end
        end
  end.

(** ** More vocabulary *)

(** [s.count(c)] for a character. *)
Fixpoint count_chr (c : ascii) (s : string) : nat :=
  match s with
  | EmptyString => 0%nat
  | String c' s' => ((if Ascii.eqb c' c then 1 else 0) + count_chr c s')%nat
  end.

(** The entries of [/get_conversation]. *)
Definition history_entry (db : DB) (m : Messages.row) : JSON :=
  JObj [("id", JNum (Messages.id m));
        ("sender", JStr (sender_name db m));
        ("message", JStr (Messages.message m));
        ("is_read", JNum (Messages.is_read m));
        ("timestamp", JNum (Messages.created_at m))].

(** The fields [send_message] reads from the body. *)
Definition request_recipient (json : option Py.dict) : string :=
  Py.strip (Py.or_empty (Py.get (json_or_empty json) "recipient")).

Definition request_message (json : option Py.dict) : string :=
  Py.strip (Py.or_empty (Py.get (json_or_empty json) "message")).

(** ** Where the embedding reads a request as the program does *)

(** [s.isascii()].  On ASCII text [Py.isspace] is [str.isspace], so
    [Py.strip] is [str.strip], [len] counts the characters and
    [Py.encode] is UTF-8.  (Outside ASCII, [str.strip] also removes
    U+0085, U+00A0 and the other Unicode white space, and [len] counts
    code points.) *)
Definition isascii (s : string) : bool :=
  forallb (fun c => (N_of_ascii c <? 128)%N) (list_ascii_of_string s).

(** A body all of whose values are ASCII text.  A body is a JSON object
    whose values are strings, or the JSON [null]; a value that is a
    number, an array or an object makes [.strip()] raise, and a body
    that is absent or is not JSON makes [request.json] raise: for both
    the handlers answer 500, and neither is a body here. *)
Definition ascii_body (json : option Py.dict) : bool :=
  forallb (fun kv => isascii (snd kv)) (json_or_empty json).

(** The integers the [sqlite3] module binds to a [?] of a statement:
    those of SQLite's signed 64-bit [INTEGER].  For any other,
    [execute] raises [OverflowError] and the handler answers 500. *)
Definition binds (z : Z) : Prop := - 2 ^ 63 <= z < 2 ^ 63.

(** The requests that reach their handler: [<int:message_id>] matches
    digits only, so no id below 0, and [<recipient_username>] matches
    one path segment that is not empty; any other path is answered 404
    by the router. *)
Definition routed (req : Request) : Prop :=
  match req with
  | POST_mark_read message_id _ => 0 <= message_id
  | GET_get_conversation r _ | GET_get_conversation_v2 r _ _ _ =>
      r <> EmptyString /\ contains "/" r = false
  | _ => True
  end.

(** The token a request carries, [None] when it carries none or has no
    object to carry it in. *)
Definition carried_token (req : Request) : option string :=
  match request_token req with Some token => token | None => None end.

(** The routes that ask for a session token. *)
Definition checks_token (req : Request) : bool :=
  match req with
  | POST_signup _ | POST_login _ | GET_health => false
  | _ => true
  end.

(** A body with every value stripped. *)
Definition stripped (json : option Py.dict) : option Py.dict :=
  option_map (map (fun kv => (fst kv, Py.strip (snd kv)))) json.

(** [l1] is an initial segment of [l2]. *)
Definition prefix_of {A} (l1 l2 : list A) : Prop := exists l, l2 = l1 ++ l.

(** What stays of a user row whatever is written: everything but
    [last_login]. *)
Definition identity_of (u : Users.row)
    : Z * string * string * option string * Z * Z :=
  (Users.id u, Users.username u, Users.password_hash u, Users.email u,
   Users.created_at u, Users.is_active u).

(** What stays of a message: everything but the read-state. *)
Definition content_of (m : Messages.row) : Z * Z * Z * string * Z :=
  (Messages.id m, Messages.sender_id m, Messages.recipient_id m,
   Messages.message m, Messages.created_at m).

(** The writes of the handlers with what the handlers check before
    them: a registered username has three characters or more and its
    password six, a message has a text and its two users exist, and a
    read mark is set for a user id. *)
Inductive writes {HL : Hashlib} (db0 : DB) : DB -> Prop :=
| writes_refl : writes db0 db0
| writes_log : forall db env user_id action details ip st,
    writes db0 db ->
    writes db0 (log_activity env user_id action details ip st db)
| writes_register : forall db env username password email,
    writes db0 db ->
    3 <= len username -> 6 <= len password ->
    writes db0 (snd (register_user env username password email db))
| writes_login : forall db env username password,
    writes db0 db ->
    writes db0 (snd (login_user env username password db))
| writes_insert : forall db env sender recipient text,
    writes db0 db ->
    In sender (map Users.id (users db)) ->
    In recipient (map Users.id (users db)) ->
    text <> EmptyString ->
    writes db0 (insert_message env sender recipient text db)
| writes_update : forall db env message_id recipient,
    writes db0 db ->
    writes db0 (update_read env message_id recipient db).

Definition writing {HL : Hashlib} {A} (m : M A) : Prop :=
  forall db0 db, writes db0 db -> writes db0 (snd (m db)).

(** What holds of the rows of every reachable database. *)
Definition user_row_ok {HL : Hashlib} (u : Users.row) : Prop :=
  3 <= len (Users.username u)
  /\ Users.is_active u = 1
  /\ exists rand p,
       6 <= len p /\ Users.password_hash u = hash_password rand p.

Definition session_row_ok (db : DB) (s : Sessions.row) : Prop :=
  Sessions.is_valid s = 1 /\ Sessions.expires_at s = None
  /\ In (Sessions.user_id s) (map Users.id (users db)).

Definition message_row_ok (db : DB) (m : Messages.row) : Prop :=
  Messages.message m <> EmptyString
  /\ In (Messages.sender_id m) (map Users.id (users db))
  /\ In (Messages.recipient_id m) (map Users.id (users db))
  /\ ((Messages.is_read m = 0 /\ Messages.read_at m = None)
      \/ (Messages.is_read m = 1 /\ exists t, Messages.read_at m = Some t)).

Definition rows_ok {HL : Hashlib} (db : DB) : Prop :=
  (forall u, In u (users db) -> user_row_ok u)
  /\ (forall s, In s (sessions db) -> session_row_ok db s)
  /\ (forall m, In m (messages db) -> message_row_ok db m).

(* ================================================================== *)
(** * Strings and password hashes *)
(* ================================================================== *)

Lemma hex_digit_not_dollar (n : N) : Ascii.eqb (Py.hex_digit n) "$" = false.
Proof.
  destruct n as [|p]; [reflexivity|].
  do 4 (destruct p as [p|p|]; try reflexivity).
Qed.

Lemma hex_no_dollar (bs : list byte) : contains "$" (Py.hex bs) = false.
Proof.
  induction bs as [|b bs IH]; simpl; [reflexivity|].
  now rewrite !hex_digit_not_dollar, IH.
Qed.

Lemma split_no_sep (c : ascii) (s : string) :
  contains c s = false -> Py.split c s = [s].
Proof.
  induction s as [|a s IH]; simpl; [reflexivity|].
  intros H. apply orb_false_iff in H as [Ha Hs].
  rewrite Ha, (IH Hs). reflexivity.
Qed.

Lemma split_at_sep (c : ascii) (s1 s2 : string) :
  contains c s1 = false ->
  Py.split c (append s1 (String c s2)) = s1 :: Py.split c s2.
Proof.
  induction s1 as [|a s1 IH]; simpl; intros H.
  - now rewrite Ascii.eqb_refl.
  - apply orb_false_iff in H as [Ha Hs].
    rewrite Ha, (IH Hs). reflexivity.
Qed.

Lemma split_hash_password {HL : Hashlib} (rand : list byte) (p : string) :
  Py.split "$" (hash_password rand p)
  = [token_hex rand;
     Py.hex (pbkdf2_hmac "sha256" (Py.encode p)
               (Py.encode (token_hex rand)) 100000)].
Proof.
  unfold hash_password. cbn [append].
  rewrite split_at_sep by apply hex_no_dollar.
  rewrite split_no_sep by apply hex_no_dollar.
  reflexivity.
Qed.

Lemma verify_hash_password {HL : Hashlib} (rand : list byte) (p : string) :
  verify_password (hash_password rand p) p = true.
Proof.
  unfold verify_password. rewrite split_hash_password.
  apply String.eqb_refl.
Qed.

(* ================================================================== *)
(** * ORDER BY, LIMIT and the join *)
(* ================================================================== *)

Section OrderBy.
Context {A : Type} (key : A -> Z).

Lemma insert_desc_perm (x : A) (l : list A) :
  Permutation (x :: l) (insert_desc key x l).
Proof.
  induction l as [|y l IH]; simpl; [reflexivity|].
  destruct (key y <=? key x); [reflexivity|].
  rewrite perm_swap. now apply perm_skip.
Qed.

Lemma order_by_desc_perm (l : list A) : Permutation l (order_by_desc key l).
Proof.
  induction l as [|x l IH]; simpl; [constructor|].
  etransitivity; [apply perm_skip, IH | apply insert_desc_perm].
Qed.

Lemma insert_desc_sorted (x : A) (l : list A) :
  StronglySorted (fun a b => key b <= key a) l ->
  StronglySorted (fun a b => key b <= key a) (insert_desc key x l).
Proof.
  induction 1 as [|y l Hs IH Hy]; simpl.
  - repeat constructor.
  - destruct (key y <=? key x) eqn:E.
    + apply Z.leb_le in E. constructor; [now constructor|].
      constructor; [exact E|].
      eapply Forall_impl; [|exact Hy]. simpl. intros; lia.
    + apply Z.leb_gt in E. constructor; [exact IH|].
      eapply Permutation_Forall; [apply insert_desc_perm|].
      constructor; [lia | exact Hy].
Qed.

Lemma order_by_desc_sorted (l : list A) :
  StronglySorted (fun a b => key b <= key a) (order_by_desc key l).
Proof.
  induction l as [|x l IH]; simpl; [constructor|].
  now apply insert_desc_sorted.
Qed.

End OrderBy.

Lemma insert_desc_map {A B} (g : A -> B) (key : B -> Z) (x : A) (l : list A) :
  insert_desc key (g x) (map g l)
  = map g (insert_desc (fun a => key (g a)) x l).
Proof.
  induction l as [|y l IH]; simpl; [reflexivity|].
  destruct (key (g y) <=? key (g x)); simpl; [reflexivity|].
  now rewrite IH.
Qed.

Lemma order_by_desc_map {A B} (g : A -> B) (key : B -> Z) (l : list A) :
  order_by_desc key (map g l) = map g (order_by_desc (fun a => key (g a)) l).
Proof.
  unfold order_by_desc.
  induction l as [|x l IH]; simpl; [reflexivity|].
  rewrite IH. apply insert_desc_map.
Qed.

Lemma filter_map_comm {A B} (g : A -> B) (p : B -> bool) (l : list A) :
  filter p (map g l) = map g (filter (fun a => p (g a)) l).
Proof.
  induction l as [|x l IH]; simpl; [reflexivity|].
  destruct (p (g x)); simpl; now rewrite IH.
Qed.

Lemma limit_offset_map {A B} (g : A -> B) (limit offset : Z) (l : list A) :
  limit_offset limit offset (map g l) = map g (limit_offset limit offset l).
Proof.
  unfold limit_offset. rewrite skipn_map.
  destruct (limit <? 0); [reflexivity|]. now rewrite firstn_map.
Qed.

(** Rows found by key in a table whose key has no duplicates. *)
Lemma find_some_key {A} (key : A -> Z) (l : list A) (x : A) :
  NoDup (map key l) -> In x l ->
  find (fun y => key y =? key x) l = Some x.
Proof.
  induction l as [|y l IH]; simpl; intros Hnd Hin; [contradiction|].
  inversion Hnd as [|? ? Hny Hnd']; subst.
  destruct Hin as [->|Hin].
  - now rewrite Z.eqb_refl.
  - destruct (key y =? key x) eqn:E; [|now apply IH].
    apply Z.eqb_eq in E. exfalso. apply Hny. rewrite E. now apply in_map.
Qed.

Lemma find_exists_key {A} (key : A -> Z) (l : list A) (k : Z) :
  In k (map key l) ->
  exists x, find (fun y => key y =? k) l = Some x /\ In x l /\ key x = k.
Proof.
  induction l as [|y l IH]; simpl; intros Hin; [contradiction|].
  destruct (key y =? k) eqn:E.
  - apply Z.eqb_eq in E. exists y. auto.
  - destruct Hin as [Hk|Hin]; [apply Z.eqb_neq in E; contradiction|].
    destruct (IH Hin) as (x & Hf & Hx & Hk). exists x. auto.
Qed.

Lemma find_some_name (l : list Users.row) (x : Users.row) :
  NoDup (map Users.username l) -> In x l ->
  find (fun y => String.eqb (Users.username y) (Users.username x)) l = Some x.
Proof.
  induction l as [|y l IH]; simpl; intros Hnd Hin; [contradiction|].
  inversion Hnd as [|? ? Hny Hnd']; subst.
  destruct Hin as [->|Hin].
  - now rewrite String.eqb_refl.
  - destruct (String.eqb (Users.username y) (Users.username x)) eqn:E;
      [|now apply IH].
    apply String.eqb_eq in E. exfalso. apply Hny. rewrite E. now apply in_map.
Qed.

Lemma filter_by_key {A} (key : A -> Z) (l : list A) (k : Z) :
  NoDup (map key l) ->
  filter (fun y => k =? key y) l
  = match find (fun y => key y =? k) l with Some x => [x] | None => [] end.
Proof.
  induction l as [|y l IH]; simpl; intros Hnd; [reflexivity|].
  inversion Hnd as [|? ? Hny Hnd']; subst.
  rewrite (Z.eqb_sym (key y) k). destruct (k =? key y) eqn:E.
  - apply Z.eqb_eq in E. f_equal.
    rewrite (IH Hnd').
    destruct (find (fun y0 => key y0 =? k) l) as [x|] eqn:F; [|reflexivity].
    apply find_some in F as [Hx Hk]. apply Z.eqb_eq in Hk.
    exfalso. apply Hny. rewrite <- E, <- Hk. now apply in_map.
  - now apply IH.
Qed.

(** Under [db_ok] the join pairs every message with the one row of its
    sender, in the order of [messages]. *)
Lemma messages_join_users_spec (db : DB) :
  db_ok db ->
  exists sender : Messages.row -> Users.row,
    messages_join_users db = map (fun m => (m, sender m)) (messages db)
    /\ forall m, In m (messages db) ->
         Users.username (sender m) = sender_name db m.
Proof.
  intros Hok.
  set (dflt := {| Users.id := 0; Users.username := EmptyString;
                  Users.password_hash := EmptyString; Users.email := None;
                  Users.created_at := 0; Users.last_login := None;
                  Users.is_active := 0 |}).
  exists (fun m => match user_by_id db (Messages.sender_id m) with
                   | Some u => u | None => dflt end).
  split.
  - unfold messages_join_users.
    assert (H : forall l, (forall m, In m l -> In m (messages db)) ->
      flat_map (fun m => map (pair m)
          (filter (fun u => Messages.sender_id m =? Users.id u) (users db))) l
      = map (fun m => (m, match user_by_id db (Messages.sender_id m) with
                          | Some u => u | None => dflt end)) l).
    { induction l as [|m l IH]; intros Hl; simpl; [reflexivity|].
      rewrite IH by (intros; apply Hl; now right).
      rewrite (filter_by_key Users.id) by apply (ok_user_ids db Hok).
      unfold user_by_id.
      destruct (find_exists_key Users.id (users db) (Messages.sender_id m))
        as (u & Hf & _); [apply (ok_message_sender db Hok), Hl; now left|].
      rewrite Hf. reflexivity. }
    apply H. auto.
  - intros m Hm. unfold sender_name.
    destruct (user_by_id db (Messages.sender_id m)); reflexivity.
Qed.

(* ================================================================== *)
(** * Session tokens *)
(* ================================================================== *)

Lemma find_unique {A K} (key : A -> K) (p : A -> bool) (l : list A) (x : A) :
  NoDup (map key l) -> In x l -> p x = true ->
  (forall y, In y l -> p y = true -> key y = key x) ->
  find p l = Some x.
Proof.
  induction l as [|y l IH]; simpl; intros Hnd Hin Hpx Hkey; [contradiction|].
  inversion Hnd as [|? ? Hny Hnd']; subst.
  destruct Hin as [->|Hin]; [now rewrite Hpx|].
  destruct (p y) eqn:E.
  - exfalso. apply Hny. rewrite (Hkey y) by auto. now apply in_map.
  - apply IH; auto.
Qed.

Lemma find_none_iff {A} (p : A -> bool) (l : list A) :
  find p l = None <-> forall x, In x l -> p x = false.
Proof.
  split.
  - intros H x Hx. now apply (find_none p l H).
  - induction l as [|y l IH]; simpl; intros H; [reflexivity|].
    rewrite (H y) by now left. apply IH. intros x Hx. apply H. now right.
Qed.

Lemma verify_session_token_session (db : DB) (s : Sessions.row) :
  NoDup (map Sessions.token (sessions db)) ->
  In s (sessions db) -> Sessions.is_valid s = 1 ->
  verify_session_token db (Some (Sessions.token s))
  = (true, option_map session_row (user_by_id db (Sessions.user_id s))).
Proof.
  intros Hnd Hin Hvalid. unfold verify_session_token.
  rewrite (find_unique Sessions.token _ _ s Hnd Hin).
  - reflexivity.
  - simpl. now rewrite String.eqb_refl, Hvalid.
  - intros y _ Hy. apply andb_prop in Hy as [Hy _]. simpl in Hy.
    now apply String.eqb_eq.
Qed.

Lemma verify_session_token_unknown (db : DB) (t : string) :
  ~ In t (map Sessions.token (sessions db)) ->
  verify_session_token db (Some t) = (false, None).
Proof.
  intros Hnot. unfold verify_session_token.
  replace (find _ (sessions db)) with (@None Sessions.row); [reflexivity|].
  symmetry. apply find_none_iff. intros s Hs. simpl.
  destruct (String.eqb (Sessions.token s) t) eqn:E; [|reflexivity].
  apply String.eqb_eq in E. exfalso. apply Hnot. rewrite <- E. now apply in_map.
Qed.

Lemma verify_session_token_None (db : DB) :
  verify_session_token db None = (false, None).
Proof.
  unfold verify_session_token.
  replace (find _ (sessions db)) with (@None Sessions.row); [reflexivity|].
  symmetry. apply find_none_iff. reflexivity.
Qed.

Lemma session_user_id_verify (db : DB) (token : option string) (c : Z) :
  session_user_id db token = Some c ->
  exists u, user_by_id db c = Some u /\ Users.id u = c
    /\ verify_session_token db token = (true, Some (session_row u)).
Proof.
  unfold session_user_id, verify_session_token, user_by_id.
  destruct (find _ (sessions db)) as [s|]; [|discriminate].
  destruct (find _ (users db)) as [u|] eqn:F; simpl; [|discriminate].
  intros H. injection H as <-.
  apply find_some in F as F'. destruct F' as [_ Hid]. apply Z.eqb_eq in Hid.
  exists u. rewrite <- Hid in F. auto.
Qed.

(** ** The boolean check is sound *)

Lemma nodupb_NoDup {A} (eqb : A -> A -> bool) (l : list A) :
  (forall x y, eqb x y = true <-> x = y) ->
  nodupb eqb l = true -> NoDup l.
Proof.
  intros Heq. induction l as [|x l IH]; simpl; intros H; [constructor|].
  apply andb_prop in H as [Hx Hl]. constructor; [|now apply IH].
  intros Hin. apply negb_true_iff in Hx.
  assert (existsb (eqb x) l = true); [|congruence].
  apply existsb_exists. exists x. split; [exact Hin | now apply Heq].
Qed.

Lemma existsb_eqb_In (k : Z) (l : list Z) :
  existsb (Z.eqb k) l = true -> In k l.
Proof.
  intros H. apply existsb_exists in H as (x & Hx & E).
  apply Z.eqb_eq in E. now subst.
Qed.

Lemma db_okb_ok (db : DB) : db_okb db = true -> db_ok db.
Proof.
  unfold db_okb. intros H.
  repeat match type of H with
         | (_ && _ = true) => apply andb_prop in H; destruct H as [H ?]
         end.
  constructor.
  - eapply nodupb_NoDup; [apply Z.eqb_eq | eassumption].
  - eapply nodupb_NoDup; [apply String.eqb_eq | eassumption].
  - eapply nodupb_NoDup; [apply String.eqb_eq | eassumption].
  - eapply nodupb_NoDup; [apply Z.eqb_eq | eassumption].
  - intros s Hs. apply existsb_eqb_In.
    match goal with
    | Hf : forallb _ (sessions db) = true |- _ =>
        rewrite forallb_forall in Hf; now apply Hf
    end.
  - intros m Hm. apply existsb_eqb_In.
    match goal with
    | Hf : forallb _ (messages db) = true |- _ =>
        rewrite forallb_forall in Hf; now apply Hf
    end.
Qed.

(* ================================================================== *)
(** * Marking a message read *)
(* ================================================================== *)

Lemma subscript_id (u : Users.row) :
  subscript (Some (session_row u)) "id" = Ok (VInt (Users.id u)).
Proof. reflexivity. Qed.

Lemma subscript_username (u : Users.row) :
  subscript (Some (session_row u)) "username" = Ok (VText (Users.username u)).
Proof. reflexivity. Qed.

(** With a token that resolves, [mark_read] runs the [UPDATE], logs and
    answers 200: nothing in it looks at what the [UPDATE] matched. *)
Lemma mark_read_run (env : Env) (db : DB) (message_id : Z) (data : Py.dict)
    (c : Z) :
  session_user_id db (Py.get data "token") = Some c ->
  mark_read env message_id (Some data) db
  = ((JObj [("status", JStr "success")], 200),
     log_activity env (VInt c) "mark_message_read"
       (Some (append "Message ID: " (Py.str_int message_id)))
       (Some (remote_addr env)) "success"
       (update_read env message_id (VInt c) db)).
Proof.
  intros H. apply session_user_id_verify in H as (u & _ & Hid & Hv).
  unfold mark_read. run_handler. rewrite Hv. cbv beta iota.
  rewrite subscript_id, subscript_username, Hid. reflexivity.
Qed.

Lemma messages_update_read (env : Env) (db : DB) (message_id c : Z) :
  messages (update_read env message_id (VInt c) db)
  = map (fun m => if (Messages.id m =? message_id)
                     && (Messages.recipient_id m =? c)
                  then Messages.set_read m (now env) else m) (messages db).
Proof. reflexivity. Qed.

Lemma message_by_id_In (db : DB) (k : Z) (m : Messages.row) :
  message_by_id db k = Some m -> In m (messages db) /\ Messages.id m = k.
Proof.
  intros H. apply find_some in H as [Hin Hid]. now apply Z.eqb_eq in Hid.
Qed.

Lemma find_map_same_key {A} (key : A -> Z) (f : A -> A) (k : Z) (l : list A) :
  (forall x, key (f x) = key x) ->
  find (fun x => key x =? k) (map f l)
  = option_map f (find (fun x => key x =? k) l).
Proof.
  intros Hf. induction l as [|y l IH]; simpl; [reflexivity|].
  rewrite Hf. destruct (key y =? k); [reflexivity | exact IH].
Qed.

Lemma message_by_id_update_read (env : Env) (db : DB) (message_id c k : Z) :
  message_by_id (update_read env message_id (VInt c) db) k
  = option_map
      (fun m => if (Messages.id m =? message_id)
                   && (Messages.recipient_id m =? c)
                then Messages.set_read m (now env) else m)
      (message_by_id db k).
Proof.
  unfold message_by_id. rewrite messages_update_read.
  apply (find_map_same_key Messages.id). intros m.
  destruct (_ && _); reflexivity.
Qed.

Lemma message_by_id_log_activity (env : Env) (uid : Val) (action : string)
    (details ip : option string) (st : string) (db : DB) (k : Z) :
  message_by_id (log_activity env uid action details ip st db) k
  = message_by_id db k.
Proof. reflexivity. Qed.

(** C1 as the claim states it fails: carol, who is neither sender nor
    recipient of message 1 (alice to bob), marks it read and is answered
    200 with [{"status": "success"}]. *)
Lemma mark_read_stranger_gets_success :
  session_user_id demo_db (Some "tokC") = Some 3
  /\ option_map Messages.sender_id (message_by_id demo_db 1) = Some 1
  /\ option_map Messages.recipient_id (message_by_id demo_db 1) = Some 2
  /\ fst (mark_read (demo_env 20 "") 1 (Some [("token", "tokC")]) demo_db)
     = (JObj [("status", JStr "success")], 200).
Proof. repeat split; reflexivity. Qed.

(** Without a token that resolves to a user, [mark_read] writes
    nothing. *)
Lemma mark_read_no_session (env : Env) (db : DB) (message_id : Z)
    (data : Py.dict) :
  session_user_id db (Py.get data "token") = None ->
  snd (mark_read env message_id (Some data) db) = db.
Proof.
  unfold session_user_id, mark_read. run_handler.
  destruct (verify_session_token db (Py.get data "token")) as [valid user]
    eqn:E.
  unfold verify_session_token in E.
  destruct (find _ (sessions db)) as [s|]; [|now injection E as <- <-].
  destruct (find _ (users db)) as [u|]; injection E as <- <-;
    cbn [option_map]; [|reflexivity].
  cbn [Row_lookup String.eqb Ascii.eqb Bool.eqb]. discriminate.
Qed.

(** C1, amended.  For every message [m] and every caller [c] that is not
    the recipient of [m]: [POST /mark_read/m] with [c]'s token is
    answered 200 with [{"status": "success"}] (no error is reported) and
    leaves [m], hence its [is_read] and [read_at], unchanged.  And for
    every call of [mark_read], whatever its body and its token: a
    message the call changes has the id the call names and, as
    recipient, the user the call's token resolves to. *)
Theorem mark_read_non_recipient (env : Env) (db : DB) (message_id : Z)
    (json : option Py.dict) :
  let out := mark_read env message_id json db in
  (forall data c m,
      json = Some data ->
      session_user_id db (Py.get data "token") = Some c ->
      message_by_id db message_id = Some m ->
      Messages.recipient_id m <> c ->
      fst out = (JObj [("status", JStr "success")], 200)
      /\ message_by_id (snd out) message_id = Some m)
  /\ (forall k m0 m1,
        message_by_id db k = Some m0 ->
        message_by_id (snd out) k = Some m1 ->
        m1 <> m0 ->
        k = message_id
        /\ exists data,
             json = Some data
             /\ session_user_id db (Py.get data "token")
                = Some (Messages.recipient_id m0)).
Proof.
  intros out. subst out. split.
  - intros data c m -> Hc Hm Hrc.
    rewrite (mark_read_run _ _ _ _ _ Hc). cbn [fst snd].
    split; [reflexivity|].
    rewrite message_by_id_log_activity, message_by_id_update_read, Hm.
    apply Z.eqb_neq in Hrc. cbn [option_map]. now rewrite Hrc, andb_false_r.
  - intros k m0 m1 H0 H1 Hdiff.
    destruct json as [data|]; [|cbn in H1; congruence].
    destruct (session_user_id db (Py.get data "token")) as [c|] eqn:Hc.
    + rewrite (mark_read_run _ _ _ _ _ Hc) in H1. cbn [snd] in H1.
      rewrite message_by_id_log_activity, message_by_id_update_read, H0 in H1.
      cbn [option_map] in H1. apply message_by_id_In in H0 as [_ Hk].
      destruct (Messages.id m0 =? message_id) eqn:E1;
        destruct (Messages.recipient_id m0 =? c) eqn:E2;
        cbn [andb] in H1; injection H1 as <-; try congruence.
      apply Z.eqb_eq in E1, E2. split; [congruence|].
      exists data. split; [reflexivity | congruence].
    + rewrite (mark_read_no_session _ _ _ _ Hc) in H1. congruence.
Qed.

(** The theorem at carol (3) and message 1, whose recipient is bob (2). *)
Lemma mark_read_non_recipient_witness :
  let out := mark_read (demo_env 20 "") 1 (Some [("token", "tokC")]) demo_db in
  fst out = (JObj [("status", JStr "success")], 200)
  /\ message_by_id (snd out) 1
     = Some {| Messages.id := 1; Messages.sender_id := 1;
               Messages.recipient_id := 2; Messages.message := "hi";
               Messages.is_read := 0; Messages.read_at := None;
               Messages.created_at := 7 |}.
Proof.
  apply (proj1 (mark_read_non_recipient (demo_env 20 "") demo_db 1
                  (Some [("token", "tokC")]))
           [("token", "tokC")] 3).
  - reflexivity.
  - reflexivity.
  - reflexivity.
  - simpl. lia.
Defined.

(** C2 as the claim states it fails: bob read message 1 at time 10;
    marking it read again at time 20 is answered 200 and moves [read_at]
    from 10 to 20. *)
Lemma mark_read_again_moves_read_at :
  let out := mark_read (demo_env 20 "") 1 (Some [("token", "tokB")])
               demo_db_read in
  session_user_id demo_db_read (Some "tokB") = Some 2
  /\ option_map Messages.recipient_id (message_by_id demo_db_read 1) = Some 2
  /\ option_map read_state (message_by_id demo_db_read 1) = Some (1, Some 10)
  /\ fst out = (JObj [("status", JStr "success")], 200)
  /\ option_map read_state (message_by_id (snd out) 1) = Some (1, Some 20).
Proof. repeat split; reflexivity. Qed.

(** C2, amended.  For every message [m] already marked read by its
    recipient [b], [POST /mark_read/m] with [b]'s token again is
    answered 200 with [{"status": "success"}]; [is_read] stays 1 and
    [read_at] becomes the time of this call (so it keeps its value only
    when the clock reads the same); the other columns of [m] and every
    other message are unchanged. *)
Theorem mark_read_again (env : Env) (db : DB) (message_id : Z)
    (data : Py.dict) (b : Z) (m : Messages.row) :
  session_user_id db (Py.get data "token") = Some b ->
  message_by_id db message_id = Some m ->
  Messages.recipient_id m = b ->
  Messages.is_read m = 1 ->
  let out := mark_read env message_id (Some data) db in
  fst out = (JObj [("status", JStr "success")], 200)
  /\ message_by_id (snd out) message_id
     = Some (Messages.set_read m (now env))
  /\ option_map read_state (message_by_id (snd out) message_id)
     = Some (1, Some (now env))
  /\ (forall k m0, k <> message_id ->
        message_by_id db k = Some m0 ->
        message_by_id (snd out) k = Some m0).
Proof.
  intros Hb Hm Hrc _ out. subst out.
  rewrite (mark_read_run _ _ _ _ _ Hb). cbn [fst snd].
  assert (Hnew : message_by_id
                   (log_activity env (VInt b) "mark_message_read"
                      (Some (append "Message ID: " (Py.str_int message_id)))
                      (Some (remote_addr env)) "success"
                      (update_read env message_id (VInt b) db)) message_id
                 = Some (Messages.set_read m (now env))).
  { rewrite message_by_id_log_activity, message_by_id_update_read, Hm.
    apply message_by_id_In in Hm as [_ Hid]. cbn [option_map].
    apply Z.eqb_eq in Hid, Hrc. now rewrite Hid, Hrc. }
  split; [reflexivity|]. split; [exact Hnew|]. split.
  - rewrite Hnew. reflexivity.
  - intros k m0 Hk H0.
    rewrite message_by_id_log_activity, message_by_id_update_read, H0.
    apply message_by_id_In in H0 as [_ Hid]. cbn [option_map].
    assert (E : (Messages.id m0 =? message_id) = false)
      by (apply Z.eqb_neq; congruence).
    now rewrite E.
Qed.

(** The theorem at bob (2) and message 1, read at time 10, marked again
    at time 20. *)
Lemma mark_read_again_witness :
  let out := mark_read (demo_env 20 "") 1 (Some [("token", "tokB")])
               demo_db_read in
  fst out = (JObj [("status", JStr "success")], 200)
  /\ message_by_id (snd out) 1
     = Some {| Messages.id := 1; Messages.sender_id := 1;
               Messages.recipient_id := 2; Messages.message := "hi";
               Messages.is_read := 1; Messages.read_at := Some 20;
               Messages.created_at := 7 |}
  /\ option_map read_state (message_by_id (snd out) 1) = Some (1, Some 20)
  /\ (forall k m0, k <> 1 ->
        message_by_id demo_db_read k = Some m0 ->
        message_by_id (snd out) k = Some m0).
Proof.
  apply (mark_read_again (demo_env 20 "") demo_db_read 1
           [("token", "tokB")] 2
           {| Messages.id := 1; Messages.sender_id := 1;
              Messages.recipient_id := 2; Messages.message := "hi";
              Messages.is_read := 1; Messages.read_at := Some 10;
              Messages.created_at := 7 |}).
  - reflexivity.
  - reflexivity.
  - reflexivity.
  - reflexivity.
Defined.

(* ================================================================== *)
(** * The profile route *)
(* ================================================================== *)

Lemma verify_session_token_row (db : DB) (token : option string) (r : Row) :
  snd (verify_session_token db token) = Some r ->
  exists u, In u (users db) /\ r = session_row u.
Proof.
  unfold verify_session_token.
  destruct (find _ (sessions db)) as [s|]; [|discriminate].
  destruct (find _ (users db)) as [u|] eqn:F; [|discriminate].
  cbn. intros H. injection H as <-.
  apply find_some in F as [Hin _]. now exists u.
Qed.

(** C3 fails on the code.  [verify_session_token] selects [id] and
    [username] only, so in [get_user_profile] the subscript
    [user["email"]] raises and the answer to every valid token is 500;
    with any token the answer is 401 or 500 and never 200. *)
Theorem get_user_profile_never_succeeds (env : Env) (token : option string)
    (db : DB) :
  match verify_session_token db token with
  | (false, _) =>
      fst (get_user_profile env token db) = (error "Unauthorized", 401)
  | (true, Some r) =>
      map fst r = ["id"; "username"]
      /\ fst (get_user_profile env token db)
         = (error "No item with that key", 500)
  | (true, None) =>
      fst (get_user_profile env token db)
      = (error "'NoneType' object is not subscriptable", 500)
  end.
Proof.
  unfold get_user_profile. run_handler.
  destruct (verify_session_token db token) as [[|] [r|]] eqn:Hv;
    cbv beta iota; try reflexivity.
  destruct (verify_session_token_row db token r) as (u & _ & ->);
    [now rewrite Hv|].
  split; reflexivity.
Qed.

(** At bob's token in [demo_db]. *)
Example get_user_profile_bob :
  session_user_id demo_db (Some "tokB") = Some 2
  /\ fst (get_user_profile (demo_env 20 "") (Some "tokB") demo_db)
     = (JObj [("error", JStr "No item with that key")], 500).
Proof. split; reflexivity. Qed.

(* ================================================================== *)
(** * Logging in *)
(* ================================================================== *)

Section Login.
Context {HL : Hashlib}.

Lemma login_user_unknown (env : Env) (username password : string) (db : DB) :
  find (fun u => String.eqb (Users.username u) username
                 && (Users.is_active u =? 1)) (users db) = None ->
  login_user env username password db
  = ((false, "Invalid credentials", None), db).
Proof. intros H. unfold login_user. now rewrite H. Qed.

Lemma login_user_wrong_password (env : Env) (username password : string)
    (db : DB) (user : Users.row) :
  find (fun u => String.eqb (Users.username u) username
                 && (Users.is_active u =? 1)) (users db) = Some user ->
  verify_password (Users.password_hash user) password = false ->
  login_user env username password db
  = ((false, "Invalid credentials", None), db).
Proof. intros H Hp. unfold login_user. now rewrite H, Hp. Qed.

(** The row the login query finds, in a table with unique usernames. *)
Lemma find_active_user (db : DB) (user : Users.row) :
  NoDup (map Users.username (users db)) ->
  In user (users db) ->
  find (fun u => String.eqb (Users.username u) (Users.username user)
                 && (Users.is_active u =? 1)) (users db)
  = if Users.is_active user =? 1 then Some user else None.
Proof.
  intros Hnd Hin. destruct (Users.is_active user =? 1) eqn:E.
  - apply (find_unique Users.username); auto.
    + now rewrite String.eqb_refl.
    + intros y _ Hy. apply andb_prop in Hy as [Hy _].
      now apply String.eqb_eq.
  - apply find_none_iff. intros y Hy.
    destruct (String.eqb (Users.username y) (Users.username user)) eqn:N;
      [|reflexivity].
    apply String.eqb_eq in N.
    assert (y = user) as ->; [|exact E].
    pose proof (find_some_name _ _ Hnd Hy) as F1.
    pose proof (find_some_name _ _ Hnd Hin) as F2.
    rewrite N in F1. congruence.
Qed.

Lemma user_by_name_In (db : DB) (username : string) (u : Users.row) :
  user_by_name db username = Some u ->
  In u (users db) /\ Users.username u = username.
Proof.
  intros H. apply find_some in H as [Hin Hn]. now apply String.eqb_eq in Hn.
Qed.

(** What [login] answers when [login_user] turns the request down. *)
Lemma login_rejected (env : Env) (json : option Py.dict) (db : DB) :
  is_empty (request_username json) = false ->
  is_empty (request_password json) = false ->
  login_user env (request_username json) (request_password json) db
  = ((false, "Invalid credentials", None), db) ->
  fst (login env json db) = (error "Invalid credentials", 401).
Proof.
  unfold request_username, request_password. intros Hu Hp Hl.
  unfold login. run_handler. rewrite Hu, Hp. cbn [orb]. rewrite Hl.
  reflexivity.
Qed.

(** C8.  A login that fails authentication is answered 401 with the body
    [{"error": "Invalid credentials"}], the same whether no user has the
    name (run 1) or the name is registered and the password is wrong
    (run 2): the two responses are equal. *)
Theorem login_failures_indistinguishable (env1 env2 : Env)
    (json1 json2 : option Py.dict) (db1 db2 : DB) (user : Users.row) :
  is_empty (request_username json1) = false ->
  is_empty (request_password json1) = false ->
  is_empty (request_username json2) = false ->
  is_empty (request_password json2) = false ->
  user_by_name db1 (request_username json1) = None ->
  db_ok db2 ->
  user_by_name db2 (request_username json2) = Some user ->
  verify_password (Users.password_hash user) (request_password json2) = false ->
  fst (login env1 json1 db1) = (error "Invalid credentials", 401)
  /\ fst (login env2 json2 db2) = (error "Invalid credentials", 401)
  /\ fst (login env1 json1 db1) = fst (login env2 json2 db2).
Proof.
  intros Hu1 Hp1 Hu2 Hp2 Hnone Hok Hsome Hwrong.
  assert (H1 : fst (login env1 json1 db1) = (error "Invalid credentials", 401)).
  { apply login_rejected; auto. apply login_user_unknown.
    apply find_none_iff. intros y Hy.
    unfold user_by_name in Hnone.
    rewrite (proj1 (find_none_iff _ _) Hnone y Hy). reflexivity. }
  assert (H2 : fst (login env2 json2 db2) = (error "Invalid credentials", 401)).
  { apply login_rejected; auto.
    apply user_by_name_In in Hsome as [Hin Hname].
    pose proof (find_active_user db2 user (ok_usernames db2 Hok) Hin) as F.
    rewrite Hname in F.
    destruct (Users.is_active user =? 1).
    - now apply login_user_wrong_password with (user := user).
    - now apply login_user_unknown. }
  repeat split; congruence.
Qed.

End Login.

(** The theorem at an unknown name and at alice with a wrong password. *)
Lemma login_failures_indistinguishable_witness :
  fst (login (HL := demo_hashlib) (demo_env 20 "t1")
         (credentials "nobody" "secret1") demo_db)
  = (error "Invalid credentials", 401)
  /\ fst (login (HL := demo_hashlib) (demo_env 21 "t2")
            (credentials "alice" "wrong") demo_db)
     = (error "Invalid credentials", 401)
  /\ fst (login (HL := demo_hashlib) (demo_env 20 "t1")
            (credentials "nobody" "secret1") demo_db)
     = fst (login (HL := demo_hashlib) (demo_env 21 "t2")
              (credentials "alice" "wrong") demo_db).
Proof.
  apply (login_failures_indistinguishable (HL := demo_hashlib)
           (demo_env 20 "t1") (demo_env 21 "t2")
           (credentials "nobody" "secret1") (credentials "alice" "wrong")
           demo_db demo_db
           {| Users.id := 1; Users.username := "alice";
              Users.password_hash := "2aff00$4b"; Users.email := None;
              Users.created_at := 1; Users.last_login := Some 4;
              Users.is_active := 1 |}).
  - vm_compute. reflexivity.
  - vm_compute. reflexivity.
  - vm_compute. reflexivity.
  - vm_compute. reflexivity.
  - vm_compute. reflexivity.
  - apply db_okb_ok. vm_compute. reflexivity.
  - vm_compute. reflexivity.
  - vm_compute. reflexivity.
Defined.

(* ================================================================== *)
(** * Deactivated accounts *)
(* ================================================================== *)

(** C10.  A user whose account is deactivated ([is_active = 0]) and who
    holds a session with [is_valid = 1]: the token still resolves, to
    that user's id and username, while [login_user] turns the same user
    down whatever the password. *)
Theorem deactivated_session_still_resolves {HL : Hashlib} (env : Env)
    (db : DB) (s : Sessions.row) (u : Users.row) (password : string) :
  db_ok db ->
  In s (sessions db) -> Sessions.is_valid s = 1 ->
  In u (users db) -> Users.id u = Sessions.user_id s ->
  Users.is_active u = 0 ->
  verify_session_token db (Some (Sessions.token s))
  = (true, Some [("id", VInt (Users.id u));
                 ("username", VText (Users.username u))])
  /\ session_user_id db (Some (Sessions.token s)) = Some (Users.id u)
  /\ login_user env (Users.username u) password db
     = ((false, "Invalid credentials", None), db).
Proof.
  intros Hok Hs Hvalid Hu Hid Hinactive.
  assert (Hv : verify_session_token db (Some (Sessions.token s))
               = (true, Some (session_row u))).
  { rewrite (verify_session_token_session db s (ok_tokens db Hok) Hs Hvalid).
    unfold user_by_id. rewrite <- Hid.
    now rewrite (find_some_key Users.id _ _ (ok_user_ids db Hok) Hu). }
  split; [exact Hv|]. split.
  - unfold session_user_id. rewrite Hv. reflexivity.
  - apply login_user_unknown.
    rewrite (find_active_user db u (ok_usernames db Hok) Hu).
    now rewrite Hinactive.
Qed.

(** The theorem at carol, deactivated after she logged in. *)
Lemma deactivated_session_still_resolves_witness :
  verify_session_token demo_db_deactivated (Some "tokC")
  = (true, Some [("id", VInt 3); ("username", VText "carol")])
  /\ session_user_id demo_db_deactivated (Some "tokC") = Some 3
  /\ login_user (HL := demo_hashlib) (demo_env 20 "t") "carol" "secret3"
       demo_db_deactivated
     = ((false, "Invalid credentials", None), demo_db_deactivated).
Proof.
  apply (deactivated_session_still_resolves (HL := demo_hashlib)
           (demo_env 20 "t") demo_db_deactivated
           {| Sessions.id := 3; Sessions.user_id := 3;
              Sessions.token := "tokC"; Sessions.created_at := 6;
              Sessions.expires_at := None; Sessions.is_valid := 1 |}
           {| Users.id := 3; Users.username := "carol";
              Users.password_hash := "2aff00$4d"; Users.email := None;
              Users.created_at := 3; Users.last_login := Some 6;
              Users.is_active := 0 |} "secret3").
  - apply db_okb_ok. vm_compute. reflexivity.
  - vm_compute. auto.
  - vm_compute. reflexivity.
  - vm_compute. auto.
  - vm_compute. reflexivity.
  - vm_compute. reflexivity.
Defined.

(* ================================================================== *)
(** * Registering *)
(* ================================================================== *)

Section Register.
Context {HL : Hashlib}.

Lemma hex_digit_one_to_one (n m : N) :
  (n < 16)%N -> (m < 16)%N -> Py.hex_digit n = Py.hex_digit m -> n = m.
Proof.
  intros Hn Hm.
  destruct n as [|p]; [|do 4 (try (destruct p as [p|p|]; try lia))];
    (destruct m as [|q]; [|do 4 (try (destruct q as [q|q|]; try lia))]);
    cbn; intros H; try reflexivity; discriminate H.
Qed.

(** [bytes.hex()] loses nothing: two byte strings with the same
    hexadecimal form are the same. *)
Lemma hex_one_to_one (bs bs' : list byte) : Py.hex bs = Py.hex bs' -> bs = bs'.
Proof.
  revert bs'. induction bs as [|b bs IH]; intros [|b' bs'] H;
    cbn [Py.hex] in H; try discriminate; [reflexivity|].
  injection H as Hhi Hlo Hrest.
  pose proof (Byte.to_N_bounded b) as Bb.
  pose proof (Byte.to_N_bounded b') as Bb'.
  apply hex_digit_one_to_one in Hhi;
    [|apply N.Div0.div_lt_upper_bound; lia
     |apply N.Div0.div_lt_upper_bound; lia].
  apply hex_digit_one_to_one in Hlo;
    [|apply N.mod_lt; lia|apply N.mod_lt; lia].
  f_equal; [|now apply IH].
  assert (E : Byte.to_N b = Byte.to_N b').
  { rewrite (N.div_mod (Byte.to_N b) 16), (N.div_mod (Byte.to_N b') 16) by lia.
    now rewrite Hhi, Hlo. }
  pose proof (Byte.of_to_N b) as Eb. rewrite E, Byte.of_to_N in Eb.
  now injection Eb.
Qed.

(** C9.  [hash_password] returns the salt, a [$] and the hexadecimal
    PBKDF2-HMAC-SHA256 key derived from password and salt in 100000
    iterations; splitting it at [$] gives the salt and the key back, so
    [verify_password] recomputes the key from the stored salt and
    accepts the password.  It accepts a password [q] exactly when the
    key recomputed for [q] with the stored salt is the stored key, so
    it turns down every password with another key.  The row
    [register_user] inserts has exactly that string, salt and derived
    key, as its [password_hash]; and the plaintext goes nowhere: for
    whatever function [pbkdf2_hmac] is, two passwords with the same
    key under the salt drawn leave the same result and the same
    database behind [register_user], and behind [signup], log row
    included, when both pass its length check. *)
Theorem hash_password_round_trip (rand : list byte) (env : Env)
    (username p : string) (email : option string) (db : DB) :
  let key salt s :=
    pbkdf2_hmac "sha256" (Py.encode s) (Py.encode salt) 100000 in
  let derived salt := Py.hex (key salt p) in
  hash_password rand p
  = append (token_hex rand) (append "$" (derived (token_hex rand)))
  /\ Py.split "$" (hash_password rand p)
     = [token_hex rand; derived (token_hex rand)]
  /\ verify_password (hash_password rand p) p = true
  /\ (forall q,
        verify_password (hash_password rand p) q = true
        <-> key (token_hex rand) q = key (token_hex rand) p)
  /\ match register_user env username p email db with
     | ((true, _), db') =>
         users db'
         = users db ++
           [ {| Users.id := next_rowid (seq_users db) (map Users.id (users db));
                Users.username := username;
                Users.password_hash :=
                  append (token_hex (rand_bytes env))
                    (append "$" (derived (token_hex (rand_bytes env))));
                Users.email := email;
                Users.created_at := now env;
                Users.last_login := None;
                Users.is_active := 1 |} ]
         /\ verify_password
              (append (token_hex (rand_bytes env))
                 (append "$" (derived (token_hex (rand_bytes env))))) p = true
     | ((false, _), db') => db' = db
     end
  /\ (forall q,
        key (token_hex (rand_bytes env)) q = key (token_hex (rand_bytes env)) p ->
        register_user env username q email db
        = register_user env username p email db)
  /\ (forall json json',
        request_password json = p ->
        request_username json' = request_username json ->
        request_email json' = request_email json ->
        6 <= len p -> 6 <= len (request_password json') ->
        key (token_hex (rand_bytes env)) (request_password json')
        = key (token_hex (rand_bytes env)) p ->
        signup env json' db = signup env json db).
Proof.
  intros key derived.
  assert (Hreg : forall u e q,
    key (token_hex (rand_bytes env)) q = key (token_hex (rand_bytes env)) p ->
    register_user env u q e db = register_user env u p e db).
  { intros u e q Hq. unfold register_user, hash_password.
    fold (key (token_hex (rand_bytes env)) q).
    fold (key (token_hex (rand_bytes env)) p). now rewrite Hq. }
  split; [reflexivity|].
  split; [apply split_hash_password|].
  split; [apply verify_hash_password|].
  split.
  { intros q. unfold key, verify_password. rewrite split_hash_password.
    rewrite String.eqb_eq. split; [apply hex_one_to_one | now intros ->]. }
  split.
  { unfold register_user.
    destruct (username_taken db username || email_taken db email);
      [reflexivity|].
    split; [reflexivity|]. apply verify_hash_password. }
  split; [apply Hreg|].
  intros json json' Hp Hu He Hlen Hlen' Hkey.
  assert (Hne : forall s, 6 <= len s -> is_empty s = false /\ (len s <? 6) = false).
  { intros s Hs. split; [|apply Z.ltb_ge; exact Hs].
    destruct s; [cbn in Hs; lia | reflexivity]. }
  destruct (Hne _ Hlen) as [E1 L1]. destruct (Hne _ Hlen') as [E2 L2].
  unfold signup. cbv zeta. run_handler.
  fold (request_username json) (request_password json) (request_email json).
  fold (request_username json') (request_password json') (request_email json').
  rewrite Hu, He, Hp, E1, E2, L1, L2, !orb_false_r.
  destruct (is_empty (request_username json)); [reflexivity|].
  destruct (len (request_username json) <? 3); [reflexivity|].
  rewrite (Hreg _ _ _ Hkey). reflexivity.
Qed.

Lemma register_user_fresh (env : Env) (username password : string)
    (email : option string) (db : DB) :
  username_taken db username = false -> email_taken db email = false ->
  exists row,
    Users.username row = username /\ Users.email row = email
    /\ fst (register_user env username password email db)
       = (true, "User registered successfully")
    /\ users (snd (register_user env username password email db))
       = users db ++ [row].
Proof.
  intros Hu He. unfold register_user. rewrite Hu, He. cbn [orb fst snd users].
  eexists. repeat split; reflexivity.
Qed.

Lemma register_user_conflict (env : Env) (username password : string)
    (email : option string) (db : DB) :
  username_taken db username || email_taken db email = true ->
  register_user env username password email db
  = ((false, "Username already exists"), db).
Proof. intros H. unfold register_user. now rewrite H. Qed.

Lemma username_taken_app (db db' : DB) (row : Users.row) (username : string) :
  users db' = users db ++ [row] ->
  username_taken db' username
  = username_taken db username || String.eqb (Users.username row) username.
Proof.
  intros H. unfold username_taken. rewrite H, existsb_app. simpl.
  now rewrite orb_false_r.
Qed.

Lemma email_taken_app (db db' : DB) (row : Users.row) (email : option string) :
  users db' = users db ++ [row] ->
  email_taken db' email
  = email_taken db email
    || match email with
       | Some e => text_eq e (Users.email row)
       | None => false
       end.
Proof.
  intros H. unfold email_taken. destruct email as [e|]; [|reflexivity].
  rewrite H, existsb_app. simpl. now rewrite orb_false_r.
Qed.

Lemma signup_conflict (env : Env) (json : option Py.dict) (db : DB) :
  3 <= len (request_username json) -> 6 <= len (request_password json) ->
  username_taken db (request_username json)
  || email_taken db (request_email json) = true ->
  signup env json db = ((error "Username already exists", 400), db).
Proof.
  unfold request_username, request_password, request_email.
  intros Hu Hp Ht. unfold signup. run_handler.
  destruct (Py.strip (Py.or_empty (Py.get (json_or_empty json) "username")))
    as [|c0 u0] eqn:Eu; [cbn in Hu; lia|].
  destruct (Py.strip (Py.or_empty (Py.get (json_or_empty json) "password")))
    as [|c1 p0] eqn:Ep; [cbn in Hp; lia|].
  cbn [is_empty orb].
  apply Z.leb_le in Hu, Hp. rewrite Z.leb_antisym in Hu, Hp.
  apply negb_true_iff in Hu, Hp. rewrite Hu, Hp.
  rewrite register_user_conflict by exact Ht. reflexivity.
Qed.

Lemma count_username_app (l : list Users.row) (row : Users.row)
    (username : string) :
  List.length
    (filter (fun u => String.eqb (Users.username u) username) (l ++ [row]))
  = (List.length (filter (fun u => String.eqb (Users.username u) username) l)
     + if String.eqb (Users.username row) username then 1 else 0)%nat.
Proof.
  rewrite filter_app, length_app. simpl.
  destruct (String.eqb (Users.username row) username); reflexivity.
Qed.

Lemma count_username_fresh (db : DB) (username : string) :
  username_taken db username = false ->
  List.length
    (filter (fun u => String.eqb (Users.username u) username) (users db)) = 0%nat.
Proof.
  unfold username_taken. induction (users db) as [|u l IH]; simpl;
    [reflexivity|].
  intros H. apply orb_false_iff in H as [H1 H2]. rewrite H1. now apply IH.
Qed.

(** C6.  Two distinct usernames that are not in [users] yet, with emails
    that are absent or not taken and not the same: registering both
    succeeds.  After that, registering the first name again, or any
    name with the first email, is turned down by the [INSERT] itself
    with the one conflict message and changes nothing; [signup] answers
    it 400; and [users] still has one row with that name. *)
Theorem register_user_unique (env1 env2 : Env) (u1 u2 p1 p2 : string)
    (e1 e2 : option string) (db : DB) :
  u1 <> u2 ->
  username_taken db u1 = false -> username_taken db u2 = false ->
  email_taken db e1 = false -> email_taken db e2 = false ->
  (e1 = None \/ e1 <> e2) ->
  let r1 := register_user env1 u1 p1 e1 db in
  let r2 := register_user env2 u2 p2 e2 (snd r1) in
  fst r1 = (true, "User registered successfully")
  /\ fst r2 = (true, "User registered successfully")
  /\ (forall env p e,
        register_user env u1 p e (snd r2)
        = ((false, "Username already exists"), snd r2))
  /\ (forall env u p mail, e1 = Some mail ->
        register_user env u p (Some mail) (snd r2)
        = ((false, "Username already exists"), snd r2))
  /\ (forall env json,
        request_username json = u1 -> 3 <= len u1 ->
        6 <= len (request_password json) ->
        signup env json (snd r2)
        = ((error "Username already exists", 400), snd r2))
  /\ List.length
       (filter (fun u => String.eqb (Users.username u) u1) (users (snd r2)))
     = 1%nat.
Proof.
  intros Hne Hu1 Hu2 He1 He2 Hmail r1 r2.
  destruct (register_user_fresh env1 u1 p1 e1 db Hu1 He1)
    as (row1 & Hn1 & Hm1 & Hr1 & Hs1).
  fold r1 in Hr1, Hs1.
  assert (Hu2' : username_taken (snd r1) u2 = false).
  { rewrite (username_taken_app db _ row1 u2 Hs1), Hu2, Hn1.
    now apply String.eqb_neq. }
  assert (He2' : email_taken (snd r1) e2 = false).
  { rewrite (email_taken_app db _ row1 e2 Hs1), He2, Hm1.
    destruct e2 as [m2|]; [|reflexivity]. cbn [orb].
    destruct e1 as [m1|]; [|reflexivity]. cbn [text_eq].
    apply String.eqb_neq. destruct Hmail as [H|H]; congruence. }
  destruct (register_user_fresh env2 u2 p2 e2 (snd r1) Hu2' He2')
    as (row2 & Hn2 & Hm2 & Hr2 & Hs2).
  fold r2 in Hr2, Hs2.
  assert (Htaken : username_taken (snd r2) u1 = true).
  { rewrite (username_taken_app (snd r1) _ row2 u1 Hs2).
    rewrite (username_taken_app db _ row1 u1 Hs1), Hn1, String.eqb_refl.
    now rewrite orb_true_r. }
  split; [exact Hr1|]. split; [exact Hr2|]. split; [|split; [|split]].
  - intros env p e. apply register_user_conflict. now rewrite Htaken.
  - intros env u p mail ->. apply register_user_conflict.
    rewrite (email_taken_app (snd r1) _ row2 _ Hs2).
    rewrite (email_taken_app db _ row1 _ Hs1), Hm1. cbn [text_eq].
    rewrite String.eqb_refl. now rewrite !orb_true_r.
  - intros env json Hj Hlen Hp. apply signup_conflict; try assumption.
    + now rewrite Hj.
    + now rewrite Hj, Htaken.
  - rewrite Hs2, count_username_app, Hs1, count_username_app.
    rewrite (count_username_fresh db u1 Hu1), Hn1, Hn2, String.eqb_refl.
    apply String.eqb_neq in Hne. rewrite String.eqb_sym in Hne.
    now rewrite Hne.
Qed.

End Register.

(** Two passwords with the same key under the stand-in key function:
    what registering either leaves behind is the same. *)
Lemma hash_password_round_trip_witness :
  register_user (HL := demo_hashlib) (demo_env 20 "") "dave" "`acdef" None
    demo_db
  = register_user (HL := demo_hashlib) (demo_env 20 "") "dave" "Abcdef" None
      demo_db.
Proof.
  apply (proj1 (proj2 (proj2 (proj2 (proj2 (proj2
           (hash_password_round_trip (HL := demo_hashlib) [] (demo_env 20 "")
              "dave" "Abcdef" None demo_db))))))).
  vm_compute. reflexivity.
Defined.

(** The theorem at dave and erin, new to [demo_db], dave with an email. *)
Lemma register_user_unique_witness :
  let r1 := register_user (HL := demo_hashlib) (demo_env 30 "") "dave"
              "secret4" (Some "dave@example.org") demo_db in
  let r2 := register_user (HL := demo_hashlib) (demo_env 31 "") "erin"
              "secret5" None (snd r1) in
  fst r1 = (true, "User registered successfully")
  /\ fst r2 = (true, "User registered successfully")
  /\ (forall env p e,
        register_user (HL := demo_hashlib) env "dave" p e (snd r2)
        = ((false, "Username already exists"), snd r2))
  /\ (forall env u p mail, Some "dave@example.org" = Some mail ->
        register_user (HL := demo_hashlib) env u p (Some mail) (snd r2)
        = ((false, "Username already exists"), snd r2))
  /\ (forall env json,
        request_username json = "dave" -> 3 <= len "dave" ->
        6 <= len (request_password json) ->
        signup (HL := demo_hashlib) env json (snd r2)
        = ((error "Username already exists", 400), snd r2))
  /\ List.length
       (filter (fun u => String.eqb (Users.username u) "dave")
          (users (snd r2)))
     = 1%nat.
Proof.
  apply (register_user_unique (HL := demo_hashlib) (demo_env 30 "")
           (demo_env 31 "") "dave" "erin" "secret4" "secret5"
           (Some "dave@example.org") None demo_db).
  - discriminate.
  - vm_compute. reflexivity.
  - vm_compute. reflexivity.
  - vm_compute. reflexivity.
  - vm_compute. reflexivity.
  - right. discriminate.
Defined.

(* ================================================================== *)
(** * The inbox *)
(* ================================================================== *)

Lemma select_unread_spec (db : DB) (u : Z) :
  db_ok db ->
  exists sender : Messages.row -> Users.row,
    (forall m, In m (messages db) ->
       Users.username (sender m) = sender_name db m)
    /\ select_unread (VInt u) db
       = map (fun m => (m, sender m))
           (order_by_desc Messages.created_at
              (filter (unread_for u) (messages db))).
Proof.
  intros Hok.
  destruct (messages_join_users_spec db Hok) as (sender & Hjoin & Hname).
  exists sender. split; [exact Hname|].
  unfold select_unread. rewrite Hjoin, filter_map_comm, order_by_desc_map.
  reflexivity.
Qed.

Lemma In_order_by_desc_filter (p : Messages.row -> bool)
    (l : list Messages.row) (m : Messages.row) :
  In m (order_by_desc Messages.created_at (filter p l))
  <-> In m l /\ p m = true.
Proof.
  rewrite <- filter_In. split; apply Permutation_in.
  - symmetry. apply order_by_desc_perm.
  - apply order_by_desc_perm.
Qed.

Lemma unread_for_true (u : Z) (m : Messages.row) :
  unread_for u m = true
  <-> Messages.recipient_id m = u /\ Messages.is_read m = 0.
Proof.
  unfold unread_for. rewrite andb_true_iff, !Z.eqb_eq. reflexivity.
Qed.

(** C7.  For every user [u], [GET /get_messages] with a token of [u] is
    answered 200 with the entries of exactly the messages whose
    [recipient_id] is [u] and whose [is_read] is 0, newest first by
    [created_at], and it leaves the messages table, hence every
    [is_read] and [read_at], as it was. *)
Theorem get_messages_unread (env : Env) (db : DB) (token : option string)
    (u : Z) :
  db_ok db ->
  session_user_id db token = Some u ->
  let out := get_messages env token db in
  let inbox :=
    order_by_desc Messages.created_at (filter (unread_for u) (messages db)) in
  fst out = (JObj [("messages", JArr (map (inbox_entry db) inbox))], 200)
  /\ (forall m, In m inbox <->
        In m (messages db)
        /\ Messages.recipient_id m = u /\ Messages.is_read m = 0)
  /\ Permutation inbox (filter (unread_for u) (messages db))
  /\ newest_first inbox
  /\ messages (snd out) = messages db.
Proof.
  intros Hok Hu out inbox.
  destruct (session_user_id_verify db token u Hu) as (usr & _ & Hid & Hv).
  destruct (select_unread_spec db u Hok) as (sender & Hname & Hsel).
  assert (Hin : forall m, In m inbox <->
            In m (messages db)
            /\ Messages.recipient_id m = u /\ Messages.is_read m = 0).
  { intros m. unfold inbox. rewrite In_order_by_desc_filter.
    now rewrite unread_for_true. }
  assert (Hrun : out
    = ((JObj [("messages", JArr (map (inbox_entry db) inbox))], 200),
       log_activity env (VInt u) "get_messages"
         (Some (append "Retrieved "
                  (append (Py.str_int (Z.of_nat (List.length
                             (map (inbox_entry db) inbox)))) " messages")))
         (Some (remote_addr env)) "success" db)).
  { unfold out, get_messages. run_handler. rewrite Hv.
    cbv beta iota delta [negb]. rewrite subscript_id. cbv beta iota.
    rewrite subscript_username, Hid, Hsel. cbv beta iota.
    fold inbox. rewrite map_map.
    replace (map _ inbox) with (map (inbox_entry db) inbox); [reflexivity|].
    apply map_ext_in. intros m Hm. unfold inbox_entry. cbn [fst snd].
    rewrite Hname; [reflexivity|]. now apply Hin. }
  rewrite Hrun. cbn [fst snd].
  split; [reflexivity|]. split; [exact Hin|]. split; [|split].
  - symmetry. apply order_by_desc_perm.
  - apply order_by_desc_sorted.
  - reflexivity.
Qed.

(** The theorem at bob, who has two unread messages from alice. *)
Lemma get_messages_unread_witness :
  let out := get_messages (demo_env 20 "") (Some "tokB") demo_db in
  let inbox :=
    order_by_desc Messages.created_at (filter (unread_for 2) (messages demo_db))
  in
  fst out = (JObj [("messages", JArr (map (inbox_entry demo_db) inbox))], 200)
  /\ (forall m, In m inbox <->
        In m (messages demo_db)
        /\ Messages.recipient_id m = 2 /\ Messages.is_read m = 0)
  /\ Permutation inbox (filter (unread_for 2) (messages demo_db))
  /\ newest_first inbox
  /\ messages (snd out) = messages demo_db.
Proof.
  apply (get_messages_unread (demo_env 20 "") demo_db (Some "tokB") 2).
  - apply db_okb_ok. vm_compute. reflexivity.
  - vm_compute. reflexivity.
Defined.

Example get_messages_bob :
  fst (get_messages (demo_env 20 "") (Some "tokB") demo_db)
  = (JObj [("messages",
            JArr [JObj [("id", JNum 3); ("sender", JStr "alice");
                        ("message", JStr "bye"); ("timestamp", JNum 9)];
                  JObj [("id", JNum 1); ("sender", JStr "alice");
                        ("message", JStr "hi"); ("timestamp", JNum 7)]])],
     200).
Proof. vm_compute. reflexivity. Qed.

(* ================================================================== *)
(** * Pages of a conversation *)
(* ================================================================== *)

Lemma for_each_page_entry (db : DB) (caller : Users.row)
    (sender : Messages.row -> Users.row) (l : list Messages.row) (db0 : DB) :
  (forall m, In m l -> Users.username (sender m) = sender_name db m) ->
  for_each (page_entry (Some (session_row caller)))
    (map (fun m => (m, sender m)) l) db0
  = (Ok (map (conversation_entry db (Users.username caller)) l), db0).
Proof.
  induction l as [|m l IH]; intros Hname; [reflexivity|].
  cbn [map for_each]. unfold bind at 1.
  unfold page_entry at 1. unfold bind at 1, lift at 1.
  rewrite subscript_username. cbv beta iota. unfold ret at 1.
  unfold bind at 1. rewrite IH by (intros; apply Hname; now right).
  unfold ret. unfold conversation_entry at 2. cbn [fst snd is_own_message].
  rewrite (Hname m) by now left. reflexivity.
Qed.

Lemma In_firstn {A} (n : nat) (l : list A) (x : A) :
  In x (firstn n l) -> In x l.
Proof.
  intros H. rewrite <- (firstn_skipn n l). apply in_or_app. now left.
Qed.

Lemma In_skipn {A} (n : nat) (l : list A) (x : A) :
  In x (skipn n l) -> In x l.
Proof.
  intros H. rewrite <- (firstn_skipn n l). apply in_or_app. now right.
Qed.






Lemma between_true (a b : Z) (m : Messages.row) :
  between a b m = true
  <-> (Messages.sender_id m = a /\ Messages.recipient_id m = b)
      \/ (Messages.sender_id m = b /\ Messages.recipient_id m = a).
Proof.
  unfold between. rewrite orb_true_iff, !andb_true_iff, !Z.eqb_eq.
  reflexivity.
Qed.

Lemma select_conversation_page_spec (db : DB) (a b limit offset : Z) :
  db_ok db ->
  exists sender : Messages.row -> Users.row,
    (forall m, In m (messages db) ->
       Users.username (sender m) = sender_name db m)
    /\ select_conversation_page (VInt a) (VInt b) limit offset db
       = map (fun m => (m, sender m))
           (limit_offset limit offset
              (order_by_desc Messages.created_at
                 (filter (between a b) (messages db)))).
Proof.
  intros Hok.
  destruct (messages_join_users_spec db Hok) as (sender & Hjoin & Hname).
  exists sender. split; [exact Hname|].
  unfold select_conversation_page.
  rewrite Hjoin, filter_map_comm, order_by_desc_map, limit_offset_map.
  reflexivity.
Qed.

Lemma In_limit_offset {A} (limit offset : Z) (l : list A) (x : A) :
  In x (limit_offset limit offset l) -> In x l.
Proof.
  unfold limit_offset. intros H.
  assert (In x (skipn (Z.to_nat offset) l)).
  { destruct (limit <? 0); [exact H|].
    revert H. apply In_firstn. }
  revert H0. apply In_skipn.
Qed.

(** What [get_conversation_v2] answers to a caller [a] about a
    registered user [b]. *)
Lemma get_conversation_v2_run (env : Env) (db : DB)
    (recipient_username : string) (token : option string)
    (limit_arg offset_arg : option Z) (ua ub : Users.row) :
  db_ok db ->
  session_user_id db token = Some (Users.id ua) ->
  user_by_id db (Users.id ua) = Some ua ->
  user_by_name db recipient_username = Some ub ->
  let limit := match limit_arg with Some n => n | None => 50 end in
  let offset := match offset_arg with Some n => n | None => 0 end in
  let conversation :=
    filter (between (Users.id ua) (Users.id ub)) (messages db) in
  get_conversation_v2 env recipient_username token limit_arg offset_arg db
  = ((JObj [("conversation",
             JArr (rev (map (conversation_entry db (Users.username ua))
                          (limit_offset limit offset
                             (order_by_desc Messages.created_at
                                conversation)))));
            ("total_messages", JNum (Z.of_nat (List.length conversation)));
            ("has_more",
             JBool (offset + limit <? Z.of_nat (List.length conversation)))],
      200), db).
Proof.
  intros Hok Hu Hua Hub limit offset conversation.
  destruct (session_user_id_verify db token _ Hu) as (usr & Husr & _ & Hv).
  assert (usr = ua) as -> by congruence.
  destruct (select_conversation_page_spec db (Users.id ua) (Users.id ub)
              limit offset Hok) as (sender & Hname & Hsel).
  unfold get_conversation_v2. run_handler. fold limit offset.
  rewrite Hv. cbv beta iota delta [negb].
  unfold get_user_by_username. unfold user_by_name in Hub. rewrite Hub.
  cbn [option_map]. rewrite subscript_id. cbv beta iota.
  cbn [subscript Row_lookup String.eqb Ascii.eqb Bool.eqb].
  cbv beta iota. rewrite Hsel.
  rewrite (for_each_page_entry db ua sender).
  - reflexivity.
  - intros m Hm. apply Hname. apply In_limit_offset in Hm.
    now apply In_order_by_desc_filter in Hm.
Qed.




(** The page of the witness, by its ids: messages 1 and 2, oldest
    first, out of three. *)
Example get_conversation_v2_second_page :
  let answer :=
    fst (fst (get_conversation_v2 (demo_env 20 "") "bob" (Some "tokA")
                (Some 2) (Some 1) demo_db)) in
  option_map (fun j => match j with JArr l => entry_ids l | _ => [] end)
    (field answer "conversation") = Some [Some (JNum 1); Some (JNum 2)]
  /\ field answer "total_messages" = Some (JNum 3)
  /\ field answer "has_more" = Some (JBool false).
Proof. vm_compute. repeat split; reflexivity. Qed.

Example get_conversation_v2_two_pages :
  let page off :=
    field (fst (fst (get_conversation_v2 (demo_env 20 "") "bob" (Some "tokA")
                       (Some 1) (Some off) demo_db))) "conversation" in
  option_map (fun j => match j with JArr l => entry_ids l | _ => [] end)
    (page 0) = Some [Some (JNum 3)]
  /\ option_map (fun j => match j with JArr l => entry_ids l | _ => [] end)
       (page 1) = Some [Some (JNum 2)].
Proof. vm_compute. split; reflexivity. Qed.

(* ================================================================== *)
(** * How a request changes the database *)
(* ================================================================== *)

Section Evolution.
Context {HL : Hashlib}.

Lemma evolving_ret {A} (a : A) : evolving (ret a).
Proof. intros db0 db H. exact H. Qed.

Lemma evolving_lift {A} (x : Py.exc A) : evolving (lift x).
Proof. intros db0 db H. exact H. Qed.

Lemma evolving_query {A} (f : DB -> A) : evolving (query f).
Proof. intros db0 db H. exact H. Qed.

Lemma evolving_verify (token : option string) : evolving (verify token).
Proof. apply evolving_query. Qed.

Lemma evolving_bind {A B} (m : M A) (k : A -> M B) :
  evolving m -> (forall a, evolving (k a)) -> evolving (bind m k).
Proof.
  intros Hm Hk db0 db H. unfold bind.
  specialize (Hm db0 db H).
  destruct (m db) as [[a|e] db']; cbn [snd] in *; [|exact Hm].
  now apply Hk.
Qed.

Lemma evolving_log (env : Env) (uid : Val) (action : string)
    (details ip : option string) (st : string) :
  evolving (execute (log_activity env uid action details ip st)).
Proof. intros db0 db H. now apply evolves_log. Qed.

Lemma evolving_update (env : Env) (message_id : Z) (recipient : Val) :
  evolving (execute (update_read env message_id recipient)).
Proof. intros db0 db H. now apply evolves_update. Qed.

Lemma evolving_register (env : Env) (username password : string)
    (email : option string) :
  evolving (call (register_user env username password email)).
Proof.
  intros db0 db H. unfold call.
  pose proof (evolves_register db0 db env username password email H) as E.
  destruct (register_user env username password email db). exact E.
Qed.

Lemma evolving_login (env : Env) (username password : string) :
  evolving (call (login_user env username password)).
Proof.
  intros db0 db H. unfold call.
  pose proof (evolves_login db0 db env username password H) as E.
  destruct (login_user env username password db). exact E.
Qed.

Lemma evolving_try_except (describe : string -> string) (m : M Response)
    (db : DB) :
  evolving m -> evolves db (snd (try_except describe m db)).
Proof.
  intros Hm. unfold try_except.
  specialize (Hm db db (evolves_refl db)).
  destruct (m db) as [[r|e] db']; exact Hm.
Qed.

Lemma evolving_for_each {A B} (f : A -> M B) (l : list A) :
  (forall a, evolving (f a)) -> evolving (for_each f l).
Proof.
  intros Hf. induction l as [|x l IH]; cbn [for_each].
  - apply evolving_ret.
  - apply evolving_bind; [apply Hf|]. intros y.
    apply evolving_bind; [exact IH|]. intros ys. apply evolving_ret.
Qed.

Ltac evolving_step :=
  first
    [ apply evolving_ret | apply evolving_lift | apply evolving_verify
    | apply evolving_query | apply evolving_log | apply evolving_update
    | apply evolving_register | apply evolving_login
    | apply evolving_bind; [|intros ?]
    | match goal with
      | |- evolving (match ?x with _ => _ end) => destruct x
      end ].

Lemma signup_evolves (env : Env) (json : option Py.dict) (db : DB) :
  evolves db (snd (signup env json db)).
Proof.
  unfold signup. apply evolving_try_except. cbv zeta.
  repeat evolving_step.
Qed.

Lemma login_evolves (env : Env) (json : option Py.dict) (db : DB) :
  evolves db (snd (login env json db)).
Proof.
  unfold login. apply evolving_try_except. cbv zeta.
  repeat evolving_step.
Qed.

Lemma get_messages_evolves (env : Env) (token : option string) (db : DB) :
  evolves db (snd (get_messages env token db)).
Proof.
  unfold get_messages. apply evolving_try_except.
  repeat evolving_step.
Qed.

Lemma mark_read_evolves (env : Env) (message_id : Z) (json : option Py.dict)
    (db : DB) :
  evolves db (snd (mark_read env message_id json db)).
Proof.
  unfold mark_read. apply evolving_try_except.
  repeat evolving_step.
Qed.

Lemma get_conversation_evolves (env : Env) (r : string)
    (token : option string) (db : DB) :
  evolves db (snd (get_conversation env r token db)).
Proof.
  unfold get_conversation. apply evolving_try_except.
  repeat evolving_step.
Qed.

Lemma get_user_profile_evolves (env : Env) (token : option string) (db : DB) :
  evolves db (snd (get_user_profile env token db)).
Proof.
  unfold get_user_profile. apply evolving_try_except.
  repeat evolving_step.
Qed.

Lemma get_conversation_v2_evolves (env : Env) (r : string)
    (token : option string) (limit offset : option Z) (db : DB) :
  evolves db (snd (get_conversation_v2 env r token limit offset db)).
Proof.
  unfold get_conversation_v2. apply evolving_try_except. cbv zeta.
  repeat first
    [ apply evolving_for_each; intros ?; unfold page_entry
    | evolving_step ].
Qed.

(** [send_message] inserts with the id of the user the token resolved
    to, a user that exists. *)
Lemma send_message_evolves (env : Env) (json : option Py.dict) (db : DB) :
  evolves db (snd (send_message env json db)).
Proof.
  unfold send_message. cbv zeta. run_handler.
  destruct (verify_session_token db _) as [[|] user] eqn:Hv;
    cbv beta iota delta [negb]; [|apply evolves_refl].
  destruct (is_empty _ || is_empty _).
  { destruct (subscript user "username"); apply evolves_refl. }
  unfold get_user_by_username.
  destruct (find _ (users db)) as [ru|]; cbn [option_map].
  - destruct user as [r|]; [|apply evolves_refl].
    destruct (verify_session_token_row db
                (Py.get (json_or_empty json) "token") r) as (u & Hin & ->);
      [now rewrite Hv|].
    rewrite subscript_id. cbv beta iota.
    cbn [subscript Row_lookup String.eqb Ascii.eqb Bool.eqb not_null_int].
    cbv beta iota. cbn [snd].
    apply evolves_log, evolves_insert; [apply evolves_refl|].
    now apply in_map.
  - destruct (subscript user "username"); apply evolves_refl.
Qed.

Lemma handle_evolves (env : Env) (req : Request) (db : DB) :
  evolves db (snd (handle env req db)).
Proof.
  destruct req; cbn [handle].
  - apply signup_evolves.
  - apply login_evolves.
  - apply send_message_evolves.
  - apply get_messages_evolves.
  - apply mark_read_evolves.
  - apply get_conversation_evolves.
  - apply get_user_profile_evolves.
  - apply get_conversation_v2_evolves.
  - apply evolves_refl.
Qed.

End Evolution.

(* ================================================================== *)
(** * Every reachable database is consistent *)
(* ================================================================== *)

Lemma le_fold_max (ids : list Z) (x : Z) :
  In x ids -> x <= fold_right Z.max 0 ids.
Proof.
  induction ids as [|y ids IH]; cbn [fold_right In]; [contradiction|].
  intros [->|H]; [lia|]. specialize (IH H). lia.
Qed.

Lemma next_rowid_fresh (seq : Z) (ids : list Z) :
  ~ In (next_rowid seq ids) ids.
Proof.
  intros H. apply le_fold_max in H. unfold next_rowid in H. lia.
Qed.

Lemma NoDup_app_one {A} (l : list A) (x : A) :
  NoDup l -> ~ In x l -> NoDup (l ++ [x]).
Proof.
  intros Hl Hx. apply NoDup_rev in Hl.
  rewrite <- (rev_involutive (l ++ [x])). apply NoDup_rev.
  rewrite rev_app_distr. cbn [rev app]. constructor; [|exact Hl].
  now rewrite <- in_rev.
Qed.

Lemma not_existsb_In (l : list string) (x : string) :
  existsb (fun y => String.eqb y x) l = false -> ~ In x l.
Proof.
  intros H Hin. assert (existsb (fun y => String.eqb y x) l = true);
    [|congruence].
  apply existsb_exists. exists x. split; [exact Hin | apply String.eqb_refl].
Qed.

Lemma existsb_map {A B} (f : A -> B) (p : B -> bool) (l : list A) :
  existsb p (map f l) = existsb (fun a => p (f a)) l.
Proof.
  induction l as [|x l IH]; cbn [map existsb]; [reflexivity|].
  now rewrite IH.
Qed.

Section Invariant.
Context {HL : Hashlib}.

Lemma log_activity_ok (env : Env) (uid : Val) (action : string)
    (details ip : option string) (st : string) (db : DB) :
  db_ok db -> db_ok (log_activity env uid action details ip st db).
Proof. intros [H1 H2 H3 H4 H5 H6]. constructor; assumption. Qed.

Lemma register_user_ok (env : Env) (username password : string)
    (email : option string) (db : DB) :
  db_ok db -> db_ok (snd (register_user env username password email db)).
Proof.
  intros Hok. unfold register_user.
  destruct (username_taken db username) eqn:Hu; [exact Hok|].
  destruct (email_taken db email); [exact Hok|].
  destruct Hok as [H1 H2 H3 H4 H5 H6].
  cbn [orb snd]. constructor; cbn [users sessions messages].
  - rewrite map_app. apply NoDup_app_one; [exact H1|].
    apply next_rowid_fresh.
  - rewrite map_app. apply NoDup_app_one; [exact H2|].
    cbn [map Users.username]. apply not_existsb_In.
    unfold username_taken in Hu. now rewrite existsb_map.
  - exact H3.
  - exact H4.
  - intros s Hs. rewrite map_app. apply in_or_app. left. now apply H5.
  - intros m Hm. rewrite map_app. apply in_or_app. left. now apply H6.
Qed.

Lemma map_set_last_login {B} (f : Users.row -> B) (k t : Z)
    (l : list Users.row) :
  (forall u, f (Users.set_last_login u t) = f u) ->
  map f (map (fun u => if Users.id u =? k
                       then Users.set_last_login u t else u) l)
  = map f l.
Proof.
  intros Hf. rewrite map_map. apply map_ext. intros u.
  destruct (Users.id u =? k); [apply Hf | reflexivity].
Qed.

Lemma login_user_ok (env : Env) (username password : string) (db : DB) :
  db_ok db -> db_ok (snd (login_user env username password db)).
Proof.
  intros Hok. unfold login_user.
  destruct (find _ (users db)) as [user|] eqn:F; [|exact Hok].
  destruct (negb _); [exact Hok|].
  destruct (existsb _ (sessions db)) eqn:E; [exact Hok|].
  apply find_some in F as [Hin _].
  destruct Hok as [H1 H2 H3 H4 H5 H6].
  cbn [snd]. constructor; cbn [users sessions messages].
  - now rewrite map_set_last_login.
  - now rewrite map_set_last_login.
  - rewrite map_app. apply NoDup_app_one; [exact H3|].
    cbn [map Sessions.token]. apply not_existsb_In. now rewrite existsb_map.
  - exact H4.
  - intros s Hs. rewrite map_set_last_login by reflexivity.
    apply in_app_or in Hs as [Hs|[<-|[]]]; [now apply H5|].
    cbn [Sessions.user_id]. now apply in_map.
  - intros m Hm. rewrite map_set_last_login by reflexivity. now apply H6.
Qed.

Lemma insert_message_ok (env : Env) (sender recipient : Z) (text : string)
    (db : DB) :
  db_ok db -> In sender (map Users.id (users db)) ->
  db_ok (insert_message env sender recipient text db).
Proof.
  intros [H1 H2 H3 H4 H5 H6] Hs.
  constructor; cbn [users sessions messages insert_message]; try assumption.
  - rewrite map_app. apply NoDup_app_one; [exact H4|].
    apply next_rowid_fresh.
  - intros m Hm. apply in_app_or in Hm as [Hm|[<-|[]]]; [now apply H6|].
    exact Hs.
Qed.

Lemma update_read_ok (env : Env) (message_id : Z) (recipient : Val) (db : DB) :
  db_ok db -> db_ok (update_read env message_id recipient db).
Proof.
  intros [H1 H2 H3 H4 H5 H6].
  constructor; cbn [users sessions messages update_read]; try assumption.
  - rewrite map_map.
    erewrite map_ext; [exact H4|]. intros m. cbv beta.
    destruct (_ && _); reflexivity.
  - intros m Hm. apply in_map_iff in Hm as (m0 & <- & Hm0).
    specialize (H6 m0 Hm0). destruct (_ && _); exact H6.
Qed.

Lemma evolves_ok (db0 db : DB) : evolves db0 db -> db_ok db0 -> db_ok db.
Proof.
  induction 1; intros Hok; auto using log_activity_ok, register_user_ok,
    login_user_ok, insert_message_ok, update_read_ok.
Qed.

Lemma handle_ok (env : Env) (req : Request) (db : DB) :
  db_ok db -> db_ok (snd (handle env req db)).
Proof. apply evolves_ok, handle_evolves. Qed.

Lemma init_db_ok : db_ok init_db.
Proof. constructor; cbn; try constructor; contradiction. Qed.

Lemma reachable_ok (db : DB) : reachable db -> db_ok db.
Proof.
  induction 1; [apply init_db_ok | now apply handle_ok].
Qed.

(** ** A token keeps resolving to the same row *)

Lemma find_app_some {A} (p : A -> bool) (l l' : list A) (x : A) :
  find p l = Some x -> find p (l ++ l') = Some x.
Proof.
  induction l as [|y l IH]; cbn [find app]; [discriminate|].
  destruct (p y); [trivial | exact IH].
Qed.

Lemma find_app_none {A} (p : A -> bool) (l l' : list A) :
  find p l = None -> find p (l ++ l') = find p l'.
Proof.
  induction l as [|y l IH]; cbn [find app]; [trivial|].
  destruct (p y); [discriminate | exact IH].
Qed.

Lemma keeps_sessions_same (db db' : DB) :
  users db' = users db -> sessions db' = sessions db ->
  keeps_sessions db db'.
Proof.
  intros Hu Hs token r. unfold verify_session_token. now rewrite Hu, Hs.
Qed.

Lemma register_user_keeps (env : Env) (username password : string)
    (email : option string) (db : DB) :
  keeps_sessions db (snd (register_user env username password email db)).
Proof.
  unfold register_user.
  destruct (_ || _); [now apply keeps_sessions_same|].
  intros token r. unfold verify_session_token. cbn [snd users sessions].
  destruct (find _ (sessions db)) as [s|]; [|discriminate].
  destruct (find _ (users db)) as [u|] eqn:F; [|discriminate].
  now rewrite (find_app_some _ _ _ _ F).
Qed.

Lemma login_user_keeps (env : Env) (username password : string) (db : DB) :
  keeps_sessions db (snd (login_user env username password db)).
Proof.
  unfold login_user.
  destruct (find _ (users db)) as [user|];
    [|now apply keeps_sessions_same].
  destruct (negb _); [now apply keeps_sessions_same|].
  destruct (existsb _ (sessions db)); [now apply keeps_sessions_same|].
  intros token r. unfold verify_session_token. cbn [snd users sessions].
  destruct (find _ (sessions db)) as [s|] eqn:Fs; [|discriminate].
  rewrite (find_app_some _ _ _ _ Fs).
  rewrite (find_map_same_key Users.id)
    by (intros u; destruct (Users.id u =? Users.id user); reflexivity).
  destruct (find _ (users db)) as [u|]; [|discriminate].
  cbn [option_map]. intros H. rewrite <- H.
  destruct (Users.id u =? Users.id user); reflexivity.
Qed.

Lemma evolves_keeps (db0 db : DB) :
  evolves db0 db -> keeps_sessions db0 db.
Proof.
  induction 1 as [|db ? ? ? ? ? ? _ IH|db ? ? ? ? _ IH|db ? ? ? _ IH
                 |db ? ? ? ? _ IH _|db ? ? ? _ IH]; intros token r Hv.
  - exact Hv.
  - now apply (keeps_sessions_same db), IH.
  - now apply register_user_keeps, IH.
  - now apply login_user_keeps, IH.
  - now apply (keeps_sessions_same db), IH.
  - now apply (keeps_sessions_same db), IH.
Qed.

End Invariant.

(* ================================================================== *)
(** * Login, then resolve *)
(* ================================================================== *)

Section Tokens.
Context {HL : Hashlib}.

(** A token that does not resolve is answered 401 on every route that
    asks for one, and nothing is written. *)
Lemma handle_unauthorized (env : Env) (req : Request)
    (token : option string) (db : DB) :
  request_token req = Some token ->
  fst (verify_session_token db token) = false ->
  status (fst (handle env req db)) = 401 /\ snd (handle env req db) = db.
Proof.
  intros Hreq Hv.
  destruct (verify_session_token db token) as [valid user] eqn:E.
  cbn [fst] in Hv. subst valid.
  destruct req as [j|j|j|t|mid [data|]|r t|t|r t lim off|];
    cbn [request_token] in Hreq; try discriminate;
    injection Hreq as <-; cbn [handle];
    [ unfold send_message | unfold get_messages | unfold mark_read
    | unfold get_conversation | unfold get_user_profile
    | unfold get_conversation_v2 ];
    cbv zeta; run_handler; rewrite E; split; reflexivity.
Qed.

Lemma login_user_success (env : Env) (username password : string) (db : DB)
    (user : Users.row) :
  db_ok db ->
  user_by_name db username = Some user ->
  Users.is_active user = 1 ->
  verify_password (Users.password_hash user) password = true ->
  ~ In (rand_token env) (map Sessions.token (sessions db)) ->
  exists db',
    login_user env username password db
    = ((true, "Login successful", Some (rand_token env)), db')
    /\ user_by_name db' username
       = Some (Users.set_last_login user (now env))
    /\ verify_session_token db' (Some (rand_token env))
       = (true, Some (session_row user)).
Proof.
  intros Hok Hname Hactive Hpw Hfresh.
  apply user_by_name_In in Hname as [Hin <-].
  pose proof (find_active_user db user (ok_usernames db Hok) Hin) as F.
  apply Z.eqb_eq in Hactive. rewrite Hactive in F.
  assert (Hex : existsb (fun s => String.eqb (Sessions.token s) (rand_token env))
                  (sessions db) = false).
  { destruct (existsb _ (sessions db)) eqn:E; [|reflexivity].
    exfalso. apply Hfresh. apply existsb_exists in E as (s & Hs & E).
    apply String.eqb_eq in E. rewrite <- E. now apply in_map. }
  unfold login_user. rewrite F, Hpw, Hex. cbn [negb].
  eexists. split; [reflexivity|]. split.
  - unfold user_by_name. cbn [users].
    assert (G : forall l, find (fun u => String.eqb (Users.username u)
                                           (Users.username user))
                    (map (fun u => if Users.id u =? Users.id user
                                   then Users.set_last_login u (now env)
                                   else u) l)
                  = option_map (fun u => if Users.id u =? Users.id user
                                         then Users.set_last_login u (now env)
                                         else u)
                      (find (fun u => String.eqb (Users.username u)
                                        (Users.username user)) l)).
    { induction l as [|y l IH]; cbn [map find option_map]; [reflexivity|].
      replace (Users.username (if Users.id y =? Users.id user
                               then Users.set_last_login y (now env) else y))
        with (Users.username y)
        by (destruct (Users.id y =? Users.id user); reflexivity).
      destruct (String.eqb (Users.username y) (Users.username user));
        [reflexivity | exact IH]. }
    rewrite G, (find_some_name _ _ (ok_usernames db Hok) Hin).
    cbn [option_map]. now rewrite Z.eqb_refl.
  - unfold verify_session_token. cbn [sessions users].
    rewrite find_app_none.
    + cbn [find Sessions.token Sessions.is_valid text_eq].
      rewrite String.eqb_refl. cbn [andb Z.eqb Pos.eqb Sessions.user_id].
      rewrite (find_map_same_key Users.id)
        by (intros u; destruct (Users.id u =? Users.id user); reflexivity).
      rewrite (find_some_key Users.id _ _ (ok_user_ids db Hok) Hin).
      cbn [option_map]. now rewrite Z.eqb_refl.
    + apply find_none_iff. intros s Hs. cbn [text_eq].
      destruct (String.eqb (Sessions.token s) (rand_token env)) eqn:E;
        [|reflexivity].
      apply String.eqb_eq in E. exfalso. apply Hfresh.
      rewrite <- E. now apply in_map.
Qed.

End Tokens.

(** C4.  (1) A login with the credentials of an active user, given a
    fresh token by the generator, is answered 200 with that token and
    the user's id, and the token at once resolves to the same user.
    (2) A string that is the token of no session resolves to nothing,
    and every route that asks for a token answers it 401.  (3) In every
    reachable database no two sessions have the same token, a valid
    session's token resolves to the one user the session belongs to,
    and whatever a token resolves to it still resolves to after any
    further request. *)
Theorem login_then_resolve {HL : Hashlib} :
  (forall env json db user,
     db_ok db ->
     is_empty (request_username json) = false ->
     is_empty (request_password json) = false ->
     user_by_name db (request_username json) = Some user ->
     Users.is_active user = 1 ->
     verify_password (Users.password_hash user) (request_password json) = true ->
     ~ In (rand_token env) (map Sessions.token (sessions db)) ->
     fst (login env json db)
     = (JObj [("status", JStr "success");
              ("message", JStr "Login successful");
              ("token", JStr (rand_token env));
              ("user_id", JNum (Users.id user));
              ("username", JStr (request_username json))], 200)
     /\ verify_session_token (snd (login env json db)) (Some (rand_token env))
        = (true, Some [("id", VInt (Users.id user));
                       ("username", VText (Users.username user))])
     /\ session_user_id (snd (login env json db)) (Some (rand_token env))
        = Some (Users.id user))
  /\ (forall env req t db,
        request_token req = Some (Some t) ->
        ~ In t (map Sessions.token (sessions db)) ->
        verify_session_token db (Some t) = (false, None)
        /\ status (fst (handle env req db)) = 401)
  /\ (forall db, reachable db ->
        NoDup (map Sessions.token (sessions db))
        /\ forall s, In s (sessions db) -> Sessions.is_valid s = 1 ->
             exists u, In u (users db)
               /\ Users.id u = Sessions.user_id s
               /\ verify_session_token db (Some (Sessions.token s))
                  = (true, Some [("id", VInt (Users.id u));
                                 ("username", VText (Users.username u))]))
  /\ (forall db env req token r,
        verify_session_token db token = (true, Some r) ->
        verify_session_token (snd (handle env req db)) token = (true, Some r)).
Proof.
  split; [|split; [|split]].
  - intros env json db user Hok Hu Hp Hname Hactive Hpw Hfresh.
    destruct (login_user_success env _ _ db user Hok Hname Hactive Hpw Hfresh)
      as (db' & Hlogin & Hname' & Hv).
    assert (Hrun : login env json db
      = ((JObj [("status", JStr "success");
                ("message", JStr "Login successful");
                ("token", JStr (rand_token env));
                ("user_id", JNum (Users.id user));
                ("username", JStr (request_username json))], 200),
         log_activity env (VInt (Users.id user)) "user_login" None
           (Some (remote_addr env)) "success" db')).
    { unfold login. cbv zeta. run_handler.
      unfold request_username, request_password in *.
      rewrite Hu, Hp. cbn [orb]. rewrite Hlogin. cbv beta iota.
      unfold get_user_by_username. unfold user_by_name in Hname'.
      rewrite Hname'. reflexivity. }
    rewrite Hrun. cbn [fst snd]. split; [reflexivity|].
    assert (Hv' : verify_session_token
                    (log_activity env (VInt (Users.id user)) "user_login" None
                       (Some (remote_addr env)) "success" db')
                    (Some (rand_token env))
                  = (true, Some (session_row user))) by exact Hv.
    split; [exact Hv'|].
    unfold session_user_id. rewrite Hv'. reflexivity.
  - intros env req t db Hreq Hnot.
    pose proof (verify_session_token_unknown db t Hnot) as Hv.
    split; [exact Hv|].
    apply (handle_unauthorized env req (Some t) db Hreq).
    now rewrite Hv.
  - intros db Hreach. pose proof (reachable_ok db Hreach) as Hok.
    split; [apply (ok_tokens db Hok)|].
    intros s Hs Hvalid.
    destruct (find_exists_key Users.id (users db) (Sessions.user_id s))
      as (u & Hf & Hin & Hid); [now apply (ok_session_user db Hok)|].
    exists u. split; [exact Hin|]. split; [exact Hid|].
    rewrite (verify_session_token_session db s (ok_tokens db Hok) Hs Hvalid).
    unfold user_by_id. now rewrite Hf.
  - intros db env req token r. apply evolves_keeps, handle_evolves.
Qed.

(** The first part at alice logging in again with a new token, and the
    second at a made-up token on [/get_messages]. *)
Lemma login_then_resolve_witness :
  let out := login (HL := demo_hashlib) (demo_env 20 "tokA2")
               (credentials "alice" "secret1") demo_db in
  (field (fst (fst out)) "token" = Some (JStr "tokA2")
   /\ field (fst (fst out)) "user_id" = Some (JNum 1)
   /\ session_user_id (snd out) (Some "tokA2") = Some 1)
  /\ status (fst (handle (HL := demo_hashlib) (demo_env 21 "")
                    (GET_get_messages (Some "made-up")) demo_db)) = 401.
Proof.
  destruct (login_then_resolve (HL := demo_hashlib)) as (Hlogin & Hunknown & _).
  split.
  - destruct (Hlogin (demo_env 20 "tokA2") (credentials "alice" "secret1")
                demo_db
                {| Users.id := 1; Users.username := "alice";
                   Users.password_hash := "2aff00$4b"; Users.email := None;
                   Users.created_at := 1; Users.last_login := Some 4;
                   Users.is_active := 1 |}) as (Hr & _ & Hs).
    + apply db_okb_ok. vm_compute. reflexivity.
    + vm_compute. reflexivity.
    + vm_compute. reflexivity.
    + vm_compute. reflexivity.
    + vm_compute. reflexivity.
    + vm_compute. reflexivity.
    + vm_compute. intuition discriminate.
    + cbv zeta. rewrite Hr. split; [reflexivity|]. split; [reflexivity|].
      exact Hs.
  - apply (Hunknown (demo_env 21 "") (GET_get_messages (Some "made-up"))
             "made-up" demo_db).
    + reflexivity.
    + vm_compute. intuition discriminate.
Defined.

(* ================================================================== *)
(** * More on password hashes *)
(* ================================================================== *)

Lemma split_length (c : ascii) (s : string) :
  List.length (Py.split c s) = S (count_chr c s).
Proof.
  induction s as [|a s IH]; cbn [Py.split count_chr]; [reflexivity|].
  destruct (Ascii.eqb a c); cbn [List.length]; [now rewrite IH|].
  destruct (Py.split c s) as [|h t]; [discriminate IH|].
  cbn [List.length] in *. lia.
Qed.

(** X1.  A stored hash that does not hold exactly one [$] is accepted
    for no password: unpacking the split raises and [verify_password]
    returns [False]. *)
Theorem verify_password_malformed {HL : Hashlib} (stored password : string) :
  count_chr "$" stored <> 1%nat ->
  verify_password stored password = false.
Proof.
  intros H. unfold verify_password.
  pose proof (split_length "$" stored) as L.
  destruct (Py.split "$" stored) as [|salt [|hash_val [|x rest]]];
    try reflexivity.
  cbn [List.length] in L. lia.
Qed.

(** The theorem at a hash without separator, for the stand-in key
    function. *)
Lemma verify_password_malformed_witness :
  verify_password (HL := demo_hashlib) "2aff004b" "secret1" = false.
Proof.
  apply (verify_password_malformed (HL := demo_hashlib) "2aff004b" "secret1").
  vm_compute. discriminate.
Defined.

Lemma hex_digit_inj (n m : N) :
  (n < 16)%N -> (m < 16)%N -> Py.hex_digit n = Py.hex_digit m -> n = m.
Proof.
  intros Hn Hm.
  destruct n as [|p]; [|do 4 (try (destruct p as [p|p|]; try lia))];
    (destruct m as [|q]; [|do 4 (try (destruct q as [q|q|]; try lia))]);
    cbn; intros H; try reflexivity; discriminate H.
Qed.

Lemma to_N_inj (b b' : byte) : Byte.to_N b = Byte.to_N b' -> b = b'.
Proof.
  intros H. pose proof (Byte.of_to_N b) as E. rewrite H, Byte.of_to_N in E.
  now injection E.
Qed.

Lemma hex_inj (bs bs' : list byte) : Py.hex bs = Py.hex bs' -> bs = bs'.
Proof.
  revert bs'. induction bs as [|b bs IH]; intros [|b' bs'] H;
    cbn [Py.hex] in H; try discriminate; [reflexivity|].
  injection H as Hhi Hlo Hrest.
  pose proof (Byte.to_N_bounded b) as Bb.
  pose proof (Byte.to_N_bounded b') as Bb'.
  apply hex_digit_inj in Hhi;
    [|apply N.Div0.div_lt_upper_bound; lia
     |apply N.Div0.div_lt_upper_bound; lia].
  apply hex_digit_inj in Hlo; [|apply N.mod_lt; lia|apply N.mod_lt; lia].
  f_equal; [|now apply IH].
  apply to_N_inj.
  rewrite (N.div_mod (Byte.to_N b) 16), (N.div_mod (Byte.to_N b') 16) by lia.
  now rewrite Hhi, Hlo.
Qed.

(** X2.  [verify_password] accepts a password [q] against the hash made
    for [p] exactly when [q] derives, with the stored salt, the key [p]
    derived: a password with another key is turned down. *)
Theorem verify_password_accepts_same_key {HL : Hashlib} (rand : list byte)
    (p q : string) :
  verify_password (hash_password rand p) q = true
  <-> pbkdf2_hmac "sha256" (Py.encode q) (Py.encode (token_hex rand)) 100000
      = pbkdf2_hmac "sha256" (Py.encode p) (Py.encode (token_hex rand)) 100000.
Proof.
  unfold verify_password. rewrite split_hash_password.
  rewrite String.eqb_eq. split; [apply hex_inj | now intros ->].
Qed.

(* ================================================================== *)
(** * More on accounts and sessions *)
(* ================================================================== *)

Lemma find_app_last {A} (p : A -> bool) (l : list A) (x : A) :
  p x = false -> find p (l ++ [x]) = find p l.
Proof.
  intros Hx. induction l as [|y l IH]; cbn [find app]; [now rewrite Hx|].
  destruct (p y); [reflexivity | exact IH].
Qed.

Section MoreAccounts.
Context {HL : Hashlib}.

(** X3.  A registration that succeeds can be looked up at once:
    [get_user_by_username] returns the new row, with an id above every
    id of the table, the email given, the clock as [created_at] and no
    [last_login]; the lookup of every other name is as before. *)
Theorem register_then_lookup (env : Env) (username password : string)
    (email : option string) (db : DB) :
  username_taken db username = false ->
  email_taken db email = false ->
  let out := register_user env username password email db in
  let rowid := next_rowid (seq_users db) (map Users.id (users db)) in
  fst out = (true, "User registered successfully")
  /\ get_user_by_username (snd out) username
     = Some [("id", VInt rowid); ("username", VText username);
             ("email", VOptText email); ("created_at", VInt (now env));
             ("last_login", VNull)]
  /\ (forall u, In u (users db) -> Users.id u < rowid)
  /\ (forall name, name <> username ->
        get_user_by_username (snd out) name = get_user_by_username db name).
Proof.
  intros Hu He out rowid. unfold out, register_user. rewrite Hu, He.
  cbn [orb fst snd]. split; [reflexivity|]. split; [|split].
  - unfold get_user_by_username. cbn [users].
    rewrite find_app_none.
    + cbn [find Users.username]. rewrite String.eqb_refl. reflexivity.
    + apply find_none_iff. intros u Hin. unfold username_taken in Hu.
      destruct (String.eqb (Users.username u) username) eqn:E; [|reflexivity].
      assert (existsb (fun u0 => String.eqb (Users.username u0) username)
                (users db) = true); [|congruence].
      apply existsb_exists. now exists u.
  - intros u Hin. unfold rowid, next_rowid.
    pose proof (le_fold_max (map Users.id (users db)) (Users.id u)
                  (in_map Users.id _ _ Hin)). lia.
  - intros name Hname. unfold get_user_by_username. cbn [users].
    rewrite find_app_last; [reflexivity|].
    cbn [Users.username]. now apply String.eqb_neq.
Qed.

(** The failures of [login_user] commit nothing. *)
Lemma login_user_failure (env : Env) (username password : string) (db : DB) :
  fst (fst (fst (login_user env username password db))) = false ->
  snd (login_user env username password db) = db.
Proof.
  unfold login_user.
  destruct (find _ (users db)); [|reflexivity].
  destruct (negb _); [reflexivity|].
  destruct (existsb _ (sessions db)); [reflexivity|].
  cbn [fst]. discriminate.
Qed.

(** X6.  A login that is answered 401 leaves one trace: a row of
    [activity_logs] with no user id, the status [failed] and the
    username that was tried; users, sessions and messages are as they
    were. *)
Theorem login_401_logs_attempt (env : Env) (json : option Py.dict) (db : DB) :
  status (fst (login env json db)) = 401 ->
  snd (login env json db)
  = log_activity env VNull "failed_login_attempt"
      (Some (append "Username: " (request_username json)))
      (Some (remote_addr env)) "failed" db.
Proof.
  unfold login, request_username. cbv zeta. run_handler.
  destruct (is_empty _ || is_empty _); [cbn; discriminate|].
  pose proof (login_user_failure env
    (Py.strip (Py.or_empty (Py.get (json_or_empty json) "username")))
    (Py.strip (Py.or_empty (Py.get (json_or_empty json) "password"))) db)
    as Hfail.
  destruct (login_user env _ _ db) as [[[success message] token] db'].
  cbn [fst snd] in Hfail. destruct success; cbv beta iota.
  - destruct (subscript (get_user_by_username db' _) "id");
      cbn; discriminate.
  - rewrite Hfail by reflexivity. reflexivity.
Qed.

(** X4.  When the generator hands [login_user] a token some session
    already has, the [INSERT] fails on [token UNIQUE]: valid
    credentials are answered 401 with the text of the SQLite error, no
    token is issued, and neither [last_login] nor [sessions] changes. *)
Theorem login_token_collision (env : Env) (json : option Py.dict) (db : DB)
    (user : Users.row) :
  db_ok db ->
  is_empty (request_username json) = false ->
  is_empty (request_password json) = false ->
  user_by_name db (request_username json) = Some user ->
  Users.is_active user = 1 ->
  verify_password (Users.password_hash user) (request_password json) = true ->
  In (rand_token env) (map Sessions.token (sessions db)) ->
  fst (login env json db)
  = (error "UNIQUE constraint failed: sessions.token", 401)
  /\ users (snd (login env json db)) = users db
  /\ sessions (snd (login env json db)) = sessions db.
Proof.
  intros Hok Hu Hp Hname Hactive Hpw Htok.
  apply user_by_name_In in Hname as [Hin Hname].
  pose proof (find_active_user db user (ok_usernames db Hok) Hin) as F.
  apply Z.eqb_eq in Hactive. rewrite Hactive, Hname in F.
  assert (Hex : existsb (fun s => String.eqb (Sessions.token s) (rand_token env))
                  (sessions db) = true).
  { apply in_map_iff in Htok as (s & Hs & Hin').
    apply existsb_exists. exists s. split; [exact Hin'|].
    now apply String.eqb_eq. }
  assert (Hlogin : login_user env (request_username json)
                     (request_password json) db
                   = ((false, "UNIQUE constraint failed: sessions.token",
                       None), db)).
  { unfold login_user. now rewrite F, Hpw, Hex. }
  unfold login. cbv zeta. run_handler.
  unfold request_username, request_password in *.
  rewrite Hu, Hp. cbn [orb]. rewrite Hlogin. cbv beta iota.
  repeat split.
Qed.

End MoreAccounts.

(** The theorem at alice logging in while the generator repeats bob's
    token. *)
Lemma login_token_collision_witness :
  fst (login (HL := demo_hashlib) (demo_env 20 "tokB")
         (credentials "alice" "secret1") demo_db)
  = (error "UNIQUE constraint failed: sessions.token", 401)
  /\ users (snd (login (HL := demo_hashlib) (demo_env 20 "tokB")
                   (credentials "alice" "secret1") demo_db))
     = users demo_db
  /\ sessions (snd (login (HL := demo_hashlib) (demo_env 20 "tokB")
                      (credentials "alice" "secret1") demo_db))
     = sessions demo_db.
Proof.
  apply (login_token_collision (HL := demo_hashlib) (demo_env 20 "tokB")
           (credentials "alice" "secret1") demo_db
           {| Users.id := 1; Users.username := "alice";
              Users.password_hash := "2aff00$4b"; Users.email := None;
              Users.created_at := 1; Users.last_login := Some 4;
              Users.is_active := 1 |}).
  - apply db_okb_ok. vm_compute. reflexivity.
  - vm_compute. reflexivity.
  - vm_compute. reflexivity.
  - vm_compute. reflexivity.
  - vm_compute. reflexivity.
  - vm_compute. reflexivity.
  - vm_compute. auto.
Defined.

(** The theorem at a new name in [demo_db]. *)
Lemma register_then_lookup_witness :
  let out := register_user (HL := demo_hashlib) (demo_env 30 "") "dave"
               "secret4" (Some "dave@example.org") demo_db in
  let rowid := next_rowid (seq_users demo_db) (map Users.id (users demo_db)) in
  fst out = (true, "User registered successfully")
  /\ get_user_by_username (snd out) "dave"
     = Some [("id", VInt rowid); ("username", VText "dave");
             ("email", VOptText (Some "dave@example.org"));
             ("created_at", VInt (now (demo_env 30 "")));
             ("last_login", VNull)]
  /\ (forall u, In u (users demo_db) -> Users.id u < rowid)
  /\ (forall name, name <> "dave" ->
        get_user_by_username (snd out) name
        = get_user_by_username demo_db name).
Proof.
  apply (register_then_lookup (HL := demo_hashlib) (demo_env 30 "") "dave"
           "secret4" (Some "dave@example.org") demo_db).
  - vm_compute. reflexivity.
  - vm_compute. reflexivity.
Defined.

(** The theorem at alice with a wrong password. *)
Lemma login_401_logs_attempt_witness :
  snd (login (HL := demo_hashlib) (demo_env 20 "t")
         (credentials "alice" "wrong") demo_db)
  = log_activity (demo_env 20 "t") VNull "failed_login_attempt"
      (Some (append "Username: " (request_username (credentials "alice" "wrong"))))
      (Some (remote_addr (demo_env 20 "t"))) "failed" demo_db.
Proof.
  apply (login_401_logs_attempt (HL := demo_hashlib) (demo_env 20 "t")
           (credentials "alice" "wrong") demo_db).
  vm_compute. reflexivity.
Defined.

Section Sessions2.
Context {HL : Hashlib}.

Lemma login_user_tokens (env : Env) (username password : string) (db : DB) :
  fst (fst (fst (login_user env username password db))) = true ->
  map Sessions.token (sessions (snd (login_user env username password db)))
  = map Sessions.token (sessions db) ++ [rand_token env].
Proof.
  unfold login_user.
  destruct (find _ (users db)); [|cbn; discriminate].
  destruct (negb _); [cbn; discriminate|].
  destruct (existsb _ (sessions db)); [cbn; discriminate|].
  intros _. cbn [snd sessions]. now rewrite map_app.
Qed.

(** What [login] does for an active user with the right password when
    the token is new. *)
Lemma login_run (env : Env) (json : option Py.dict) (db : DB)
    (user : Users.row) :
  db_ok db ->
  is_empty (request_username json) = false ->
  is_empty (request_password json) = false ->
  user_by_name db (request_username json) = Some user ->
  Users.is_active user = 1 ->
  verify_password (Users.password_hash user) (request_password json) = true ->
  ~ In (rand_token env) (map Sessions.token (sessions db)) ->
  let db' := snd (login env json db) in
  status (fst (login env json db)) = 200
  /\ db_ok db'
  /\ user_by_name db' (request_username json)
     = Some (Users.set_last_login user (now env))
  /\ verify_session_token db' (Some (rand_token env))
     = (true, Some (session_row user))
  /\ map Sessions.token (sessions db')
     = map Sessions.token (sessions db) ++ [rand_token env].
Proof.
  intros Hok Hu Hp Hname Hactive Hpw Hfresh db'.
  destruct (login_user_success env _ _ db user Hok Hname Hactive Hpw Hfresh)
    as (db1 & Hlogin & Hname' & Hv).
  pose proof (login_user_tokens env (request_username json)
                (request_password json) db) as Htok.
  pose proof (login_user_ok env (request_username json)
                (request_password json) db Hok) as Hok1.
  rewrite Hlogin in Htok, Hok1. cbn [fst snd] in Htok, Hok1.
  assert (Hrun : login env json db
    = ((JObj [("status", JStr "success");
              ("message", JStr "Login successful");
              ("token", JStr (rand_token env));
              ("user_id", JNum (Users.id user));
              ("username", JStr (request_username json))], 200),
       log_activity env (VInt (Users.id user)) "user_login" None
         (Some (remote_addr env)) "success" db1)).
  { unfold login. cbv zeta. run_handler.
    unfold request_username, request_password in *.
    rewrite Hu, Hp. cbn [orb]. rewrite Hlogin. cbv beta iota.
    unfold get_user_by_username. unfold user_by_name in Hname'.
    rewrite Hname'. reflexivity. }
  unfold db'. rewrite Hrun. cbn [fst snd].
  split; [reflexivity|]. split; [now apply log_activity_ok|].
  split; [exact Hname'|]. split; [exact Hv|]. now apply Htok.
Qed.

(** X5.  A user may hold several sessions: after two logins with the
    same credentials, each given its own new token, both tokens resolve
    to that user. *)
Theorem two_logins_two_sessions (env1 env2 : Env) (json : option Py.dict)
    (db : DB) (user : Users.row) :
  db_ok db ->
  is_empty (request_username json) = false ->
  is_empty (request_password json) = false ->
  user_by_name db (request_username json) = Some user ->
  Users.is_active user = 1 ->
  verify_password (Users.password_hash user) (request_password json) = true ->
  ~ In (rand_token env1) (map Sessions.token (sessions db)) ->
  ~ In (rand_token env2) (map Sessions.token (sessions db)) ->
  rand_token env1 <> rand_token env2 ->
  let db1 := snd (login env1 json db) in
  let db2 := snd (login env2 json db1) in
  status (fst (login env1 json db)) = 200
  /\ status (fst (login env2 json db1)) = 200
  /\ session_user_id db2 (Some (rand_token env1)) = Some (Users.id user)
  /\ session_user_id db2 (Some (rand_token env2)) = Some (Users.id user).
Proof.
  intros Hok Hu Hp Hname Hactive Hpw Hf1 Hf2 Hne db1 db2.
  destruct (login_run env1 json db user Hok Hu Hp Hname Hactive Hpw Hf1)
    as (Hs1 & Hok1 & Hname1 & Hv1 & Htok1).
  fold db1 in Hok1, Hname1, Hv1, Htok1.
  assert (Hf2' : ~ In (rand_token env2) (map Sessions.token (sessions db1))).
  { rewrite Htok1. intros Hin. apply in_app_or in Hin as [Hin|[Hin|[]]];
      [now apply Hf2 | now apply Hne]. }
  destruct (login_run env2 json db1 (Users.set_last_login user (now env1))
              Hok1 Hu Hp Hname1 Hactive Hpw Hf2')
    as (Hs2 & _ & _ & Hv2 & _).
  fold db2 in Hv2.
  split; [exact Hs1|]. split; [exact Hs2|]. split.
  - unfold session_user_id.
    rewrite (evolves_keeps db1 db2 (login_evolves env2 json db1) _ _ Hv1).
    reflexivity.
  - unfold session_user_id. rewrite Hv2. reflexivity.
Qed.

End Sessions2.

(** The theorem at alice logging in twice more. *)
Lemma two_logins_two_sessions_witness :
  let json := credentials "alice" "secret1" in
  let db1 := snd (login (HL := demo_hashlib) (demo_env 20 "tok1") json
                    demo_db) in
  let db2 := snd (login (HL := demo_hashlib) (demo_env 21 "tok2") json db1) in
  status (fst (login (HL := demo_hashlib) (demo_env 20 "tok1") json demo_db))
  = 200
  /\ status (fst (login (HL := demo_hashlib) (demo_env 21 "tok2") json db1))
     = 200
  /\ session_user_id db2 (Some "tok1") = Some 1
  /\ session_user_id db2 (Some "tok2") = Some 1.
Proof.
  apply (two_logins_two_sessions (HL := demo_hashlib) (demo_env 20 "tok1")
           (demo_env 21 "tok2") (credentials "alice" "secret1") demo_db
           {| Users.id := 1; Users.username := "alice";
              Users.password_hash := "2aff00$4b"; Users.email := None;
              Users.created_at := 1; Users.last_login := Some 4;
              Users.is_active := 1 |}).
  - apply db_okb_ok. vm_compute. reflexivity.
  - vm_compute. reflexivity.
  - vm_compute. reflexivity.
  - vm_compute. reflexivity.
  - vm_compute. reflexivity.
  - vm_compute. reflexivity.
  - vm_compute. intuition discriminate.
  - vm_compute. intuition discriminate.
  - vm_compute. discriminate.
Defined.

(* ================================================================== *)
(** * What no request undoes *)
(* ================================================================== *)

Lemma prefix_of_refl {A} (l : list A) : prefix_of l l.
Proof. exists []. now rewrite app_nil_r. Qed.

Lemma prefix_of_trans {A} (l1 l2 l3 : list A) :
  prefix_of l1 l2 -> prefix_of l2 l3 -> prefix_of l1 l3.
Proof.
  intros [a ->] [b ->]. exists (a ++ b). now rewrite app_assoc.
Qed.

Lemma prefix_of_app {A} (l t : list A) : prefix_of l (l ++ t).
Proof. now exists t. Qed.

Section Persistence.
Context {HL : Hashlib}.

Lemma register_user_frame (env : Env) (username password : string)
    (email : option string) (db : DB) :
  let db' := snd (register_user env username password email db) in
  prefix_of (users db) (users db')
  /\ sessions db' = sessions db /\ messages db' = messages db
  /\ activity_logs db' = activity_logs db.
Proof.
  unfold register_user. destruct (_ || _); cbn [snd users sessions messages
    activity_logs]; repeat split;
    [apply prefix_of_refl | apply prefix_of_app].
Qed.

Lemma login_user_frame (env : Env) (username password : string) (db : DB) :
  let db' := snd (login_user env username password db) in
  map identity_of (users db') = map identity_of (users db)
  /\ prefix_of (sessions db) (sessions db')
  /\ messages db' = messages db
  /\ activity_logs db' = activity_logs db.
Proof.
  unfold login_user.
  destruct (find _ (users db)) as [user|];
    [|repeat split; apply prefix_of_refl].
  destruct (negb _); [repeat split; apply prefix_of_refl|].
  destruct (existsb _ (sessions db)); [repeat split; apply prefix_of_refl|].
  cbn [snd users sessions messages activity_logs].
  split; [now apply map_set_last_login|].
  repeat split. apply prefix_of_app.
Qed.

Lemma evolves_logs (db0 db : DB) :
  evolves db0 db -> prefix_of (activity_logs db0) (activity_logs db).
Proof.
  induction 1 as [|db ? ? ? ? ? ? _ IH|db env u p e _ IH|db env u p _ IH
                 |db ? ? ? ? _ IH _|db ? ? ? _ IH].
  - apply prefix_of_refl.
  - eapply prefix_of_trans; [exact IH|]. apply prefix_of_app.
  - destruct (register_user_frame env u p e db) as (_ & _ & _ & E).
    now rewrite E.
  - destruct (login_user_frame env u p db) as (_ & _ & _ & E).
    now rewrite E.
  - exact IH.
  - exact IH.
Qed.

(** X7.  The activity log is append-only: whatever the request, the
    rows it had before are still there, in place and unchanged, and new
    rows come after them. *)
Theorem activity_log_append_only (env : Env) (req : Request) (db : DB) :
  prefix_of (activity_logs db) (activity_logs (snd (handle env req db))).
Proof. apply evolves_logs, handle_evolves. Qed.

Lemma evolves_accounts (db0 db : DB) :
  evolves db0 db ->
  prefix_of (map identity_of (users db0)) (map identity_of (users db))
  /\ prefix_of (sessions db0) (sessions db).
Proof.
  induction 1 as [|db ? ? ? ? ? ? _ IH|db env u p e _ IH|db env u p _ IH
                 |db ? ? ? ? _ IH _|db ? ? ? _ IH].
  - split; apply prefix_of_refl.
  - exact IH.
  - destruct (register_user_frame env u p e db) as ([t Hu] & Hs & _).
    destruct IH as [IHu IHs]. cbv zeta in Hu, Hs. rewrite Hs, Hu, map_app.
    split; [|exact IHs].
    eapply prefix_of_trans; [exact IHu | apply prefix_of_app].
  - destruct (login_user_frame env u p db) as (Hu & Hs & _).
    destruct IH as [IHu IHs]. cbv zeta in Hu, Hs. rewrite Hu.
    split; [exact IHu|]. eapply prefix_of_trans; eassumption.
  - exact IH.
  - exact IH.
Qed.

(** X8.  No request deletes or rewrites an account or a session: the
    user rows keep their place and every column but [last_login], the
    session rows stay exactly as they are (none is invalidated), and
    new rows come after them. *)
Theorem accounts_and_sessions_persist (env : Env) (req : Request) (db : DB) :
  prefix_of (map identity_of (users db))
    (map identity_of (users (snd (handle env req db))))
  /\ prefix_of (sessions db) (sessions (snd (handle env req db))).
Proof. apply evolves_accounts, handle_evolves. Qed.

Lemma evolves_messages (db0 db : DB) :
  evolves db0 db ->
  forall k m,
    message_by_id db0 k = Some m ->
    exists m',
      message_by_id db k = Some m'
      /\ content_of m' = content_of m
      /\ (Messages.is_read m = 1 -> Messages.is_read m' = 1).
Proof.
  induction 1 as [|db ? ? ? ? ? ? _ IH|db env u p e _ IH|db env u p _ IH
                 |db env s r text _ IH _|db env mid rcp _ IH]; intros k m Hm.
  - exists m. auto.
  - now apply IH.
  - destruct (register_user_frame env u p e db) as (_ & _ & E & _).
    unfold message_by_id. cbv zeta in E. rewrite E. now apply IH.
  - destruct (login_user_frame env u p db) as (_ & _ & E & _).
    unfold message_by_id. cbv zeta in E. rewrite E. now apply IH.
  - destruct (IH k m Hm) as (m' & Hm' & Hc & Hr). exists m'.
    split; [|auto]. unfold message_by_id in *. cbn [messages insert_message].
    now apply find_app_some.
  - destruct (IH k m Hm) as (m' & Hm' & Hc & Hr).
    unfold message_by_id in *. cbn [messages update_read].
    rewrite (find_map_same_key Messages.id)
      by (intros x; destruct (_ && _); reflexivity).
    rewrite Hm'. cbn [option_map].
    destruct (_ && _).
    + exists (Messages.set_read m' (now env)). split; [reflexivity|].
      split; [exact Hc | reflexivity].
    + exists m'. auto.
Qed.

(** X9.  No request deletes a message or changes its sender, recipient,
    text or creation time, and none marks a read message unread: the
    message found under an id is found under it afterwards with the
    same content, and with [is_read = 1] if it had it. *)
Theorem messages_persist (env : Env) (req : Request) (db : DB) (k : Z)
    (m : Messages.row) :
  message_by_id db k = Some m ->
  exists m',
    message_by_id (snd (handle env req db)) k = Some m'
    /\ content_of m' = content_of m
    /\ (Messages.is_read m = 1 -> Messages.is_read m' = 1).
Proof. apply evolves_messages, handle_evolves. Qed.

End Persistence.

(** The theorem at message 1, read by bob at 10, while bob marks it
    again at 20. *)
Lemma messages_persist_witness :
  exists m',
    message_by_id
      (snd (handle (HL := demo_hashlib) (demo_env 20 "")
              (POST_mark_read 1 (Some [("token", "tokB")])) demo_db_read)) 1
    = Some m'
    /\ content_of m' = (1, 1, 2, "hi", 7)
    /\ (1 = 1 -> Messages.is_read m' = 1).
Proof.
  apply (messages_persist (HL := demo_hashlib) (demo_env 20 "")
           (POST_mark_read 1 (Some [("token", "tokB")])) demo_db_read 1
           {| Messages.id := 1; Messages.sender_id := 1;
              Messages.recipient_id := 2; Messages.message := "hi";
              Messages.is_read := 1; Messages.read_at := Some 10;
              Messages.created_at := 7 |}).
  vm_compute. reflexivity.
Defined.

(* ================================================================== *)
(** * Signing up *)
(* ================================================================== *)

Section Signup.
Context {HL : Hashlib}.

(** The checks of [signup], in their order, and what each answers. *)
Lemma signup_run (env : Env) (json : option Py.dict) (db : DB) :
  let u := request_username json in
  let p := request_password json in
  let e := request_email json in
  signup env json db
  = if is_empty u || is_empty p then
      ((error "Username and password required", 400), db)
    else if len p <? 6 then
      ((error "Password must be at least 6 characters", 400), db)
    else if len u <? 3 then
      ((error "Username must be at least 3 characters", 400), db)
    else if username_taken db u || email_taken db e then
      ((error "Username already exists", 400), db)
    else
      ((JObj [("status", JStr "success");
              ("message", JStr "User registered successfully")], 201),
       log_activity env VNull "user_signup" (Some (append "Username: " u))
         (Some (remote_addr env)) "success"
         (snd (register_user env u p e db))).
Proof.
  intros u p e. unfold signup. cbv zeta. run_handler.
  fold (request_username json) (request_password json) (request_email json).
  fold u p e.
  destruct (is_empty u || is_empty p); [reflexivity|].
  destruct (len p <? 6); [reflexivity|].
  destruct (len u <? 3); [reflexivity|].
  unfold register_user.
  destruct (username_taken db u || email_taken db e); reflexivity.
Qed.

(** X10.  For a body whose values are ASCII text, [signup] answers 201
    or 400 and never 500.  It accepts the request exactly when, after
    stripping, the username has three characters or more, the password
    six or more, and neither the username nor the email is in [users];
    a request it rejects writes nothing, not even to the activity
    log. *)
Theorem signup_accepts_exactly (env : Env) (json : option Py.dict) (db : DB) :
  ascii_body json = true ->
  let u := request_username json in
  let p := request_password json in
  let accepted :=
    (3 <=? len u) && (6 <=? len p)
    && negb (username_taken db u) && negb (email_taken db (request_email json))
  in
  status (fst (signup env json db)) = (if accepted then 201 else 400)
  /\ (if accepted then
        exists row,
          users (snd (signup env json db)) = users db ++ [row]
          /\ Users.username row = u
          /\ Users.password_hash row = hash_password (rand_bytes env) p
          /\ Users.is_active row = 1
      else snd (signup env json db) = db).
Proof.
  intros _ u p accepted. rewrite signup_run. fold u p. unfold accepted.
  destruct u as [|c0 u0] eqn:Eu.
  { cbn. split; reflexivity. }
  destruct p as [|c1 p0] eqn:Ep.
  { cbn [is_empty orb len String.length Z.leb]. rewrite andb_false_r.
    cbn. split; reflexivity. }
  cbn [is_empty orb].
  rewrite (Z.leb_antisym _ 6), (Z.leb_antisym _ 3).
  destruct (len (String c1 p0) <? 6); cbn [negb andb];
    [rewrite andb_false_r; cbn; split; reflexivity|].
  destruct (len (String c0 u0) <? 3); cbn [negb andb];
    [split; reflexivity|].
  destruct (username_taken db (String c0 u0)) eqn:Hu; cbn [negb andb orb];
    [split; reflexivity|].
  destruct (email_taken db (request_email json)) eqn:He; cbn [negb];
    [split; reflexivity|].
  split; [reflexivity|]. cbn [snd].
  unfold register_user. rewrite Hu, He. cbn [orb snd users log_activity].
  eexists. repeat split.
Qed.

(** X11.  Signing up and then logging in with the same body succeeds:
    after a signup answered 201, a login given a new token is answered
    200 and the token resolves to the row the signup created. *)
Theorem signup_then_login (env1 env2 : Env) (json : option Py.dict) (db : DB) :
  db_ok db ->
  status (fst (signup env1 json db)) = 201 ->
  ~ In (rand_token env2) (map Sessions.token (sessions db)) ->
  let db1 := snd (signup env1 json db) in
  let rowid := next_rowid (seq_users db) (map Users.id (users db)) in
  status (fst (login env2 json db1)) = 200
  /\ session_user_id (snd (login env2 json db1)) (Some (rand_token env2))
     = Some rowid
  /\ get_user_by_username (snd (login env2 json db1)) (request_username json)
     = Some [("id", VInt rowid);
             ("username", VText (request_username json));
             ("email", VOptText (request_email json));
             ("created_at", VInt (now env1));
             ("last_login", VInt (now env2))].
Proof.
  intros Hok H201 Hfresh db1 rowid.
  pose proof (handle_ok env1 (POST_signup json) db Hok) as Hok1.
  cbn [handle] in Hok1. fold db1 in Hok1.
  unfold db1 in *. clear db1. rewrite signup_run in *.
  set (u := request_username json) in *.
  set (p := request_password json) in *.
  set (e := request_email json) in *.
  destruct (is_empty u || is_empty p) eqn:Hempty; [discriminate H201|].
  destruct (len p <? 6); [discriminate H201|].
  destruct (len u <? 3); [discriminate H201|].
  destruct (username_taken db u || email_taken db e) eqn:Htaken;
    [discriminate H201|].
  apply orb_false_iff in Hempty as [Hu Hp].
  apply orb_false_iff in Htaken as [Hut Het].
  cbn [snd] in *.
  set (row := {| Users.id := rowid; Users.username := u;
                 Users.password_hash := hash_password (rand_bytes env1) p;
                 Users.email := e; Users.created_at := now env1;
                 Users.last_login := None; Users.is_active := 1 |}).
  set (db1 := log_activity env1 VNull "user_signup"
                (Some (append "Username: " u)) (Some (remote_addr env1))
                "success" (snd (register_user env1 u p e db))) in *.
  assert (Husers : users db1 = users db ++ [row]).
  { unfold db1, register_user. rewrite Hut, Het. reflexivity. }
  assert (Hsessions : sessions db1 = sessions db).
  { unfold db1, register_user. rewrite Hut, Het. reflexivity. }
  assert (Hname : user_by_name db1 u = Some row).
  { unfold user_by_name. rewrite Husers, find_app_none.
    - cbn [find row Users.username]. now rewrite String.eqb_refl.
    - apply find_none_iff. intros x Hx. unfold username_taken in Hut.
      destruct (String.eqb (Users.username x) u) eqn:E; [|reflexivity].
      assert (existsb (fun u0 => String.eqb (Users.username u0) u)
                (users db) = true); [|congruence].
      apply existsb_exists. now exists x. }
  assert (Hfresh1 : ~ In (rand_token env2) (map Sessions.token (sessions db1)))
    by now rewrite Hsessions.
  destruct (login_run env2 json db1 row Hok1 Hu Hp Hname eq_refl
              (verify_hash_password (rand_bytes env1) p) Hfresh1)
    as (Hs & _ & Hname2 & Hv & _).
  split; [exact Hs|]. split.
  - unfold session_user_id. rewrite Hv. reflexivity.
  - unfold get_user_by_username. fold u. unfold user_by_name in Hname2.
    fold u in Hname2. rewrite Hname2. reflexivity.
Qed.

End Signup.

(** The theorem at dave, new to [demo_db]. *)
Lemma signup_then_login_witness :
  let json := Some [("username", " dave "); ("password", "secret4");
                    ("email", "dave@example.org")] in
  let db1 := snd (signup (HL := demo_hashlib) (demo_env 30 "") json demo_db) in
  let rowid := next_rowid (seq_users demo_db) (map Users.id (users demo_db)) in
  status (fst (login (HL := demo_hashlib) (demo_env 31 "tokD") json db1)) = 200
  /\ session_user_id
       (snd (login (HL := demo_hashlib) (demo_env 31 "tokD") json db1))
       (Some (rand_token (demo_env 31 "tokD")))
     = Some rowid
  /\ get_user_by_username
       (snd (login (HL := demo_hashlib) (demo_env 31 "tokD") json db1))
       (request_username json)
     = Some [("id", VInt rowid);
             ("username", VText (request_username json));
             ("email", VOptText (request_email json));
             ("created_at", VInt (now (demo_env 30 "")));
             ("last_login", VInt (now (demo_env 31 "tokD")))].
Proof.
  apply (signup_then_login (HL := demo_hashlib) (demo_env 30 "")
           (demo_env 31 "tokD")
           (Some [("username", " dave "); ("password", "secret4");
                  ("email", "dave@example.org")]) demo_db).
  - apply db_okb_ok. vm_compute. reflexivity.
  - vm_compute. reflexivity.
  - vm_compute. intuition discriminate.
Defined.

(** The theorem at dave, new to [demo_db], whose password is too
    short after stripping: turned down, nothing written. *)
Lemma signup_accepts_exactly_witness :
  let json := Some [("username", "dave"); ("password", " abcde ")] in
  let u := request_username json in
  let p := request_password json in
  let accepted :=
    (3 <=? len u) && (6 <=? len p)
    && negb (username_taken demo_db u)
    && negb (email_taken demo_db (request_email json))
  in
  status (fst (signup (HL := demo_hashlib) (demo_env 30 "") json demo_db))
  = (if accepted then 201 else 400)
  /\ (if accepted then
        exists row,
          users (snd (signup (HL := demo_hashlib) (demo_env 30 "") json
                        demo_db))
          = users demo_db ++ [row]
          /\ Users.username row = u
          /\ Users.password_hash row
             = hash_password (HL := demo_hashlib)
                 (rand_bytes (demo_env 30 "")) p
          /\ Users.is_active row = 1
      else snd (signup (HL := demo_hashlib) (demo_env 30 "") json demo_db)
           = demo_db).
Proof.
  apply (signup_accepts_exactly (HL := demo_hashlib) (demo_env 30 "")
           (Some [("username", "dave"); ("password", " abcde ")]) demo_db).
  vm_compute. reflexivity.
Defined.

(* ================================================================== *)
(** * Sending, fetching, marking *)
(* ================================================================== *)

(** What [get_messages] answers to a token that resolves. *)
Lemma get_messages_run (env : Env) (db : DB) (token : option string) (u : Z) :
  db_ok db ->
  session_user_id db token = Some u ->
  let inbox :=
    order_by_desc Messages.created_at (filter (unread_for u) (messages db)) in
  get_messages env token db
  = ((JObj [("messages", JArr (map (inbox_entry db) inbox))], 200),
     log_activity env (VInt u) "get_messages"
       (Some (append "Retrieved "
                (append (Py.str_int (Z.of_nat (List.length
                           (map (inbox_entry db) inbox)))) " messages")))
       (Some (remote_addr env)) "success" db).
Proof.
  intros Hok Hu inbox.
  destruct (session_user_id_verify db token u Hu) as (usr & _ & Hid & Hv).
  destruct (select_unread_spec db u Hok) as (sender & Hname & Hsel).
  unfold get_messages. run_handler. rewrite Hv.
  cbv beta iota delta [negb]. rewrite subscript_id. cbv beta iota.
  rewrite subscript_username, Hid, Hsel. cbv beta iota.
  fold inbox. rewrite map_map.
  replace (map _ inbox) with (map (inbox_entry db) inbox); [reflexivity|].
  apply map_ext_in. intros m Hm. unfold inbox_entry. cbn [fst snd].
  rewrite Hname; [reflexivity|].
  now apply In_order_by_desc_filter in Hm.
Qed.

(** What [send_message] does with a token that resolves, a recipient
    that exists and a text. *)
Lemma send_message_run (env : Env) (json : option Py.dict) (db : DB)
    (ua ub : Users.row) :
  verify_session_token db (Py.get (json_or_empty json) "token")
  = (true, Some (session_row ua)) ->
  user_by_name db (request_recipient json) = Some ub ->
  is_empty (request_recipient json) = false ->
  is_empty (request_message json) = false ->
  send_message env json db
  = ((JObj [("status", JStr "success");
            ("message",
             JStr (append "Message sent from "
                     (append (Users.username ua)
                        (append " to " (request_recipient json)))))], 200),
     log_activity env (VInt (Users.id ua)) "send_message"
       (Some (append "To: " (request_recipient json)))
       (Some (remote_addr env)) "success"
       (insert_message env (Users.id ua) (Users.id ub)
          (request_message json) db)).
Proof.
  unfold request_recipient, request_message, user_by_name.
  intros Hv Hub Hr Hm. unfold send_message. cbv zeta. run_handler.
  rewrite Hv. cbv beta iota delta [negb]. rewrite Hr, Hm. cbn [orb].
  unfold get_user_by_username. rewrite Hub. reflexivity.
Qed.

(** X12.  For a body whose values are ASCII text and a token that
    resolves, [send_message] turns down a request whose recipient or
    text is blank with 400 and one whose recipient is no username with
    404, in that order, and neither writes anything; every other
    request is answered 200. *)
Theorem send_message_rejections (env : Env) (json : option Py.dict) (db : DB)
    (a : Z) :
  ascii_body json = true ->
  session_user_id db (Py.get (json_or_empty json) "token") = Some a ->
  if is_empty (request_recipient json) || is_empty (request_message json)
  then send_message env json db
       = ((error "Recipient and message required", 400), db)
  else match user_by_name db (request_recipient json) with
       | None => send_message env json db
                 = ((error "Recipient user not found", 404), db)
       | Some _ => status (fst (send_message env json db)) = 200
       end.
Proof.
  intros _ Ha.
  destruct (session_user_id_verify db _ a Ha) as (ua & _ & _ & Hv).
  destruct (is_empty (request_recipient json)
            || is_empty (request_message json)) eqn:Hempty.
  - unfold request_recipient, request_message in Hempty.
    unfold send_message. cbv zeta. run_handler.
    rewrite Hv. cbv beta iota delta [negb]. rewrite Hempty. reflexivity.
  - destruct (user_by_name db (request_recipient json)) as [ub|] eqn:Hub.
    + apply orb_false_iff in Hempty as [Hr Hm].
      now rewrite (send_message_run env json db ua ub Hv Hub Hr Hm).
    + unfold request_recipient, request_message, user_by_name in *.
      unfold send_message. cbv zeta. run_handler.
      rewrite Hv. cbv beta iota delta [negb]. rewrite Hempty.
      unfold get_user_by_username. rewrite Hub. reflexivity.
Qed.

(** The theorem at alice writing to a name nobody has. *)
Lemma send_message_rejections_witness :
  send_message (demo_env 20 "")
    (Some [("token", "tokA"); ("recipient", "zoe"); ("message", "hi")])
    demo_db
  = ((error "Recipient user not found", 404), demo_db).
Proof.
  apply (send_message_rejections (demo_env 20 "")
           (Some [("token", "tokA"); ("recipient", "zoe"); ("message", "hi")])
           demo_db 1).
  - vm_compute. reflexivity.
  - vm_compute. reflexivity.
Defined.

(** X13.  A message that was sent is in the inbox of its recipient:
    after a [send_message] with a token of [ua] to the username of
    [ub], [get_messages] with a token of [ub] lists an entry with the
    new message's id, the sender's username, the stripped text and the
    time of sending. *)
Theorem sent_message_reaches_inbox (env env' : Env) (json : option Py.dict)
    (db : DB) (ua ub : Users.row) (token_b : option string) :
  db_ok db ->
  verify_session_token db (Py.get (json_or_empty json) "token")
  = (true, Some (session_row ua)) ->
  user_by_id db (Users.id ua) = Some ua ->
  user_by_name db (request_recipient json) = Some ub ->
  is_empty (request_recipient json) = false ->
  is_empty (request_message json) = false ->
  session_user_id db token_b = Some (Users.id ub) ->
  let db1 := snd (send_message env json db) in
  status (fst (send_message env json db)) = 200
  /\ exists inbox,
       fst (get_messages env' token_b db1)
       = (JObj [("messages", JArr inbox)], 200)
       /\ In (JObj [("id", JNum (next_rowid (seq_messages db)
                                   (map Messages.id (messages db))));
                    ("sender", JStr (Users.username ua));
                    ("message", JStr (request_message json));
                    ("timestamp", JNum (now env))]) inbox.
Proof.
  intros Hok Hv Hua Hub Hr Hm Hb db1. unfold db1. clear db1.
  rewrite (send_message_run env json db ua ub Hv Hub Hr Hm).
  assert (Hok1 : db_ok
            (log_activity env (VInt (Users.id ua)) "send_message"
               (Some (append "To: " (request_recipient json)))
               (Some (remote_addr env)) "success"
               (insert_message env (Users.id ua) (Users.id ub)
                  (request_message json) db))).
  { apply log_activity_ok, insert_message_ok; [exact Hok|].
    apply find_some in Hua as [Hin _]. now apply in_map. }
  assert (Hb1 : session_user_id
            (log_activity env (VInt (Users.id ua)) "send_message"
               (Some (append "To: " (request_recipient json)))
               (Some (remote_addr env)) "success"
               (insert_message env (Users.id ua) (Users.id ub)
                  (request_message json) db)) token_b
          = Some (Users.id ub)) by exact Hb.
  cbn [fst snd] in *. split; [reflexivity|].
  rewrite (get_messages_run env' _ token_b (Users.id ub) Hok1 Hb1).
  cbn [fst]. eexists. split; [reflexivity|].
  set (new := {| Messages.id := next_rowid (seq_messages db)
                                  (map Messages.id (messages db));
                 Messages.sender_id := Users.id ua;
                 Messages.recipient_id := Users.id ub;
                 Messages.message := request_message json;
                 Messages.is_read := 0; Messages.read_at := None;
                 Messages.created_at := now env |}).
  apply in_map_iff. exists new. split.
  - unfold inbox_entry, sender_name.
    change (user_by_id _ (Messages.sender_id new))
      with (user_by_id db (Users.id ua)).
    rewrite Hua. reflexivity.
  - apply In_order_by_desc_filter. split.
    + cbn [messages log_activity insert_message]. apply in_or_app.
      right. now left.
    + unfold unread_for. cbn [new Messages.recipient_id Messages.is_read].
      now rewrite Z.eqb_refl.
Qed.

(** The theorem at carol writing to bob. *)
Lemma sent_message_reaches_inbox_witness :
  let json := Some [("token", "tokC"); ("recipient", "bob");
                    ("message", "  lunch?  ")] in
  let db1 := snd (send_message (demo_env 20 "") json demo_db) in
  status (fst (send_message (demo_env 20 "") json demo_db)) = 200
  /\ exists inbox,
       fst (get_messages (demo_env 21 "") (Some "tokB") db1)
       = (JObj [("messages", JArr inbox)], 200)
       /\ In (JObj [("id", JNum (next_rowid (seq_messages demo_db)
                                   (map Messages.id (messages demo_db))));
                    ("sender", JStr "carol");
                    ("message", JStr (request_message json));
                    ("timestamp", JNum (now (demo_env 20 "")))]) inbox.
Proof.
  apply (sent_message_reaches_inbox (demo_env 20 "") (demo_env 21 "")
           (Some [("token", "tokC"); ("recipient", "bob");
                  ("message", "  lunch?  ")]) demo_db
           {| Users.id := 3; Users.username := "carol";
              Users.password_hash := "2aff00$4d"; Users.email := None;
              Users.created_at := 3; Users.last_login := Some 6;
              Users.is_active := 1 |}
           {| Users.id := 2; Users.username := "bob";
              Users.password_hash := "2aff00$cc"; Users.email := None;
              Users.created_at := 2; Users.last_login := Some 5;
              Users.is_active := 1 |} (Some "tokB")).
  - apply db_okb_ok. vm_compute. reflexivity.
  - vm_compute. reflexivity.
  - vm_compute. reflexivity.
  - vm_compute. reflexivity.
  - vm_compute. reflexivity.
  - vm_compute. reflexivity.
  - vm_compute. reflexivity.
Defined.

Lemma filter_unread_after_mark (b message_id t : Z) (l : list Messages.row) :
  filter (unread_for b)
    (map (fun m => if (Messages.id m =? message_id)
                      && (Messages.recipient_id m =? b)
                   then Messages.set_read m t else m) l)
  = filter (fun m => unread_for b m && negb (Messages.id m =? message_id)) l.
Proof.
  induction l as [|m l IH]; cbn [map filter]; [reflexivity|].
  rewrite IH. unfold unread_for.
  destruct (Messages.id m =? message_id) eqn:E1;
    destruct (Messages.recipient_id m =? b) eqn:E2; cbn [andb negb];
    cbn [Messages.set_read Messages.recipient_id Messages.is_read];
    rewrite ?E1, ?E2; cbn [andb negb Z.eqb];
    rewrite ?andb_true_r, ?andb_false_r; reflexivity.
Qed.

(** X14.  Once its recipient has marked a message read, the message is
    out of the inbox: [get_messages] after [mark_read] lists the unread
    messages of before without the one marked, in the same order. *)
Theorem read_message_leaves_inbox (env env' : Env) (message_id : Z)
    (data : Py.dict) (db : DB) (b : Z) :
  db_ok db ->
  session_user_id db (Py.get data "token") = Some b ->
  let db1 := snd (mark_read env message_id (Some data) db) in
  fst (get_messages env' (Py.get data "token") db1)
  = (JObj [("messages",
            JArr (map (inbox_entry db)
                    (order_by_desc Messages.created_at
                       (filter (fun m => unread_for b m
                                         && negb (Messages.id m =? message_id))
                               (messages db)))))], 200).
Proof.
  intros Hok Hb db1. unfold db1. clear db1.
  rewrite (mark_read_run _ _ _ _ _ Hb). cbn [snd].
  set (db1 := log_activity _ _ _ _ _ _ _).
  assert (Hok1 : db_ok db1) by now apply log_activity_ok, update_read_ok.
  assert (Hb1 : session_user_id db1 (Py.get data "token") = Some b)
    by exact Hb.
  rewrite (get_messages_run env' db1 _ b Hok1 Hb1). cbn [fst].
  change (messages db1) with (messages (update_read env message_id (VInt b) db)).
  rewrite messages_update_read, filter_unread_after_mark.
  reflexivity.
Qed.

(** The theorem at bob reading message 1: message 3 stays. *)
Lemma read_message_leaves_inbox_witness :
  let db1 := snd (mark_read (demo_env 10 "") 1 (Some [("token", "tokB")])
                    demo_db) in
  fst (get_messages (demo_env 11 "") (Py.get [("token", "tokB")] "token") db1)
  = (JObj [("messages",
            JArr (map (inbox_entry demo_db)
                    (order_by_desc Messages.created_at
                       (filter (fun m => unread_for 2 m
                                         && negb (Messages.id m =? 1))
                               (messages demo_db)))))], 200).
Proof.
  apply (read_message_leaves_inbox (demo_env 10 "") (demo_env 11 "") 1
           [("token", "tokB")] demo_db 2).
  - apply db_okb_ok. vm_compute. reflexivity.
  - vm_compute. reflexivity.
Defined.

(** X15.  A request whose JSON body is [null]: [signup], [login] and
    [send_message] read it as the empty object ([request.json or {}])
    and answer 400, 400 and 401, where [mark_read], which uses
    [request.json] as it is, answers 500 with the text of the
    [AttributeError]; none of the four writes anything. *)
Theorem null_body {HL : Hashlib} (env : Env) (message_id : Z) (db : DB) :
  0 <= message_id ->
  mark_read env message_id None db
  = ((error "'NoneType' object has no attribute 'get'", 500), db)
  /\ signup env None db = ((error "Username and password required", 400), db)
  /\ login env None db = ((error "Username and password required", 400), db)
  /\ send_message env None db
     = ((error "Unauthorized - Invalid or expired token", 401), db).
Proof.
  intros _.
  split; [reflexivity|]. split; [reflexivity|]. split; [reflexivity|].
  unfold send_message. cbv zeta. run_handler.
  cbn [json_or_empty Py.get]. now rewrite verify_session_token_None.
Qed.

(** The theorem at message 1. *)
Lemma null_body_witness :
  mark_read (demo_env 20 "") 1 None demo_db
  = ((error "'NoneType' object has no attribute 'get'", 500), demo_db)
  /\ signup (HL := demo_hashlib) (demo_env 20 "") None demo_db
     = ((error "Username and password required", 400), demo_db)
  /\ login (HL := demo_hashlib) (demo_env 20 "") None demo_db
     = ((error "Username and password required", 400), demo_db)
  /\ send_message (demo_env 20 "") None demo_db
     = ((error "Unauthorized - Invalid or expired token", 401), demo_db).
Proof.
  apply (null_body (HL := demo_hashlib) (demo_env 20 "") 1 demo_db). lia.
Defined.

(* ================================================================== *)
(** * More on conversations *)
(* ================================================================== *)

Section OrderByAsc.
Context {A : Type} (key : A -> Z).

Lemma insert_asc_perm (x : A) (l : list A) :
  Permutation (x :: l) (insert_asc key x l).
Proof.
  induction l as [|y l IH]; cbn [insert_asc]; [reflexivity|].
  destruct (key x <=? key y); [reflexivity|].
  rewrite perm_swap. now apply perm_skip.
Qed.

Lemma order_by_asc_perm (l : list A) : Permutation l (order_by_asc key l).
Proof.
  induction l as [|x l IH]; cbn; [constructor|].
  etransitivity; [apply perm_skip, IH | apply insert_asc_perm].
Qed.

Lemma insert_asc_sorted (x : A) (l : list A) :
  StronglySorted (fun a b => key a <= key b) l ->
  StronglySorted (fun a b => key a <= key b) (insert_asc key x l).
Proof.
  induction 1 as [|y l Hs IH Hy]; cbn [insert_asc].
  - repeat constructor.
  - destruct (key x <=? key y) eqn:E.
    + apply Z.leb_le in E. constructor; [now constructor|].
      constructor; [exact E|].
      eapply Forall_impl; [|exact Hy]. cbv beta. intros; lia.
    + apply Z.leb_gt in E. constructor; [exact IH|].
      eapply Permutation_Forall; [apply insert_asc_perm|].
      constructor; [lia | exact Hy].
Qed.

Lemma order_by_asc_sorted (l : list A) :
  StronglySorted (fun a b => key a <= key b) (order_by_asc key l).
Proof.
  induction l as [|x l IH]; cbn; [constructor|].
  now apply insert_asc_sorted.
Qed.

End OrderByAsc.

Lemma order_by_asc_map {A B} (g : A -> B) (key : B -> Z) (l : list A) :
  order_by_asc key (map g l) = map g (order_by_asc (fun a => key (g a)) l).
Proof.
  unfold order_by_asc.
  induction l as [|x l IH]; cbn [map fold_right]; [reflexivity|].
  rewrite IH. generalize (fold_right (insert_asc (fun a => key (g a))) [] l).
  intros l'. induction l' as [|y l' IH']; cbn [map insert_asc]; [reflexivity|].
  destruct (key (g x) <=? key (g y)); cbn [map]; [reflexivity|].
  now rewrite IH'.
Qed.

Lemma between_sym (a b : Z) (m : Messages.row) : between a b m = between b a m.
Proof. unfold between. apply orb_comm. Qed.

(** What [get_conversation] answers to a caller [a] about a registered
    user. *)
Lemma get_conversation_run (env : Env) (db : DB) (recipient_username : string)
    (token : option string) (a : Z) (ub : Users.row) :
  db_ok db ->
  session_user_id db token = Some a ->
  user_by_name db recipient_username = Some ub ->
  get_conversation env recipient_username token db
  = ((JObj [("conversation",
             JArr (map (history_entry db)
                     (order_by_asc Messages.created_at
                        (filter (between a (Users.id ub)) (messages db)))))],
      200),
     log_activity env (VInt a) "view_conversation"
       (Some (append "With: " recipient_username))
       (Some (remote_addr env)) "success" db).
Proof.
  intros Hok Ha Hub.
  destruct (session_user_id_verify db token a Ha) as (ua & _ & Hid & Hv).
  destruct (messages_join_users_spec db Hok) as (sender & Hjoin & Hname).
  unfold get_conversation. run_handler. rewrite Hv.
  cbv beta iota delta [negb].
  unfold get_user_by_username. unfold user_by_name in Hub. rewrite Hub.
  cbn [option_map]. rewrite subscript_id, subscript_username. cbv beta iota.
  cbn [subscript Row_lookup String.eqb Ascii.eqb Bool.eqb].
  cbv beta iota zeta. rewrite Hid.
  unfold select_conversation.
  rewrite Hjoin, filter_map_comm, order_by_asc_map, map_map.
  cbn [fst snd].
  set (history := order_by_asc _ (filter _ (messages db))).
  replace (map _ history) with (map (history_entry db) history);
    [reflexivity|].
  apply map_ext_in. intros m Hm. unfold history_entry.
  rewrite Hname; [reflexivity|].
  eapply Permutation_in in Hm; [|symmetry; apply order_by_asc_perm].
  now apply filter_In in Hm.
Qed.

(** X16.  [GET /get_conversation] answers a caller [a] asking about a
    registered user [b] with every message between the two, in either
    direction and read or not, oldest first by [created_at]; it leaves
    the messages as they are. *)
Theorem get_conversation_history (env : Env) (db : DB)
    (recipient_username : string) (token : option string) (a : Z)
    (ub : Users.row) :
  db_ok db ->
  session_user_id db token = Some a ->
  user_by_name db recipient_username = Some ub ->
  let out := get_conversation env recipient_username token db in
  let history :=
    order_by_asc Messages.created_at
      (filter (between a (Users.id ub)) (messages db)) in
  fst out
  = (JObj [("conversation", JArr (map (history_entry db) history))], 200)
  /\ (forall m, In m history <->
        In m (messages db)
        /\ ((Messages.sender_id m = a /\ Messages.recipient_id m = Users.id ub)
            \/ (Messages.sender_id m = Users.id ub
                /\ Messages.recipient_id m = a)))
  /\ oldest_first history
  /\ messages (snd out) = messages db.
Proof.
  intros Hok Ha Hub out history. unfold out.
  rewrite (get_conversation_run env db _ _ a ub Hok Ha Hub). cbn [fst snd].
  split; [reflexivity|]. split; [|split; [apply order_by_asc_sorted|]].
  - intros m. unfold history. rewrite <- between_true, <- filter_In.
    split; apply Permutation_in;
      [symmetry|]; apply order_by_asc_perm.
  - reflexivity.
Qed.

(** The theorem at alice asking about bob. *)
Lemma get_conversation_history_witness :
  let out := get_conversation (demo_env 20 "") "bob" (Some "tokA") demo_db in
  let history :=
    order_by_asc Messages.created_at
      (filter (between 1 2) (messages demo_db)) in
  fst out
  = (JObj [("conversation", JArr (map (history_entry demo_db) history))], 200)
  /\ (forall m, In m history <->
        In m (messages demo_db)
        /\ ((Messages.sender_id m = 1 /\ Messages.recipient_id m = 2)
            \/ (Messages.sender_id m = 2 /\ Messages.recipient_id m = 1)))
  /\ oldest_first history
  /\ messages (snd out) = messages demo_db.
Proof.
  apply (get_conversation_history (demo_env 20 "") demo_db "bob" (Some "tokA")
           1 {| Users.id := 2; Users.username := "bob";
                Users.password_hash := "2aff00$cc"; Users.email := None;
                Users.created_at := 2; Users.last_login := Some 5;
                Users.is_active := 1 |}).
  - apply db_okb_ok. vm_compute. reflexivity.
  - vm_compute. reflexivity.
  - vm_compute. reflexivity.
Defined.

(** X17.  A conversation reads the same from both ends: what
    [get_conversation] answers to [a] asking about [b] it answers to
    [b] asking about [a]. *)
Theorem get_conversation_symmetric (env1 env2 : Env) (db : DB)
    (token_a token_b : option string) (ua ub : Users.row) :
  db_ok db ->
  session_user_id db token_a = Some (Users.id ua) ->
  session_user_id db token_b = Some (Users.id ub) ->
  user_by_name db (Users.username ua) = Some ua ->
  user_by_name db (Users.username ub) = Some ub ->
  fst (get_conversation env1 (Users.username ub) token_a db)
  = fst (get_conversation env2 (Users.username ua) token_b db).
Proof.
  intros Hok Ha Hb Hua Hub.
  rewrite (get_conversation_run env1 db _ _ _ ub Hok Ha Hub).
  rewrite (get_conversation_run env2 db _ _ _ ua Hok Hb Hua).
  cbn [fst].
  rewrite (filter_ext (between (Users.id ua) (Users.id ub))
             (between (Users.id ub) (Users.id ua)));
    [reflexivity|].
  intros m. apply between_sym.
Qed.

(** The theorem at alice and bob. *)
Lemma get_conversation_symmetric_witness :
  fst (get_conversation (demo_env 20 "") "bob" (Some "tokA") demo_db)
  = fst (get_conversation (demo_env 21 "") "alice" (Some "tokB") demo_db).
Proof.
  apply (get_conversation_symmetric (demo_env 20 "") (demo_env 21 "") demo_db
           (Some "tokA") (Some "tokB")
           {| Users.id := 1; Users.username := "alice";
              Users.password_hash := "2aff00$4b"; Users.email := None;
              Users.created_at := 1; Users.last_login := Some 4;
              Users.is_active := 1 |}
           {| Users.id := 2; Users.username := "bob";
              Users.password_hash := "2aff00$cc"; Users.email := None;
              Users.created_at := 2; Users.last_login := Some 5;
              Users.is_active := 1 |}).
  - apply db_okb_ok. vm_compute. reflexivity.
  - vm_compute. reflexivity.
  - vm_compute. reflexivity.
  - vm_compute. reflexivity.
  - vm_compute. reflexivity.
Defined.

Lemma skipn_nil_iff {A} (n : nat) (l : list A) :
  skipn n l = [] <-> (List.length l <= n)%nat.
Proof.
  revert l. induction n as [|n IH]; intros [|x l]; cbn [skipn List.length];
    split; intros H; try reflexivity; try lia; try discriminate.
  - apply IH in H. lia.
  - apply IH. lia.
Qed.

Lemma firstn_plus {A} (a b : nat) (l : list A) :
  firstn (a + b) l = firstn a l ++ firstn b (skipn a l).
Proof.
  revert l. induction a as [|a IH]; intros l; [reflexivity|].
  destruct l as [|x l]; cbn [Nat.add firstn skipn app].
  - now rewrite firstn_nil.
  - now rewrite IH.
Qed.

Lemma skipn_plus {A} (a b : nat) (l : list A) :
  skipn (a + b) l = skipn b (skipn a l).
Proof.
  revert l. induction a as [|a IH]; intros l; [reflexivity|].
  destruct l as [|x l]; cbn [Nat.add skipn]; [now rewrite skipn_nil|].
  apply IH.
Qed.

(** X18.  For a limit and an offset that are not negative, [has_more]
    tells the truth: it is true exactly when the conversation has
    messages older than this page. *)
Theorem has_more_means_older_messages (env : Env) (db : DB)
    (recipient_username : string) (token : option string)
    (ua ub : Users.row) (limit offset : Z) :
  db_ok db ->
  session_user_id db token = Some (Users.id ua) ->
  user_by_id db (Users.id ua) = Some ua ->
  user_by_name db recipient_username = Some ub ->
  0 <= limit -> 0 <= offset ->
  let newest :=
    order_by_desc Messages.created_at
      (filter (between (Users.id ua) (Users.id ub)) (messages db)) in
  field (fst (fst (get_conversation_v2 env recipient_username token
                     (Some limit) (Some offset) db))) "has_more"
  = Some (JBool true)
  <-> skipn (Z.to_nat offset + Z.to_nat limit) newest <> [].
Proof.
  intros Hok Hu Hua Hub Hl Ho newest.
  rewrite (get_conversation_v2_run env db recipient_username token
             (Some limit) (Some offset) ua ub Hok Hu Hua Hub).
  cbn [fst field field_lookup String.eqb Ascii.eqb Bool.eqb].
  rewrite skipn_nil_iff. unfold newest.
  rewrite <- (Permutation_length (order_by_desc_perm Messages.created_at _)).
  split.
  - intros H. injection H as H. apply Z.ltb_lt in H. lia.
  - intros H. do 2 f_equal. apply Z.ltb_lt. lia.
Qed.

(** The theorem at alice and bob, whose conversation has three
    messages, at the page of the two newest. *)
Lemma has_more_means_older_messages_witness :
  field (fst (fst (get_conversation_v2 (demo_env 20 "") "bob" (Some "tokA")
                     (Some 2) (Some 0) demo_db))) "has_more"
  = Some (JBool true)
  <-> skipn (Z.to_nat 0 + Z.to_nat 2)
        (order_by_desc Messages.created_at
           (filter (between 1 2) (messages demo_db))) <> [].
Proof.
  apply (has_more_means_older_messages (demo_env 20 "") demo_db "bob"
           (Some "tokA")
           {| Users.id := 1; Users.username := "alice";
              Users.password_hash := "2aff00$4b"; Users.email := None;
              Users.created_at := 1; Users.last_login := Some 4;
              Users.is_active := 1 |}
           {| Users.id := 2; Users.username := "bob";
              Users.password_hash := "2aff00$cc"; Users.email := None;
              Users.created_at := 2; Users.last_login := Some 5;
              Users.is_active := 1 |} 2 0).
  - apply db_okb_ok. vm_compute. reflexivity.
  - vm_compute. reflexivity.
  - vm_compute. reflexivity.
  - vm_compute. reflexivity.
  - lia.
  - lia.
Defined.

(** X19.  A negative limit, among the integers SQLite binds, is no
    limit: the page holds the whole conversation from the offset on,
    and [has_more] is true all the same whenever the offset is within
    the conversation. *)
Theorem negative_limit_returns_all (env : Env) (db : DB)
    (recipient_username : string) (token : option string)
    (ua ub : Users.row) (limit offset : Z) :
  db_ok db ->
  session_user_id db token = Some (Users.id ua) ->
  user_by_id db (Users.id ua) = Some ua ->
  user_by_name db recipient_username = Some ub ->
  binds limit -> binds offset ->
  limit < 0 ->
  let conversation :=
    filter (between (Users.id ua) (Users.id ub)) (messages db) in
  0 <= offset <= Z.of_nat (List.length conversation) ->
  fst (get_conversation_v2 env recipient_username token
         (Some limit) (Some offset) db)
  = (JObj [("conversation",
            JArr (rev (map (conversation_entry db (Users.username ua))
                         (skipn (Z.to_nat offset)
                            (order_by_desc Messages.created_at
                               conversation)))));
           ("total_messages", JNum (Z.of_nat (List.length conversation)));
           ("has_more", JBool true)], 200).
Proof.
  intros Hok Hu Hua Hub _ _ Hl conversation Ho.
  rewrite (get_conversation_v2_run env db recipient_username token
             (Some limit) (Some offset) ua ub Hok Hu Hua Hub).
  cbn [fst]. fold conversation. unfold limit_offset.
  apply Z.ltb_lt in Hl as Hl'. rewrite Hl'.
  replace (offset + limit <? Z.of_nat (List.length conversation)) with true;
    [reflexivity|].
  symmetry. apply Z.ltb_lt. lia.
Qed.

(** The theorem at alice and bob with limit -1. *)
Lemma negative_limit_returns_all_witness :
  let conversation := filter (between 1 2) (messages demo_db) in
  fst (get_conversation_v2 (demo_env 20 "") "bob" (Some "tokA")
         (Some (-1)) (Some 0) demo_db)
  = (JObj [("conversation",
            JArr (rev (map (conversation_entry demo_db "alice")
                         (skipn (Z.to_nat 0)
                            (order_by_desc Messages.created_at
                               conversation)))));
           ("total_messages", JNum (Z.of_nat (List.length conversation)));
           ("has_more", JBool true)], 200).
Proof.
  apply (negative_limit_returns_all (demo_env 20 "") demo_db "bob"
           (Some "tokA")
           {| Users.id := 1; Users.username := "alice";
              Users.password_hash := "2aff00$4b"; Users.email := None;
              Users.created_at := 1; Users.last_login := Some 4;
              Users.is_active := 1 |}
           {| Users.id := 2; Users.username := "bob";
              Users.password_hash := "2aff00$cc"; Users.email := None;
              Users.created_at := 2; Users.last_login := Some 5;
              Users.is_active := 1 |} (-1) 0).
  - apply db_okb_ok. vm_compute. reflexivity.
  - vm_compute. reflexivity.
  - vm_compute. reflexivity.
  - vm_compute. reflexivity.
  - vm_compute. intuition discriminate.
  - vm_compute. intuition discriminate.
  - lia.
  - vm_compute. split; discriminate.
Defined.

(** X20.  Pages follow one another without gap or overlap: for limits
    and an offset that are not negative and whose sum SQLite binds, the
    page of limit [l1 + l2] at an offset is the page of limit [l2] at
    that offset plus [l1], which is older, followed by the page of
    limit [l1] at the offset. *)
Theorem consecutive_pages (env : Env) (db : DB)
    (recipient_username : string) (token : option string)
    (ua ub : Users.row) (l1 l2 offset : Z) :
  db_ok db ->
  session_user_id db token = Some (Users.id ua) ->
  user_by_id db (Users.id ua) = Some ua ->
  user_by_name db recipient_username = Some ub ->
  0 <= l1 -> 0 <= l2 -> 0 <= offset ->
  binds (offset + l1 + l2) ->
  let page lim off :=
    field (fst (fst (get_conversation_v2 env recipient_username token
                       (Some lim) (Some off) db))) "conversation" in
  exists newer older,
    page l1 offset = Some (JArr newer)
    /\ page l2 (offset + l1) = Some (JArr older)
    /\ page (l1 + l2) offset = Some (JArr (older ++ newer)).
Proof.
  intros Hok Hu Hua Hub H1 H2 Ho _ page.
  assert (Hpage : forall lim off,
    page lim off
    = Some (JArr (rev (map (conversation_entry db (Users.username ua))
                         (limit_offset lim off
                            (order_by_desc Messages.created_at
                               (filter (between (Users.id ua) (Users.id ub))
                                       (messages db)))))))).
  { intros lim off. unfold page.
    now rewrite (get_conversation_v2_run env db recipient_username token
                   (Some lim) (Some off) ua ub Hok Hu Hua Hub). }
  do 2 eexists. rewrite !Hpage. split; [reflexivity|]. split; [reflexivity|].
  do 2 f_equal. rewrite <- rev_app_distr, <- map_app. do 2 f_equal.
  unfold limit_offset.
  replace (l1 <? 0) with false by (symmetry; apply Z.ltb_ge; lia).
  replace (l2 <? 0) with false by (symmetry; apply Z.ltb_ge; lia).
  replace (l1 + l2 <? 0) with false by (symmetry; apply Z.ltb_ge; lia).
  rewrite !Z2Nat.inj_add by lia.
  now rewrite firstn_plus, skipn_plus.
Qed.

(** The theorem at alice and bob: pages of one message each. *)
Lemma consecutive_pages_witness :
  let page lim off :=
    field (fst (fst (get_conversation_v2 (demo_env 20 "") "bob" (Some "tokA")
                       (Some lim) (Some off) demo_db))) "conversation" in
  exists newer older,
    page 1 0 = Some (JArr newer)
    /\ page 1 (0 + 1) = Some (JArr older)
    /\ page (1 + 1) 0 = Some (JArr (older ++ newer)).
Proof.
  apply (consecutive_pages (demo_env 20 "") demo_db "bob" (Some "tokA")
           {| Users.id := 1; Users.username := "alice";
              Users.password_hash := "2aff00$4b"; Users.email := None;
              Users.created_at := 1; Users.last_login := Some 4;
              Users.is_active := 1 |}
           {| Users.id := 2; Users.username := "bob";
              Users.password_hash := "2aff00$cc"; Users.email := None;
              Users.created_at := 2; Users.last_login := Some 5;
              Users.is_active := 1 |} 1 1 0).
  - apply db_okb_ok. vm_compute. reflexivity.
  - vm_compute. reflexivity.
  - vm_compute. reflexivity.
  - vm_compute. reflexivity.
  - lia.
  - lia.
  - lia.
  - vm_compute. intuition discriminate.
Defined.




(* ================================================================== *)
(** * The contact list *)
(* ================================================================== *)

Section OrderByText.
Context {A : Type} (key : A -> string).

Lemma insert_text_asc_perm (x : A) (l : list A) :
  Permutation (x :: l) (insert_text_asc key x l).
Proof.
  induction l as [|y l IH]; cbn [insert_text_asc]; [reflexivity|].
  destruct (String.leb (key x) (key y)); [reflexivity|].
  rewrite perm_swap. now apply perm_skip.
Qed.

Lemma order_by_text_asc_perm (l : list A) :
  Permutation l (order_by_text_asc key l).
Proof.
  induction l as [|x l IH]; cbn; [constructor|].
  etransitivity; [apply perm_skip, IH | apply insert_text_asc_perm].
Qed.

Lemma insert_text_asc_sorted (x : A) (l : list A) :
  Sorted (fun a b => String.leb (key a) (key b) = true) l ->
  Sorted (fun a b => String.leb (key a) (key b) = true)
    (insert_text_asc key x l).
Proof.
  induction 1 as [|y l Hs IH Hy]; cbn [insert_text_asc].
  - repeat constructor.
  - destruct (String.leb (key x) (key y)) eqn:E.
    + constructor; [now constructor|]. now constructor.
    + constructor; [exact IH|].
      assert (Hyx : String.leb (key y) (key x) = true).
      { destruct (String.leb_total (key x) (key y)); congruence. }
      destruct l as [|z l]; cbn [insert_text_asc]; [now constructor|].
      destruct (String.leb (key x) (key z)); constructor; [exact Hyx|].
      now inversion Hy.
Qed.

Lemma order_by_text_asc_sorted (l : list A) :
  Sorted (fun a b => String.leb (key a) (key b) = true)
    (order_by_text_asc key l).
Proof.
  induction l as [|x l IH]; cbn; [constructor|].
  now apply insert_text_asc_sorted.
Qed.

End OrderByText.

(** What [get_all_users] answers to a token that resolves. *)
Lemma get_all_users_run (env : Env) (db : DB) (token : option string) (c : Z) :
  session_user_id db token = Some c ->
  get_all_users env token db
  = ((JObj [("users",
             JArr (map contact_entry (select_other_users (VInt c) db)))],
      200), db).
Proof.
  intros Hc.
  destruct (session_user_id_verify db token c Hc) as (u & _ & Hid & Hv).
  unfold get_all_users. run_handler. rewrite Hv.
  cbv beta iota delta [negb].
  rewrite subscript_id, subscript_username, Hid. reflexivity.
Qed.

(** X22.  [GET /get_all_users] lists the users that are active and are
    not the caller, each once, in the order of their usernames, and
    writes nothing; the entries carry id, username, email and creation
    time. *)
Theorem get_all_users_lists_others (env : Env) (db : DB)
    (token : option string) (c : Z) :
  session_user_id db token = Some c ->
  let others := select_other_users (VInt c) db in
  get_all_users env token db
  = ((JObj [("users", JArr (map contact_entry others))], 200), db)
  /\ Permutation others
       (filter (fun u => (Users.is_active u =? 1) && negb (Users.id u =? c))
               (users db))
  /\ (forall u, In u others <->
        In u (users db) /\ Users.is_active u = 1 /\ Users.id u <> c)
  /\ Sorted (fun u1 u2 =>
               String.leb (Users.username u1) (Users.username u2) = true)
       others.
Proof.
  intros Hc others.
  assert (Hperm : Permutation others
            (filter (fun u => (Users.is_active u =? 1)
                              && negb (Users.id u =? c)) (users db)))
    by (symmetry; apply order_by_text_asc_perm).
  split; [now apply get_all_users_run|]. split; [exact Hperm|]. split.
  - intros u. split.
    + intros Hin. apply (Permutation_in _ Hperm) in Hin.
      apply filter_In in Hin as [Hin Hp].
      apply andb_prop in Hp as [Ha Hn].
      apply Z.eqb_eq in Ha. apply negb_true_iff, Z.eqb_neq in Hn. auto.
    + intros (Hin & Ha & Hn).
      apply (Permutation_in _ (Permutation_sym Hperm)).
      apply filter_In. split; [exact Hin|].
      apply Z.eqb_eq in Ha. apply Z.eqb_neq in Hn.
      now rewrite Ha, Hn.
  - apply order_by_text_asc_sorted.
Qed.

(** The theorem at bob: alice and carol, in that order. *)
Lemma get_all_users_lists_others_witness :
  let others := select_other_users (VInt 2) demo_db in
  get_all_users (demo_env 20 "") (Some "tokB") demo_db
  = ((JObj [("users", JArr (map contact_entry others))], 200), demo_db)
  /\ Permutation others
       (filter (fun u => (Users.is_active u =? 1) && negb (Users.id u =? 2))
               (users demo_db))
  /\ (forall u, In u others <->
        In u (users demo_db) /\ Users.is_active u = 1 /\ Users.id u <> 2)
  /\ Sorted (fun u1 u2 =>
               String.leb (Users.username u1) (Users.username u2) = true)
       others.
Proof.
  apply (get_all_users_lists_others (demo_env 20 "") demo_db (Some "tokB") 2).
  vm_compute. reflexivity.
Defined.

(* ================================================================== *)
(** * Device tokens *)
(* ================================================================== *)

Lemma filter_filter_negb {A} (p : A -> bool) (l : list A) :
  filter p (filter (fun x => negb (p x)) l) = [].
Proof.
  induction l as [|x l IH]; cbn [filter]; [reflexivity|].
  destruct (p x) eqn:E; cbn [negb filter]; [exact IH|].
  now rewrite E.
Qed.

Lemma filter_idem {A} (p : A -> bool) (l : list A) :
  filter p (filter p l) = filter p l.
Proof.
  induction l as [|x l IH]; cbn [filter]; [reflexivity|].
  destruct (p x) eqn:E; cbn [filter]; [rewrite E|]; now rewrite IH.
Qed.

(** X23.  [POST /register_device] is an upsert on the pair of user and
    device token: with a token that resolves to [c] and a device token
    [d] that is not empty it answers 200, and afterwards
    [device_tokens] holds exactly one row for [(c, d)], new, registered
    at the time of the call and never used, whether or not the pair
    was there before; the rows of every other pair are as they were. *)
Theorem register_device_upsert (env : Env) (json : option Py.dict) (db : DB)
    (dev : Devices) (c : Z) (d : string) :
  session_user_id db (Py.get (json_or_empty json) "token") = Some c ->
  Py.get (json_or_empty json) "device_token" = Some d ->
  d <> EmptyString ->
  let out := register_device env json db dev in
  fst out = (JObj [("status", JStr "success")], 200)
  /\ filter (same_device c d) (device_tokens (snd out))
     = [ {| DeviceTokens.id :=
              next_rowid (seq_device_tokens dev)
                (map DeviceTokens.id (device_tokens dev));
            DeviceTokens.user_id := c; DeviceTokens.device_token := d;
            DeviceTokens.registered_at := now env;
            DeviceTokens.last_used := None |} ]
  /\ filter (fun r => negb (same_device c d r)) (device_tokens (snd out))
     = filter (fun r => negb (same_device c d r)) (device_tokens dev).
Proof.
  intros Hc Hd Hne out.
  destruct (session_user_id_verify db _ c Hc) as (u & _ & Hid & Hv).
  assert (Hrun : out = ((JObj [("status", JStr "success")], 200),
                        replace_device env c d dev)).
  { unfold out, register_device. cbv zeta. rewrite Hv, Hd.
    cbn [Py.or_empty]. destruct d as [|c0 d0]; [contradiction|].
    cbn [is_empty]. rewrite subscript_id, subscript_username.
    cbn [not_null_int]. now rewrite Hid. }
  rewrite Hrun. cbn [fst snd replace_device device_tokens].
  split; [reflexivity|]. rewrite !filter_app. split.
  - rewrite filter_filter_negb. unfold same_device.
    cbn [filter app DeviceTokens.user_id DeviceTokens.device_token].
    now rewrite Z.eqb_refl, String.eqb_refl.
  - rewrite filter_idem. unfold same_device.
    cbn [filter DeviceTokens.user_id DeviceTokens.device_token].
    rewrite Z.eqb_refl, String.eqb_refl. cbn [andb negb].
    apply app_nil_r.
Qed.

(** The theorem at bob registering a phone he had registered before. *)
Lemma register_device_upsert_witness :
  let dev := {| device_tokens :=
                  [ {| DeviceTokens.id := 1; DeviceTokens.user_id := 2;
                       DeviceTokens.device_token := "phone";
                       DeviceTokens.registered_at := 12;
                       DeviceTokens.last_used := Some 15 |} ];
                seq_device_tokens := 1 |} in
  let out := register_device (demo_env 20 "")
               (Some [("token", "tokB"); ("device_token", "phone")])
               demo_db dev in
  fst out = (JObj [("status", JStr "success")], 200)
  /\ filter (same_device 2 "phone") (device_tokens (snd out))
     = [ {| DeviceTokens.id :=
              next_rowid (seq_device_tokens dev)
                (map DeviceTokens.id (device_tokens dev));
            DeviceTokens.user_id := 2; DeviceTokens.device_token := "phone";
            DeviceTokens.registered_at := now (demo_env 20 "");
            DeviceTokens.last_used := None |} ]
  /\ filter (fun r => negb (same_device 2 "phone" r)) (device_tokens (snd out))
     = filter (fun r => negb (same_device 2 "phone" r)) (device_tokens dev).
Proof.
  intros dev.
  apply (register_device_upsert (demo_env 20 "")
           (Some [("token", "tokB"); ("device_token", "phone")])
           demo_db dev 2 "phone").
  - vm_compute. reflexivity.
  - reflexivity.
  - discriminate.
Defined.

(* ================================================================== *)
(** * Requests without a session *)
(* ================================================================== *)

(** X24.  A request that reaches a handler asking for a token, and
    carries none that resolves, leaves no trace: the database is
    unchanged (no activity log row is written, unlike for a failed
    login) and no device is registered.  The answer is 401 on every
    such route, but for [mark_read] given the body [null], which has
    nothing to read a token from and answers 500.  (Bodies are objects
    of strings or [null].) *)
Theorem unauthorized_writes_nothing {HL : Hashlib} (env : Env) (req : Request)
    (token : option string) (json : option Py.dict) (db : DB) (dev : Devices) :
  checks_token req = true ->
  routed req ->
  fst (verify_session_token db (carried_token req)) = false ->
  fst (verify_session_token db token) = false ->
  fst (verify_session_token db (Py.get (json_or_empty json) "token")) = false ->
  snd (handle env req db) = db
  /\ status (fst (handle env req db))
     = match req with POST_mark_read _ None => 500 | _ => 401 end
  /\ get_all_users env token db = ((error "Unauthorized", 401), db)
  /\ register_device env json db dev = ((error "Unauthorized", 401), dev).
Proof.
  intros Hchecks _ Hreq Hv Hj.
  assert (H401 : forall t, request_token req = Some t ->
            snd (handle env req db) = db
            /\ status (fst (handle env req db)) = 401).
  { intros t Ht. unfold carried_token in Hreq. rewrite Ht in Hreq.
    destruct (handle_unauthorized env req t db Ht Hreq). now split. }
  split; [|split; [|split]].
  - destruct req as [j|j|j|t|mid [data|]|r t|t|r t lim off|];
      try discriminate Hchecks; try (now eapply H401); reflexivity.
  - destruct req as [j|j|j|t|mid [data|]|r t|t|r t lim off|];
      try discriminate Hchecks; try (now eapply H401); reflexivity.
  - unfold get_all_users. run_handler.
    destruct (verify_session_token db token) as [valid user] eqn:E.
    cbn [fst] in Hv. subst valid. reflexivity.
  - unfold register_device. cbv zeta.
    destruct (verify_session_token db (Py.get (json_or_empty json) "token"))
      as [valid user] eqn:E.
    cbn [fst] in Hj. subst valid. reflexivity.
Qed.

(** The theorem at a made-up token on [/mark_read]. *)
Lemma unauthorized_writes_nothing_witness :
  snd (handle (HL := demo_hashlib) (demo_env 20 "")
         (POST_mark_read 1 (Some [("token", "nope")])) demo_db) = demo_db
  /\ status (fst (handle (HL := demo_hashlib) (demo_env 20 "")
                    (POST_mark_read 1 (Some [("token", "nope")])) demo_db))
     = 401
  /\ get_all_users (demo_env 20 "") (Some "nope") demo_db
     = ((error "Unauthorized", 401), demo_db)
  /\ register_device (demo_env 20 "") (Some [("token", "nope")]) demo_db
       {| device_tokens := []; seq_device_tokens := 0 |}
     = ((error "Unauthorized", 401),
        {| device_tokens := []; seq_device_tokens := 0 |}).
Proof.
  apply (unauthorized_writes_nothing (HL := demo_hashlib) (demo_env 20 "")
           (POST_mark_read 1 (Some [("token", "nope")])) (Some "nope")
           (Some [("token", "nope")]) demo_db
           {| device_tokens := []; seq_device_tokens := 0 |}).
  - reflexivity.
  - cbn. lia.
  - vm_compute. reflexivity.
  - vm_compute. reflexivity.
  - vm_compute. reflexivity.
Defined.

(* ================================================================== *)
(** * What holds of every row of a reachable database *)
(* ================================================================== *)

Section Rows.
Context {HL : Hashlib}.

Lemma writing_ret {A} (a : A) : writing (ret a).
Proof. intros db0 db H. exact H. Qed.

Lemma writing_lift {A} (x : Py.exc A) : writing (lift x).
Proof. intros db0 db H. exact H. Qed.

Lemma writing_query {A} (f : DB -> A) : writing (query f).
Proof. intros db0 db H. exact H. Qed.

Lemma writing_verify (token : option string) : writing (verify token).
Proof. apply writing_query. Qed.

Lemma writing_bind {A B} (m : M A) (k : A -> M B) :
  writing m -> (forall a, writing (k a)) -> writing (bind m k).
Proof.
  intros Hm Hk db0 db H. unfold bind.
  specialize (Hm db0 db H).
  destruct (m db) as [[a|e] db']; cbn [snd] in *; [|exact Hm].
  now apply Hk.
Qed.

Lemma writing_log (env : Env) (uid : Val) (action : string)
    (details ip : option string) (st : string) :
  writing (execute (log_activity env uid action details ip st)).
Proof. intros db0 db H. now apply writes_log. Qed.

Lemma writing_update (env : Env) (message_id : Z) (recipient : Val) :
  writing (execute (update_read env message_id recipient)).
Proof. intros db0 db H. now apply writes_update. Qed.

Lemma writing_login (env : Env) (username password : string) :
  writing (call (login_user env username password)).
Proof.
  intros db0 db H. unfold call.
  pose proof (writes_login db0 db env username password H) as E.
  destruct (login_user env username password db). exact E.
Qed.

Lemma writing_try_except (describe : string -> string) (m : M Response)
    (db : DB) :
  writing m -> writes db (snd (try_except describe m db)).
Proof.
  intros Hm. unfold try_except.
  specialize (Hm db db (writes_refl db)).
  destruct (m db) as [[r|e] db']; exact Hm.
Qed.

Lemma writing_for_each {A B} (f : A -> M B) (l : list A) :
  (forall a, writing (f a)) -> writing (for_each f l).
Proof.
  intros Hf. induction l as [|x l IH]; cbn [for_each].
  - apply writing_ret.
  - apply writing_bind; [apply Hf|]. intros y.
    apply writing_bind; [exact IH|]. intros ys. apply writing_ret.
Qed.

Ltac writing_step :=
  first
    [ apply writing_ret | apply writing_lift | apply writing_verify
    | apply writing_query | apply writing_log | apply writing_update
    | apply writing_login
    | apply writing_bind; [|intros ?]
    | match goal with
      | |- writing (match ?x with _ => _ end) => destruct x
      end ].

Lemma signup_writes (env : Env) (json : option Py.dict) (db : DB) :
  writes db (snd (signup env json db)).
Proof.
  rewrite signup_run.
  destruct (is_empty _ || is_empty _); [apply writes_refl|].
  destruct (len (request_password json) <? 6) eqn:Hp; [apply writes_refl|].
  destruct (len (request_username json) <? 3) eqn:Hu; [apply writes_refl|].
  destruct (username_taken db _ || email_taken db _); [apply writes_refl|].
  cbn [snd]. apply Z.ltb_ge in Hp, Hu.
  apply writes_log, writes_register; [apply writes_refl | exact Hu | exact Hp].
Qed.

Lemma send_message_writes (env : Env) (json : option Py.dict) (db : DB) :
  writes db (snd (send_message env json db)).
Proof.
  unfold send_message. cbv zeta. run_handler.
  destruct (verify_session_token db _) as [[|] user] eqn:Hv;
    cbv beta iota delta [negb]; [|apply writes_refl].
  destruct (is_empty _ || is_empty _) eqn:Hempty.
  { destruct (subscript user "username"); apply writes_refl. }
  apply orb_false_iff in Hempty as [_ Htext].
  unfold get_user_by_username.
  destruct (find _ (users db)) as [ru|] eqn:Hru; cbn [option_map].
  - destruct user as [r|]; [|apply writes_refl].
    destruct (verify_session_token_row db
                (Py.get (json_or_empty json) "token") r) as (u & Hin & ->);
      [now rewrite Hv|].
    rewrite subscript_id. cbv beta iota.
    cbn [subscript Row_lookup String.eqb Ascii.eqb Bool.eqb not_null_int].
    cbv beta iota. cbn [snd].
    apply writes_log, writes_insert; [apply writes_refl| | |].
    + now apply in_map.
    + apply find_some in Hru as [Hin' _]. now apply in_map.
    + intros E. rewrite E in Htext. discriminate.
  - destruct (subscript user "username"); apply writes_refl.
Qed.

Lemma handle_writes (env : Env) (req : Request) (db : DB) :
  writes db (snd (handle env req db)).
Proof.
  destruct req; cbn [handle].
  - apply signup_writes.
  - unfold login. apply writing_try_except. cbv zeta. repeat writing_step.
  - apply send_message_writes.
  - unfold get_messages. apply writing_try_except. repeat writing_step.
  - unfold mark_read. apply writing_try_except. repeat writing_step.
  - unfold get_conversation. apply writing_try_except. repeat writing_step.
  - unfold get_user_profile. apply writing_try_except. repeat writing_step.
  - unfold get_conversation_v2. apply writing_try_except. cbv zeta.
    repeat first
      [ apply writing_for_each; intros ?; unfold page_entry
      | writing_step ].
  - apply writes_refl.
Qed.

Lemma rows_ok_users (db db' : DB) :
  map Users.id (users db') = map Users.id (users db) ->
  sessions db' = sessions db -> messages db' = messages db ->
  (forall u, In u (users db') -> user_row_ok u) ->
  rows_ok db -> rows_ok db'.
Proof.
  intros Hids Hs Hm Hu (_ & Hss & Hmm).
  split; [exact Hu|]. split.
  - intros s Hin. rewrite Hs in Hin. unfold session_row_ok.
    rewrite Hids. now apply Hss.
  - intros m Hin. rewrite Hm in Hin. unfold message_row_ok.
    rewrite Hids. now apply Hmm.
Qed.

Lemma writes_rows_ok (db0 db : DB) :
  writes db0 db -> rows_ok db0 -> rows_ok db.
Proof.
  induction 1 as [|db env uid a d ip st _ IH|db env u p e _ IH Hu Hp
                 |db env u p _ IH|db env s r text _ IH Hs Hr Htext
                 |db env mid rcp _ IH]; intros H0; [exact H0| | | | |];
    specialize (IH H0).
  - exact IH.
  - unfold register_user.
    destruct (username_taken db u || email_taken db e); [exact IH|].
    destruct IH as (Hus & Hss & Hmm). cbn [snd].
    split; [|split]; cbn [users sessions messages].
    + intros x Hin. apply in_app_or in Hin as [Hin|[<-|[]]]; [now apply Hus|].
      split; [exact Hu|]. split; [reflexivity|].
      exists (rand_bytes env), p. split; [exact Hp | reflexivity].
    + intros x Hin. destruct (Hss x Hin) as (H1 & H2 & H3).
      split; [exact H1|]. split; [exact H2|].
      cbn [users]. rewrite map_app. apply in_or_app. now left.
    + intros x Hin. destruct (Hmm x Hin) as (H1 & H2 & H3 & H4).
      split; [exact H1|]. cbn [users]. rewrite map_app.
      split; [apply in_or_app; now left|].
      split; [apply in_or_app; now left | exact H4].
  - unfold login_user.
    destruct (find _ (users db)) as [user|] eqn:F; [|exact IH].
    destruct (negb _); [exact IH|].
    destruct (existsb _ (sessions db)); [exact IH|].
    apply find_some in F as [Hin _].
    destruct IH as (Hus & Hss & Hmm). cbn [snd].
    split; [|split]; cbn [users sessions messages].
    + intros x Hx. apply in_map_iff in Hx as (y & <- & Hy).
      specialize (Hus y Hy). destruct (Users.id y =? Users.id user); exact Hus.
    + intros x Hx. unfold session_row_ok. cbn [users].
      rewrite map_set_last_login by reflexivity.
      apply in_app_or in Hx as [Hx|[<-|[]]]; [now apply Hss|].
      cbn [Sessions.is_valid Sessions.expires_at Sessions.user_id].
      split; [reflexivity|]. split; [reflexivity|]. now apply in_map.
    + intros x Hx. unfold message_row_ok. cbn [users].
      rewrite map_set_last_login by reflexivity. now apply Hmm.
  - destruct IH as (Hus & Hss & Hmm).
    split; [exact Hus|]. split; [exact Hss|].
    intros x Hx. cbn [messages insert_message] in Hx.
    apply in_app_or in Hx as [Hx|[<-|[]]]; [now apply Hmm|].
    split; [exact Htext|]. split; [exact Hs|]. split; [exact Hr|].
    left. split; reflexivity.
  - destruct IH as (Hus & Hss & Hmm).
    split; [exact Hus|]. split; [exact Hss|].
    intros x Hx. cbn [messages update_read] in Hx.
    apply in_map_iff in Hx as (y & <- & Hy).
    destruct (Hmm y Hy) as (H1 & H2 & H3 & H4).
    destruct (_ && _); [|repeat split; assumption].
    split; [exact H1|]. split; [exact H2|]. split; [exact H3|].
    right. split; [reflexivity|]. now exists (now env).
Qed.

Lemma reachable_rows_ok (db : DB) : reachable db -> rows_ok db.
Proof.
  induction 1 as [|db env req _ IH].
  - split; [|split]; intros x [].
  - exact (writes_rows_ok _ _ (handle_writes env req db) IH).
Qed.

Lemma run_reachable (reqs : list (Env * Request)) (db : DB) :
  reachable db -> reachable (run reqs db).
Proof.
  revert db. induction reqs as [|[env req] reqs IH]; intros db H; [exact H|].
  apply IH. now apply reachable_step.
Qed.

(** X25.  Every account of a reachable database is active, has a
    username of three characters or more, and holds a well-formed
    hash: some password of six characters or more verifies against
    it. *)
Theorem reachable_accounts_usable (db : DB) (u : Users.row) :
  reachable db -> In u (users db) ->
  3 <= len (Users.username u)
  /\ Users.is_active u = 1
  /\ exists p, 6 <= len p /\ verify_password (Users.password_hash u) p = true.
Proof.
  intros Hr Hu. destruct (reachable_rows_ok db Hr) as (Hus & _).
  destruct (Hus u Hu) as (H1 & H2 & rand & p & Hp & Hh).
  split; [exact H1|]. split; [exact H2|]. exists p. split; [exact Hp|].
  rewrite Hh. apply verify_hash_password.
Qed.

(** X26.  No session of a reachable database is invalid or has an
    expiry time, and each belongs to a user that exists: every token
    that was ever issued resolves, to the user it was issued to. *)
Theorem reachable_sessions_resolve (db : DB) (s : Sessions.row) :
  reachable db -> In s (sessions db) ->
  Sessions.is_valid s = 1
  /\ Sessions.expires_at s = None
  /\ session_user_id db (Some (Sessions.token s)) = Some (Sessions.user_id s).
Proof.
  intros Hr Hs. destruct (reachable_rows_ok db Hr) as (_ & Hss & _).
  destruct (Hss s Hs) as (H1 & H2 & H3).
  split; [exact H1|]. split; [exact H2|].
  pose proof (reachable_ok db Hr) as Hok.
  destruct (find_exists_key Users.id (users db) (Sessions.user_id s) H3)
    as (u & Hf & _ & Hid).
  unfold session_user_id.
  rewrite (verify_session_token_session db s (ok_tokens db Hok) Hs H1).
  unfold user_by_id. rewrite Hf. cbn. now rewrite Hid.
Qed.

(** X27.  Every message of a reachable database has a text that is not
    empty, a sender and a recipient that are users, and a read-state
    that is either unread with no [read_at] or read with one. *)
Theorem reachable_messages_well_formed (db : DB) (m : Messages.row) :
  reachable db -> In m (messages db) ->
  Messages.message m <> EmptyString
  /\ user_by_id db (Messages.sender_id m) <> None
  /\ user_by_id db (Messages.recipient_id m) <> None
  /\ ((Messages.is_read m = 0 /\ Messages.read_at m = None)
      \/ (Messages.is_read m = 1 /\ exists t, Messages.read_at m = Some t)).
Proof.
  intros Hr Hm. destruct (reachable_rows_ok db Hr) as (_ & _ & Hmm).
  destruct (Hmm m Hm) as (H1 & H2 & H3 & H4).
  split; [exact H1|]. split; [|split; [|exact H4]].
  - destruct (find_exists_key Users.id (users db) _ H2) as (u & Hf & _).
    unfold user_by_id. now rewrite Hf.
  - destruct (find_exists_key Users.id (users db) _ H3) as (u & Hf & _).
    unfold user_by_id. now rewrite Hf.
Qed.

End Rows.

Lemma demo_db_reachable : reachable (HL := demo_hashlib) demo_db.
Proof. apply run_reachable, reachable_init. Qed.

(** The theorem at alice in [demo_db]. *)
Lemma reachable_accounts_usable_witness :
  3 <= len "alice"
  /\ 1 = 1
  /\ exists p, 6 <= len p
       /\ verify_password (HL := demo_hashlib) "2aff00$4b" p = true.
Proof.
  apply (reachable_accounts_usable (HL := demo_hashlib) demo_db
           {| Users.id := 1; Users.username := "alice";
              Users.password_hash := "2aff00$4b"; Users.email := None;
              Users.created_at := 1; Users.last_login := Some 4;
              Users.is_active := 1 |}).
  - apply run_reachable, reachable_init.
  - vm_compute. auto.
Defined.

(** The theorem at bob's session in [demo_db]. *)
Lemma reachable_sessions_resolve_witness :
  1 = 1
  /\ @None Z = None
  /\ session_user_id demo_db (Some "tokB") = Some 2.
Proof.
  apply (reachable_sessions_resolve (HL := demo_hashlib) demo_db
           {| Sessions.id := 2; Sessions.user_id := 2;
              Sessions.token := "tokB"; Sessions.created_at := 5;
              Sessions.expires_at := None; Sessions.is_valid := 1 |}).
  - apply run_reachable, reachable_init.
  - vm_compute. auto.
Defined.

(** The theorem at bob's answer in [demo_db]. *)
Lemma reachable_messages_well_formed_witness :
  "hello" <> EmptyString
  /\ user_by_id demo_db 2 <> None
  /\ user_by_id demo_db 1 <> None
  /\ ((0 = 0 /\ @None Z = None)
      \/ (0 = 1 /\ exists t, @None Z = Some t)).
Proof.
  apply (reachable_messages_well_formed (HL := demo_hashlib) demo_db
           {| Messages.id := 2; Messages.sender_id := 2;
              Messages.recipient_id := 1; Messages.message := "hello";
              Messages.is_read := 0; Messages.read_at := None;
              Messages.created_at := 8 |}).
  - apply run_reachable, reachable_init.
  - vm_compute. auto.
Defined.

(* ================================================================== *)
(** * Whitespace around credentials, and ids no message has *)
(* ================================================================== *)

Lemma lstrip_head (s : string) :
  match Py.lstrip s with
  | EmptyString => True
  | String c _ => Py.isspace c = false
  end.
Proof.
  induction s as [|c s IH]; cbn [Py.lstrip]; [exact I|].
  destruct (Py.isspace c) eqn:E; [exact IH | exact E].
Qed.

Lemma rstrip_cons (c : ascii) (s : string) :
  Py.rstrip (String c s)
  = match Py.rstrip s with
    | EmptyString =>
        if Py.isspace c then EmptyString else String c EmptyString
    | r => String c r
    end.
Proof. reflexivity. Qed.

Lemma rstrip_idem (s : string) : Py.rstrip (Py.rstrip s) = Py.rstrip s.
Proof.
  induction s as [|c s IH]; [reflexivity|].
  rewrite (rstrip_cons c s).
  destruct (Py.rstrip s) as [|a r] eqn:E.
  - destruct (Py.isspace c) eqn:Ec; [reflexivity|].
    rewrite rstrip_cons. cbn [Py.rstrip]. now rewrite Ec.
  - rewrite rstrip_cons, IH. reflexivity.
Qed.

Lemma rstrip_keeps_head (c : ascii) (s : string) :
  Py.isspace c = false ->
  exists r, Py.rstrip (String c s) = String c r.
Proof.
  intros Hc. rewrite rstrip_cons. destruct (Py.rstrip s) as [|a r].
  - rewrite Hc. now exists EmptyString.
  - now exists (String a r).
Qed.

Lemma strip_idem (s : string) : Py.strip (Py.strip s) = Py.strip s.
Proof.
  unfold Py.strip. pose proof (lstrip_head s) as H.
  destruct (Py.lstrip s) as [|c t]; [reflexivity|].
  destruct (rstrip_keeps_head c t H) as (r & Hr).
  rewrite Hr. cbn [Py.lstrip]. rewrite H, <- Hr. apply rstrip_idem.
Qed.

(** A field of the stripped body strips to what the field of the body
    strips to. *)
Lemma strip_stripped_field (json : option Py.dict) (k : string) :
  Py.strip (Py.or_empty (Py.get (json_or_empty (stripped json)) k))
  = Py.strip (Py.or_empty (Py.get (json_or_empty json) k)).
Proof.
  destruct json as [data|]; [|reflexivity]. cbn [stripped option_map
    json_or_empty].
  induction data as [|[k' v] data IH]; [reflexivity|].
  cbn [map Py.get fst snd]. destruct (String.eqb k' k); [|exact IH].
  cbn [Py.or_empty]. apply strip_idem.
Qed.

(** What [strip] returns has no white space at either end. *)
Lemma lstrip_strip (s : string) : Py.lstrip (Py.strip s) = Py.strip s.
Proof.
  unfold Py.strip. pose proof (lstrip_head s) as H.
  destruct (Py.lstrip s) as [|c t]; [reflexivity|].
  destruct (rstrip_keeps_head c t H) as (r & Hr).
  rewrite Hr. cbn [Py.lstrip]. now rewrite H.
Qed.

Section Whitespace.
Context {HL : Hashlib}.

Lemma login_same_credentials (env : Env) (json1 json2 : option Py.dict)
    (db : DB) :
  request_username json1 = request_username json2 ->
  request_password json1 = request_password json2 ->
  login env json1 db = login env json2 db.
Proof.
  unfold request_username, request_password. intros Hu Hp.
  unfold login. cbv zeta. now rewrite Hu, Hp.
Qed.

(** X28.  ASCII white space around the values of a body does not
    count: for a body whose values are ASCII text, [signup] and
    [login] answer it, and leave the database, exactly as they do for
    the body with every value stripped; and the username they work
    with, the one [signup] stores, has no white space at either end. *)
Theorem credentials_are_stripped (env : Env) (json : option Py.dict)
    (db : DB) :
  ascii_body json = true ->
  signup env (stripped json) db = signup env json db
  /\ login env (stripped json) db = login env json db
  /\ Py.lstrip (request_username json) = request_username json
  /\ Py.rstrip (request_username json) = request_username json.
Proof.
  intros _.
  assert (Hu : request_username (stripped json) = request_username json)
    by apply strip_stripped_field.
  assert (Hp : request_password (stripped json) = request_password json)
    by apply strip_stripped_field.
  assert (He : request_email (stripped json) = request_email json).
  { unfold request_email. now rewrite strip_stripped_field. }
  split; [|split; [|split]].
  - rewrite !signup_run. now rewrite Hu, Hp, He.
  - now apply login_same_credentials.
  - apply lstrip_strip.
  - apply rstrip_idem.
Qed.

End Whitespace.

(** The theorem at a body with blanks around both values. *)
Lemma credentials_are_stripped_witness :
  let json := Some [("username", "  alice "); ("password", " secret1  ")] in
  signup (HL := demo_hashlib) (demo_env 20 "") (stripped json) demo_db
  = signup (HL := demo_hashlib) (demo_env 20 "") json demo_db
  /\ login (HL := demo_hashlib) (demo_env 20 "tokE") (stripped json) demo_db
     = login (HL := demo_hashlib) (demo_env 20 "tokE") json demo_db
  /\ Py.lstrip (request_username json) = request_username json
  /\ Py.rstrip (request_username json) = request_username json.
Proof.
  apply (credentials_are_stripped (HL := demo_hashlib) (demo_env 20 "tokE")
           (Some [("username", "  alice "); ("password", " secret1  ")])
           demo_db).
  vm_compute. reflexivity.
Defined.

(** X29.  Marking an id that no message has is answered like any other
    mark: for an id the router passes on and SQLite binds, and a token
    that resolves, [mark_read] answers 200 with
    [{"status": "success"}], logs the call and changes no message. *)
Theorem mark_read_unknown_id (env : Env) (db : DB) (message_id : Z)
    (data : Py.dict) (c : Z) :
  0 <= message_id -> binds message_id ->
  session_user_id db (Py.get data "token") = Some c ->
  message_by_id db message_id = None ->
  let out := mark_read env message_id (Some data) db in
  fst out = (JObj [("status", JStr "success")], 200)
  /\ messages (snd out) = messages db
  /\ activity_logs (snd out)
     = activity_logs db ++
       [ {| ActivityLogs.id :=
              next_rowid (seq_activity_logs db)
                (map ActivityLogs.id (activity_logs db));
            ActivityLogs.user_id := VInt c;
            ActivityLogs.action := "mark_message_read";
            ActivityLogs.details :=
              Some (append "Message ID: " (Py.str_int message_id));
            ActivityLogs.ip_address := Some (remote_addr env);
            ActivityLogs.status := "success";
            ActivityLogs.created_at := now env |} ].
Proof.
  intros _ _ Hc Hnone out. unfold out. rewrite (mark_read_run _ _ _ _ _ Hc).
  cbn [fst snd]. split; [reflexivity|]. split; [|reflexivity].
  cbn [messages log_activity]. rewrite messages_update_read.
  rewrite <- (map_id (messages db)) at 2. apply map_ext_in.
  intros m Hm. unfold message_by_id in Hnone.
  rewrite (proj1 (find_none_iff _ _) Hnone m Hm). reflexivity.
Qed.

(** The theorem at bob marking message 99. *)
Lemma mark_read_unknown_id_witness :
  let out := mark_read (demo_env 20 "") 99 (Some [("token", "tokB")]) demo_db in
  fst out = (JObj [("status", JStr "success")], 200)
  /\ messages (snd out) = messages demo_db
  /\ activity_logs (snd out)
     = activity_logs demo_db ++
       [ {| ActivityLogs.id :=
              next_rowid (seq_activity_logs demo_db)
                (map ActivityLogs.id (activity_logs demo_db));
            ActivityLogs.user_id := VInt 2;
            ActivityLogs.action := "mark_message_read";
            ActivityLogs.details :=
              Some (append "Message ID: " (Py.str_int 99));
            ActivityLogs.ip_address := Some (remote_addr (demo_env 20 ""));
            ActivityLogs.status := "success";
            ActivityLogs.created_at := now (demo_env 20 "") |} ].
Proof.
  apply (mark_read_unknown_id (demo_env 20 "") demo_db 99
           [("token", "tokB")] 2).
  - lia.
  - vm_compute. intuition discriminate.
  - vm_compute. reflexivity.
  - vm_compute. reflexivity.
Defined.
